(** * Postman-Collection-Toolkit: the bulk-update engine of [app.py]

    A shallow embedding of the [/api/bulk-update] handler of [src/app.py]
    (the nested [process_items] walker, the header and query-parameter
    branches and the string-URL conversion), followed by the properties the
    specification states about it.

    Values are what [json.load] builds: [None], [bool], [int], [str], [list]
    and [dict].  A [dict] keeps its insertion order, so it is an association
    list; [json.load] never yields a repeated key, and [dict_set] keeps it
    that way.  Numbers are integers (float literals are outside the model) and
    a [str] is a Rocq [string], one [ascii] per code point (code points below
    256).  A raised exception is the [Raise] outcome of the [result] monad;
    the handler's [except Exception] turns it into the 500 answer. *)

From Stdlib Require Import List String Ascii ZArith Bool Arith Lia DecimalString.
Import ListNotations.
Local Open Scope list_scope.
Local Open Scope string_scope.

(** ** Values and exceptions *)

Unset Elimination Schemes.
Inductive json : Type :=
| JNull
| JBool (b : bool)
| JNum (z : Z)
| JStr (s : string)
| JArr (l : list json)
| JObj (d : list (string * json)).
Set Elimination Schemes.

Inductive exn : Type :=
| KeyError
| TypeError
| AttributeError
| IndexError
| IOError.

Inductive result (A : Type) : Type :=
| Ok (a : A)
| Raise (e : exn).

Arguments Ok {A} a.
Arguments Raise {A} e.

Definition bind {A B : Type} (m : result A) (k : A -> result B) : result B :=
  match m with
  | Ok a => k a
  | Raise e => Raise e
  end.

Notation "x <- m ;; k" := (bind m (fun x => k))
  (at level 61, m at next level, right associativity).

Fixpoint mapM {A B : Type} (f : A -> result B) (l : list A) : result (list B) :=
  match l with
  | [] => Ok []
  | x :: r => y <- f x ;; ys <- mapM f r ;; Ok (y :: ys)
  end.

Fixpoint filterM {A : Type} (f : A -> result bool) (l : list A) : result (list A) :=
  match l with
  | [] => Ok []
  | x :: r => b <- f x ;; ys <- filterM f r ;; Ok (if b then x :: ys else ys)
  end.

Fixpoint foldM {A B : Type} (f : A -> B -> result A) (a : A) (l : list B) : result A :=
  match l with
  | [] => Ok a
  | x :: r => a' <- f a x ;; foldM f a' r
  end.

(** ** Dictionaries: insertion-ordered association lists *)

Definition dict := list (string * json).

Fixpoint dict_get (k : string) (d : dict) : option json :=
  match d with
  | [] => None
  | (k', v) :: r => if String.eqb k' k then Some v else dict_get k r
  end.

(** [d[k] = v]: an existing key keeps its position, a new key goes last. *)
Fixpoint dict_set (k : string) (v : json) (d : dict) : dict :=
  match d with
  | [] => [(k, v)]
  | (k', v') :: r => if String.eqb k' k then (k', v) :: r else (k', v') :: dict_set k v r
  end.

(** ** Python strings *)

(** [sub in s] for two [str]. *)
Fixpoint contains (sub s : string) : bool :=
  String.prefix sub s ||
  match s with
  | EmptyString => false
  | String _ s' => contains sub s'
  end.

(** The scan of [s.split(sep)] for a non-empty [sep]: [skip] counts the
    characters of a separator occurrence still to be passed over, [cur] is
    the piece read so far. *)
Fixpoint split_go (sep s : string) (skip : nat) (cur : string) : list string :=
  match s with
  | EmptyString => [cur]
  | String c s' =>
      match skip with
      | S k => split_go sep s' k cur
      | O =>
          if String.prefix sep s
          then cur :: split_go sep s' (String.length sep - 1) EmptyString
          else split_go sep s' 0 (cur ++ String c EmptyString)
      end
  end.

Definition py_split (sep s : string) : list string := split_go sep s 0 EmptyString.

(** [l[n]] on a list of strings. *)
Definition py_index (l : list string) (n : nat) : result string :=
  match nth_error l n with
  | Some s => Ok s
  | None => Raise IndexError
  end.

Fixpoint chars (s : string) : list string :=
  match s with
  | EmptyString => []
  | String c s' => String c EmptyString :: chars s'
  end.

(** ** [repr] and [str] *)

Definition squote : ascii := ascii_of_nat 39.
Definition dquote : ascii := ascii_of_nat 34.
Definition backslash : ascii := ascii_of_nat 92.

Definition hex_digit (n : nat) : ascii :=
  match String.get n "0123456789abcdef" with
  | Some c => c
  | None => "0"%char
  end.

Definition repr_char (q c : ascii) : string :=
  let n := nat_of_ascii c in
  if Ascii.eqb c backslash then String backslash (String backslash EmptyString)
  else if Ascii.eqb c q then String backslash (String q EmptyString)
  else if (n =? 9)%nat then String backslash "t"
  else if (n =? 10)%nat then String backslash "n"
  else if (n =? 13)%nat then String backslash "r"
  else if ((n <? 32) || (n =? 127) || ((128 <=? n) && (n <=? 160)) || (n =? 173))%nat
  then String backslash (String "x" (String (hex_digit (n / 16)) (String (hex_digit (n mod 16)) EmptyString)))
  else String c EmptyString.

Fixpoint has_char (c : ascii) (s : string) : bool :=
  match s with
  | EmptyString => false
  | String c' s' => Ascii.eqb c' c || has_char c s'
  end.

Fixpoint repr_body (q : ascii) (s : string) : string :=
  match s with
  | EmptyString => EmptyString
  | String c s' => repr_char q c ++ repr_body q s'
  end.

(** [repr(s)] for a [str]: single quotes unless the text has a single quote
    and no double quote. *)
Definition repr_str (s : string) : string :=
  let q := if has_char squote s && negb (has_char dquote s) then dquote else squote in
  String q (repr_body q s ++ String q EmptyString).

Definition str_of_Z (z : Z) : string := NilZero.string_of_int (Z.to_int z).

Fixpoint py_repr (v : json) : string :=
  match v with
  | JNull => "None"
  | JBool true => "True"
  | JBool false => "False"
  | JNum z => str_of_Z z
  | JStr s => repr_str s
  | JArr l => "[" ++ String.concat ", " (map py_repr l) ++ "]"
  | JObj d =>
      "{" ++ String.concat ", "
               (map (fun kv => repr_str (fst kv) ++ ": " ++ py_repr (snd kv)) d) ++ "}"
  end.

(** [str(v)], which is what an f-string field [{v}] renders. *)
Definition py_str (v : json) : string :=
  match v with
  | JStr s => s
  | _ => py_repr v
  end.

(** ** Python operators on values *)

(** [a == b].  [bool] is a subclass of [int], so [True == 1]. *)
Fixpoint py_eq (a b : json) : bool :=
  match a, b with
  | JNull, JNull => true
  | JBool x, JBool y => Bool.eqb x y
  | JBool x, JNum z => Z.eqb (if x then 1 else 0) z
  | JNum z, JBool y => Z.eqb z (if y then 1 else 0)
  | JNum x, JNum y => Z.eqb x y
  | JStr x, JStr y => String.eqb x y
  | JArr x, JArr y =>
      (fix eq_list (x y : list json) : bool :=
         match x, y with
         | [], [] => true
         | u :: x', v :: y' => py_eq u v && eq_list x' y'
         | _, _ => false
         end) x y
  | JObj x, JObj y =>
      (List.length x =? List.length y)%nat &&
      (fix eq_fields (x : list (string * json)) : bool :=
         match x with
         | [] => true
         | (k, u) :: x' =>
             match dict_get k y with
             | Some v => py_eq u v
             | None => false
             end && eq_fields x'
         end) x
  | _, _ => false
  end.

(** [bool(v)]. *)
Definition py_truthy (v : json) : bool :=
  match v with
  | JNull => false
  | JBool b => b
  | JNum z => negb (Z.eqb z 0)
  | JStr s => negb (String.eqb s EmptyString)
  | JArr l => match l with [] => false | _ => true end
  | JObj d => match d with [] => false | _ => true end
  end.

(** [k in c] for a string literal [k]. *)
Definition py_in (k : string) (c : json) : result bool :=
  match c with
  | JObj d => Ok (match dict_get k d with Some _ => true | None => false end)
  | JArr l => Ok (existsb (py_eq (JStr k)) l)
  | JStr s => Ok (contains k s)
  | _ => Raise TypeError
  end.

(** [c[k]] for a string [k]. *)
Definition py_getitem (c : json) (k : string) : result json :=
  match c with
  | JObj d => match dict_get k d with Some v => Ok v | None => Raise KeyError end
  | _ => Raise TypeError
  end.

(** [c[k] = v] for a string [k]. *)
Definition py_setitem (c : json) (k : string) (v : json) : result json :=
  match c with
  | JObj d => Ok (JObj (dict_set k v d))
  | _ => Raise TypeError
  end.

(** [c.get(k, default)]. *)
Definition py_get (c : json) (k : string) (default : json) : result json :=
  match c with
  | JObj d => Ok (match dict_get k d with Some v => v | None => default end)
  | _ => Raise AttributeError
  end.

(** The elements a [for] loop over [c] visits. *)
Definition py_iter (c : json) : result (list json) :=
  match c with
  | JArr l => Ok l
  | JObj d => Ok (map (fun kv => JStr (fst kv)) d)
  | JStr s => Ok (map JStr (chars s))
  | _ => Raise TypeError
  end.

(** [c.append(v)]. *)
Definition py_append (c : json) (v : json) : result json :=
  match c with
  | JArr l => Ok (JArr (l ++ [v])%list)
  | _ => Raise AttributeError
  end.

(** [c.items()]. *)
Definition py_items (c : json) : result (list (string * json)) :=
  match c with
  | JObj d => Ok d
  | _ => Raise AttributeError
  end.

Definition as_str (v : json) : result string :=
  match v with
  | JStr s => Ok s
  | _ => Raise TypeError
  end.

(** [sep.join(c)]: every element of the iterable must be a [str]. *)
Definition py_join (sep : string) (c : json) : result string :=
  els <- py_iter c ;;
  parts <- mapM as_str els ;;
  Ok (String.concat sep parts).

(** ** String URLs (lines 138-147)

    [item['request']['url']] is a [str]: the dict that replaces it. *)

Definition normalize_url (u : string) : result json :=
  let url_parts := py_split "?" u in
  base <- py_index url_parts 0 ;;
  protocol <-
    (if contains "://" base
     then p <- py_index (py_split "://" base) 0 ;; Ok (JStr p)
     else Ok JNull) ;;
  host <-
    (if contains "://" base
     then rest <- py_index (py_split "://" base) 1 ;;
          h <- py_index (py_split "/" rest) 0 ;;
          Ok (py_split "." h)
     else h <- py_index (py_split "/" base) 0 ;;
          Ok (py_split "." h)) ;;
  path <-
    (if contains "://" base
     then rest <- py_index (py_split "://" base) 1 ;;
          Ok (tl (py_split "/" rest))
     else Ok (tl (py_split "/" base))) ;;
  Ok (JObj [("raw", JStr u);
            ("protocol", protocol);
            ("host", JArr (map JStr host));
            ("path", JArr (map JStr path));
            ("query", JArr [])]).

(** Lines 138-150: a string url is converted, and a url without ['query']
    gets an empty one. *)
Definition structured_url (url : json) : result json :=
  url1 <- match url with
          | JStr s => normalize_url s
          | _ => Ok url
          end ;;
  b <- py_in "query" url1 ;;
  if b then Ok url1 else py_setitem url1 "query" (JArr []).

(** ** The add loop shared by headers and query parameters

    [for e in l: if e['key'] == update_data['key']:
         e['value'] = update_data['value']; found = True; break]
    [None] is "not found". *)
Fixpoint update_first (update_data : json) (l : list json) : result (option (list json)) :=
  match l with
  | [] => Ok None
  | e :: r =>
      k <- py_getitem e "key" ;;
      k' <- py_getitem update_data "key" ;;
      if py_eq k k'
      then v <- py_getitem update_data "value" ;;
           e' <- py_setitem e "value" v ;;
           Ok (Some (e' :: r))
      else r' <- update_first update_data r ;;
           Ok (option_map (cons e) r')
  end.

(** The loop over the container [c], then [c.append(entry)] when nothing
    matched.  Only a [list] holds dicts the loop can assign into; a [dict] or a
    [str] yields [str] elements, on which [e['key']] raises, and has no
    [append]. *)
Definition upsert (update_data : json) (entry : result json) (c : json) : result json :=
  match c with
  | JArr l =>
      r <- update_first update_data l ;;
      match r with
      | Some l' => Ok (JArr l')
      | None => e <- entry ;; Ok (JArr (l ++ [e])%list)
      end
  | _ =>
      els <- py_iter c ;;
      _ <- update_first update_data els ;;
      Raise AttributeError
  end.

(** [[e for e in c if e['key'] != update_data['key']]] *)
Definition without_key (update_data : json) (c : json) : result json :=
  els <- py_iter c ;;
  kept <- filterM (fun e => k <- py_getitem e "key" ;;
                            k' <- py_getitem update_data "key" ;;
                            Ok (negb (py_eq k k'))) els ;;
  Ok (JArr kept).

(** ** Headers (lines 105-131) *)

Definition new_header (update_data : json) : result json :=
  k <- py_getitem update_data "key" ;;
  v <- py_getitem update_data "value" ;;
  t <- py_get update_data "type" (JStr "text") ;;
  Ok (JObj [("key", k); ("value", v); ("type", t)]).

(** Lines 108-124, on [req = item['request']]. *)
Definition headers_add (update_data req : json) : result json :=
  b <- py_in "header" req ;;
  req1 <- (if b then Ok req else py_setitem req "header" (JArr [])) ;;
  hs <- py_getitem req1 "header" ;;
  hs' <- upsert update_data (new_header update_data) hs ;;
  py_setitem req1 "header" hs'.

(** Lines 127-131, on [req = item['request']]. *)
Definition headers_remove (update_data req : json) : result json :=
  b <- py_in "header" req ;;
  if b
  then hs <- py_getitem req "header" ;;
       hs' <- without_key update_data hs ;;
       py_setitem req "header" hs'
  else Ok req.

(** ** Query parameters (lines 134-178) *)

(** Lines 167-171: the string stored in [url['raw']]. *)
Definition rebuild_raw (url : json) : result string :=
  q <- py_getitem url "query" ;;
  els <- py_iter q ;;
  parts <- mapM (fun e => k <- py_getitem e "key" ;;
                          v <- py_getitem e "value" ;;
                          Ok (py_str k ++ "=" ++ py_str v)) els ;;
  path <- py_get url "path" (JArr []) ;;
  path_part <- py_join "/" path ;;
  protocol <- py_get url "protocol" (JStr "http") ;;
  host <- py_get url "host" (JArr []) ;;
  host_part <- py_join "." host ;;
  Ok (py_str protocol ++ "://" ++ host_part ++ "/" ++ path_part ++ "?"
        ++ String.concat "&" parts).

Definition new_param (update_data : json) : result json :=
  k <- py_getitem update_data "key" ;;
  v <- py_getitem update_data "value" ;;
  Ok (JObj [("key", k); ("value", v)]).

(** Lines 153-171, on [url = item['request']['url']]. *)
Definition query_add (update_data url : json) : result json :=
  q <- py_getitem url "query" ;;
  q' <- upsert update_data (new_param update_data) q ;;
  url1 <- py_setitem url "query" q' ;;
  raw <- rebuild_raw url1 ;;
  py_setitem url1 "raw" (JStr raw).

(** Lines 174-178, on [url = item['request']['url']]. *)
Definition query_remove (update_data url : json) : result json :=
  b <- py_in "query" url ;;
  if b
  then q <- py_getitem url "query" ;;
       q' <- without_key update_data q ;;
       py_setitem url "query" q'
  else Ok url.

(** Lines 135-178, on [req = item['request']]. *)
Definition query_params_update (update_data req : json) : result json :=
  b <- py_in "url" req ;;
  if negb b then Ok req
  else
    url <- py_getitem req "url" ;;
    url1 <- structured_url url ;;
    action <- py_getitem update_data "action" ;;
    url2 <- (if py_eq action (JStr "add") then query_add update_data url1
             else if py_eq action (JStr "remove") then query_remove update_data url1
             else Ok url1) ;;
    py_setitem req "url" url2.

(** ** One item, one update (lines 104-178) *)

(** [item['request']] is read, changed in place by [f], and still the value
    under ['request']. *)
Definition with_request (item : json) (f : json -> result json) : result json :=
  req <- py_getitem item "request" ;;
  req' <- f req ;;
  py_setitem item "request" req'.

Definition headers_update (update_data item : json) : result json :=
  action <- py_getitem update_data "action" ;;
  if py_eq action (JStr "add") then with_request item (headers_add update_data)
  else if py_eq action (JStr "remove") then with_request item (headers_remove update_data)
  else Ok item.

Definition apply_update (item : json) (u : string * json) : result json :=
  let (update_type, update_data) := u in
  if String.eqb update_type "headers" then headers_update update_data item
  else if String.eqb update_type "query_params"
       then with_request item (query_params_update update_data)
       else Ok item.

(** [for update_type, update_data in updates.items(): ...] *)
Definition apply_updates (updates item : json) : result json :=
  us <- py_items updates ;;
  foldM apply_update item us.

(** ** The walker (lines 100-182) *)

(** Lines 102-178 of the loop body. *)
Definition visit_request (updates item : json) : result json :=
  b <- py_in "request" item ;;
  if b then apply_updates updates item else Ok item.

(** The loop body as the source has it, with the recursive call as a
    parameter. *)
Definition process_item_with (rec : json -> result json) (updates item : json) : result json :=
  item1 <- visit_request updates item ;;
  b <- py_in "item" item1 ;;
  if b
  then sub <- py_getitem item1 "item" ;;
       sub' <- rec sub ;;
       py_setitem item1 "item" sub'
  else Ok item1.

(** The body on an element that is a [str] (a key of a dict or a character
    of a string being iterated): [item['item']] raises before any call. *)
Definition process_leaf (updates item : json) : result json :=
  process_item_with (fun sub => Ok sub) updates item.

(** [process_items], by structural recursion on the document.  The nested
    sequence is looked up in the item as it was before the updates; they
    only assign under ['request'] ([process_item_unfold] below shows that
    this is the loop body of the source). *)
Fixpoint process_items (updates items : json) {struct items} : result json :=
  match items with
  | JArr l => l' <- mapM (process_item updates) l ;; Ok (JArr l')
  | _ => els <- py_iter items ;; _ <- mapM (process_leaf updates) els ;; Ok items
  end
with process_item (updates item : json) {struct item} : result json :=
  match item with
  | JObj d =>
      item1 <- visit_request updates item ;;
      b <- py_in "item" item1 ;;
      if b
      then sub' <- (fix find (d : list (string * json)) : result json :=
                      match d with
                      | [] => Raise KeyError
                      | (k, v) :: r =>
                          if String.eqb k "item" then process_items updates v else find r
                      end) d ;;
           py_setitem item1 "item" sub'
      else Ok item1
  | _ => process_leaf updates item
  end.

(** ** The handler (lines 84-195) *)

Inductive response : Type :=
| Success (collection : json)
| BadRequest
| ServerError (e : exn)
| Unhandled (e : exn).

(** Lines 95-193, the [try] block: [stored] is the outcome of opening and
    loading the file; writing the result back is taken to succeed. *)
Definition update_stored (updates : json) (stored : result json) : result json :=
  collection <- stored ;;
  items <- py_getitem collection "item" ;;
  items' <- process_items updates items ;;
  py_setitem collection "item" items'.

(** [data] is [request.json].  [Unhandled] is an exception raised outside
    the [try]: [secure_filename(data['filename'])] (line 91) raises
    [TypeError] there when the name is not a [str]; on a [str] it and the
    path join return.  [Success collection] is the [return] of line 190
    reached with [collection], walked and written back, handed to [jsonify]
    ([bulk_update_route] below has the answer itself). *)
Definition bulk_update (data : json) (stored : result json) : response :=
  if negb (py_truthy data) then BadRequest
  else
    match py_in "filename" data with
    | Raise e => Unhandled e
    | Ok false => BadRequest
    | Ok true =>
        match py_in "updates" data with
        | Raise e => Unhandled e
        | Ok false => BadRequest
        | Ok true =>
            match py_getitem data "filename" with
            | Raise e => Unhandled e
            | Ok (JStr _) =>
                match py_getitem data "updates" with
                | Raise e => Unhandled e
                | Ok updates =>
                    match update_stored updates stored with
                    | Ok collection => Success collection
                    | Raise e => ServerError e
                    end
                end
            | Ok _ => Unhandled TypeError
            end
        end
    end.

(** [s[n:]] *)
Fixpoint drop (n : nat) (s : string) : string :=
  match n, s with
  | O, _ => s
  | S _, EmptyString => EmptyString
  | S k, String _ s' => drop k s'
  end.

(** * The other routes and the upload folder (lines 10-81, 83-97, 186-205)

    The upload folder is a map from paths to what is there.  A file is known
    by what [json.load] makes of it: [json.dump] of a value gives a file that
    loads back as that value.  Writing a file fails only where the path is a
    directory (the folder itself exists, line 14, and is taken to be
    writable).  [secure_filename] belongs to werkzeug and is a parameter.
    [jsonify] is taken to return, except in [bulk_update_route], where the
    answer is made after the file is rewritten: there the nesting that it
    encodes is a parameter too. *)

Inductive content : Type :=
| Parsed (v : json)
| BadJson
| BadText.

Inductive node : Type :=
| Absent
| Directory
| File (c : content).

Definition store : Type := string -> node.

Definition write (st : store) (path : string) (c : content) : store :=
  fun p => if String.eqb p path then File c else st p.

(** What a view function returns: [jsonify(body), status], the 500 answer of
    an [except Exception] handler, a file sent as attachment, or an exception
    that leaves the function. *)
Inductive reply : Type :=
| Json (status : nat) (body : json)
| ServerError500
| Attachment (c : content)
| Crash.

Definition error (message : string) : json := JObj [("error", JStr message)].

Definition UPLOAD_FOLDER : string := "uploads".

(** [s.endswith(suffix)] *)
Definition ends_with (suffix s : string) : bool :=
  (String.length suffix <=? String.length s)%nat
  && String.eqb (drop (String.length s - String.length suffix) s) suffix.

(** [os.path.join(a, b)] (posixpath). *)
Definition os_path_join (a b : string) : string :=
  if String.prefix "/" b then b
  else if String.eqb a EmptyString || ends_with "/" a then a ++ b
  else a ++ "/" ++ b.

(** [open(path, 'r')] and [json.load]: the value, or the exception. *)
Definition load (st : store) (path : string) : result json :=
  match st path with
  | File (Parsed v) => Ok v
  | _ => Raise IOError
  end.

(** How deep lists and dicts nest in a value: the encoder of [jsonify]
    enters one level of recursion for each. *)
Fixpoint json_depth (v : json) : nat :=
  match v with
  | JArr l => S (fold_right (fun x n => Nat.max (json_depth x) n) 0%nat l)
  | JObj d =>
      S ((fix fields (d : list (string * json)) : nat :=
            match d with
            | [] => 0%nat
            | (_, x) :: r => Nat.max (json_depth x) (fields r)
            end) d)
  | _ => 0%nat
  end.

Section Routes.

Variable secure_filename : string -> string.

(** The nesting that [jsonify] encodes under the recursion limit of the
    interpreter; on a deeper value it raises [RecursionError]. *)
Variable encoder_depth : nat.

Definition jsonify_raises (body : json) : bool :=
  (encoder_depth <? json_depth body)%nat.

Definition upload_path (filename : string) : string :=
  os_path_join UPLOAD_FOLDER (secure_filename filename).

(** Lines 17-47.  [file] is [request.files.get('file')] as its name and its
    content. *)
Definition upload_collection (st : store) (file : option (string * content)) : reply * store :=
  match file with
  | None => (Json 400 (error "No file part"), st)
  | Some (filename, c) =>
      if String.eqb filename EmptyString
      then (Json 400 (error "No selected file"), st)
      else if negb (ends_with ".json" filename)
      then (Json 400 (error "Only JSON files are allowed"), st)
      else
        let name := secure_filename filename in
        let path := os_path_join UPLOAD_FOLDER name in
        match st path with
        | Directory => (Crash, st)
        | _ =>
            let st' := write st path c in
            match c with
            | Parsed collection =>
                match py_in "info" collection with
                | Raise _ => (Crash, st')
                | Ok false => (Json 400 (error "Invalid Postman collection format"), st')
                | Ok true =>
                    match py_in "item" collection with
                    | Raise _ => (Crash, st')
                    | Ok false =>
                        (Json 400 (error "Invalid Postman collection format"), st')
                    | Ok true =>
                        (Json 200 (JObj [("success", JBool true);
                                         ("filename", JStr name);
                                         ("collection", collection)]), st')
                    end
                end
            | BadJson => (Json 400 (error "Invalid JSON file"), st')
            | BadText => (Crash, st')
            end
        end
  end.

(** Lines 50-62. *)
Definition get_collection (st : store) (filename : string) : reply :=
  match st (upload_path filename) with
  | Absent => Json 404 (error "File not found")
  | File (Parsed collection) => Json 200 collection
  | _ => ServerError500
  end.

(** Lines 65-81.  [data] is [request.json]. *)
Definition update_collection (st : store) (data : json) : reply * store :=
  if negb (py_truthy data) then (Json 400 (error "Missing required data"), st)
  else
    match py_in "filename" data with
    | Raise _ => (Crash, st)
    | Ok false => (Json 400 (error "Missing required data"), st)
    | Ok true =>
        match py_in "collection" data with
        | Raise _ => (Crash, st)
        | Ok false => (Json 400 (error "Missing required data"), st)
        | Ok true =>
            match py_getitem data "filename" with
            | Ok (JStr filename) =>
                let path := upload_path filename in
                match st path with
                | Directory => (ServerError500, st)
                | _ =>
                    match py_getitem data "collection" with
                    | Ok collection =>
                        (Json 200 (JObj [("success", JBool true)]),
                         write st path (Parsed collection))
                    | Raise _ => (ServerError500, write st path BadJson)
                    end
                end
            | _ => (Crash, st)
            end
        end
    end.

(** Lines 84-195, with the file read and written in the folder.  The file
    is written (lines 187-188) before the answer is made (line 190), inside
    the same [try]: when [jsonify] raises on the answer, the [except] clause
    answers 500 and the file stays rewritten. *)
Definition bulk_update_route (st : store) (data : json) : reply * store :=
  if negb (py_truthy data) then (Json 400 (error "Missing required data"), st)
  else
    match py_in "filename" data with
    | Raise _ => (Crash, st)
    | Ok false => (Json 400 (error "Missing required data"), st)
    | Ok true =>
        match py_in "updates" data with
        | Raise _ => (Crash, st)
        | Ok false => (Json 400 (error "Missing required data"), st)
        | Ok true =>
            match py_getitem data "filename" with
            | Ok (JStr filename) =>
                let path := upload_path filename in
                match py_getitem data "updates" with
                | Raise _ => (Crash, st)
                | Ok updates =>
                    match update_stored updates (load st path) with
                    | Ok collection =>
                        let st' := write st path (Parsed collection) in
                        let body := JObj [("success", JBool true);
                                          ("collection", collection)] in
                        if jsonify_raises body then (ServerError500, st')
                        else (Json 200 body, st')
                    | Raise _ => (ServerError500, st)
                    end
                end
            | _ => (Crash, st)
            end
        end
    end.

(** Lines 198-205. *)
Definition export_collection (st : store) (filename : string) : reply :=
  match st (upload_path filename) with
  | Absent => Json 404 (error "File not found")
  | File c => Attachment c
  | Directory => Crash
  end.

End Routes.

(** * Vocabulary of the statements *)

(** The dict a string url becomes. *)
Definition converted (u : string) (protocol : json) (host path : list string) : json :=
  JObj [("raw", JStr u);
        ("protocol", protocol);
        ("host", JArr (map JStr host));
        ("path", JArr (map JStr path));
        ("query", JArr [])].

(** [e] is a dict with the field [k]. *)
Definition has_field (k : string) (e : json) : bool :=
  match e with
  | JObj d => match dict_get k d with Some _ => true | None => false end
  | _ => false
  end.

(** [e] is an entry (header or query parameter) whose key is [K]. *)
Definition key_is (K : string) (e : json) : bool :=
  match e with
  | JObj d => match dict_get "key" d with Some k => py_eq k (JStr K) | None => false end
  | _ => false
  end.

Definition count_key (K : string) (l : list json) : nat :=
  List.length (filter (key_is K) l).

Definition is_param (e : json) : bool := has_field "key" e && has_field "value" e.

(** The text [key=value] of a query entry. *)
Definition param_text (e : json) : string :=
  match e with
  | JObj d =>
      match dict_get "key" d, dict_get "value" d with
      | Some k, Some v => py_str k ++ "=" ++ py_str v
      | _, _ => EmptyString
      end
  | _ => EmptyString
  end.

Definition or_default {A : Type} (a : A) (o : option A) : A :=
  match o with
  | Some x => x
  | None => a
  end.

(** The directive [u] is [{action: "add", key: K, value: V, ...}]. *)
Definition add_directive (K : string) (V : json) (u : dict) : Prop :=
  dict_get "action" u = Some (JStr "add")
  /\ dict_get "key" u = Some (JStr K)
  /\ dict_get "value" u = Some V.

(** The directive [u] is [{action: "remove", key: K, ...}]. *)
Definition remove_directive (K : string) (u : dict) : Prop :=
  dict_get "action" u = Some (JStr "remove")
  /\ dict_get "key" u = Some (JStr K).

(** The add loop of the source on the list [l], seen from outside: with no
    entry of key [K], [new] is appended; otherwise the first entry of key [K]
    has its value set to [V] and nothing else changes. *)
Definition first_match_updated (K : string) (V new : json) (l l' : list json) : Prop :=
  (existsb (key_is K) l = false /\ l' = (l ++ [new])%list)
  \/ (exists pre e post,
        l = (pre ++ JObj e :: post)%list
        /\ existsb (key_is K) pre = false
        /\ key_is K (JObj e) = true
        /\ l' = (pre ++ JObj (dict_set "value" V e) :: post)%list).

Definition is_str (v : json) : bool :=
  match v with
  | JStr _ => true
  | _ => false
  end.

Definition strings_or_absent (o : option json) : bool :=
  match o with
  | None => true
  | Some (JArr l) => forallb is_str l
  | Some _ => false
  end.

(** A url as the data model has it: a string, or a dict whose host and path
    (if present) are lists of strings and whose query (if present) is a list
    of [{key, value}] dicts. *)
Definition wf_url (url : json) : bool :=
  match url with
  | JStr _ => true
  | JObj d =>
      strings_or_absent (dict_get "host" d)
      && strings_or_absent (dict_get "path" d)
      && match dict_get "query" d with
         | None => true
         | Some (JArr qs) => forallb is_param qs
         | Some _ => false
         end
  | _ => false
  end.

(** A url whose protocol the data model has: a string with a scheme ("://"
    in its part before the first '?'), or a dict whose protocol is a string
    or is absent. *)
Definition scheme_known (url : json) : bool :=
  match url with
  | JStr s =>
      match py_index (py_split "?" s) 0 with
      | Ok base => contains "://" base
      | Raise _ => false
      end
  | JObj d =>
      match dict_get "protocol" d with
      | None => true
      | Some (JStr _) => true
      | Some _ => false
      end
  | _ => false
  end.

(** The texts of a list of segments, none for an absent list. *)
Definition texts (o : option json) : list string :=
  match o with
  | Some (JArr l) => map py_str l
  | _ => []
  end.

(** [rebuildRaw] as the specification words it (section 4.1), on the dict of
    a structured url: the protocol, "http" when there is none; the host
    segments joined with "."; the path segments joined with "/"; the query
    entries as key=value joined with "&"; put together as
    protocol://host/path?query. *)
Definition rebuildRaw (d : dict) : string :=
  match dict_get "protocol" d with
  | Some (JStr p) => p
  | _ => "http"
  end
  ++ "://" ++ String.concat "." (texts (dict_get "host" d))
  ++ "/" ++ String.concat "/" (texts (dict_get "path" d))
  ++ "?" ++ String.concat "&" (map param_text (match dict_get "query" d with
                                               | Some (JArr qs) => qs
                                               | _ => []
                                               end)).

(** A url whose query entries (if any) are dicts with a key. *)
Definition keyed_url (url : json) : bool :=
  match url with
  | JStr _ => true
  | JObj d =>
      match dict_get "query" d with
      | None => true
      | Some (JArr qs) => forallb (has_field "key") qs
      | Some _ => false
      end
  | _ => false
  end.

(** The requests of a tree of items, in the order the walker meets them: an
    item's own request, then those of its nested items, then its siblings'. *)
Fixpoint requests_of (items : json) {struct items} : list json :=
  match items with
  | JArr l => flat_map node_requests l
  | _ => []
  end
with node_requests (item : json) {struct item} : list json :=
  match item with
  | JObj d =>
      (match dict_get "request" d with
       | Some req => [req]
       | None => []
       end
       ++ (fix nested (d : list (string * json)) : list json :=
             match d with
             | [] => []
             | (k, v) :: r => if String.eqb k "item" then requests_of v else nested r
             end) d)%list
  | _ => []
  end.

(** An item sequence as the data model has it: a list of dicts whose
    ['item'], if present, is again such a list. *)
Fixpoint wf_tree (items : json) {struct items} : bool :=
  match items with
  | JArr l => forallb wf_node l
  | _ => false
  end
with wf_node (item : json) {struct item} : bool :=
  match item with
  | JObj d =>
      (fix nested (d : list (string * json)) : bool :=
         match d with
         | [] => true
         | (k, v) :: r => if String.eqb k "item" then wf_tree v else nested r
         end) d
  | _ => false
  end.

(** What the updates do to a request: [apply_updates] on an item that holds
    only that request. *)
Definition update_request (updates req : json) : result json :=
  item <- apply_updates updates (JObj [("request", req)]) ;;
  py_getitem item "request".

(** [apply_update] seen from [item['request']]. *)
Definition update_step (u : string * json) (req : json) : result json :=
  let (update_type, update_data) := u in
  if String.eqb update_type "headers"
  then action <- py_getitem update_data "action" ;;
       if py_eq action (JStr "add") then headers_add update_data req
       else if py_eq action (JStr "remove") then headers_remove update_data req
       else Ok req
  else if String.eqb update_type "query_params"
       then query_params_update update_data req
       else Ok req.

(** The directive [u] of type [update_type] lacks a field that the code
    reads on the request [req]: an add without key or value (on any request
    for headers, on a request with a url for query parameters), or a remove
    without key on a request with at least one header, resp. one query
    entry. *)
Inductive reads_missing (u : dict) : string -> json -> Prop :=
| headers_add_reads (req : json) :
    dict_get "action" u = Some (JStr "add") ->
    dict_get "key" u = None \/ dict_get "value" u = None ->
    reads_missing u "headers" req
| query_add_reads (req : json) :
    dict_get "action" u = Some (JStr "add") ->
    dict_get "key" u = None \/ dict_get "value" u = None ->
    py_in "url" req = Ok true ->
    reads_missing u "query_params" req
| headers_remove_reads (r : dict) (h : json) (hs : list json) :
    dict_get "action" u = Some (JStr "remove") ->
    dict_get "key" u = None ->
    dict_get "header" r = Some (JArr (h :: hs)) ->
    reads_missing u "headers" (JObj r)
| query_remove_reads (r d0 : dict) (url q : json) (qs : list json) :
    dict_get "action" u = Some (JStr "remove") ->
    dict_get "key" u = None ->
    dict_get "url" r = Some url ->
    structured_url url = Ok (JObj d0) ->
    dict_get "query" d0 = Some (JArr (q :: qs)) ->
    reads_missing u "query_params" (JObj r).

(** ** Vocabulary of the further properties *)

(** A request as the data model has it for the header branch: a dict whose
    ['header'], if present, is a list of dicts that all have a key. *)
Definition keyed_headers (req : json) : bool :=
  match req with
  | JObj r =>
      match dict_get "header" r with
      | None => true
      | Some (JArr hs) => forallb (has_field "key") hs
      | Some _ => false
      end
  | _ => false
  end.

(** The tree of items with every request blanked: what is left is the
    nesting, the order and every other field of every item. *)
Fixpoint erase_requests (items : json) {struct items} : json :=
  match items with
  | JArr l => JArr (map erase_node l)
  | _ => items
  end
with erase_node (item : json) {struct item} : json :=
  match item with
  | JObj d =>
      JObj ((fix fields (d : list (string * json)) : list (string * json) :=
               match d with
               | [] => []
               | (k, v) :: r =>
                   (if String.eqb k "request" then (k, JNull)
                    else if String.eqb k "item" then (k, erase_requests v)
                    else (k, v)) :: fields r
               end) d)
  | _ => item
  end.

(** [erase_node] on one field of an item. *)
Definition erase_field (kv : string * json) : string * json :=
  if String.eqb (fst kv) "request" then (fst kv, JNull)
  else if String.eqb (fst kv) "item" then (fst kv, erase_requests (snd kv))
  else kv.

(** The request [req] has no header with key [K]. *)
Definition no_header_with (K : string) (req : json) : bool :=
  match req with
  | JObj r =>
      match dict_get "header" r with
      | None => true
      | Some (JArr hs) => (count_key K hs =? 0)%nat
      | Some _ => false
      end
  | _ => false
  end.

(** A directive the loop body passes over: an update type other than
    "headers" and "query_params", or a headers directive whose action is
    neither "add" nor "remove". *)
Definition passed_over (u : string * json) : Prop :=
  (fst u <> "headers" /\ fst u <> "query_params")
  \/ (fst u = "headers"
      /\ exists action, py_getitem (snd u) "action" = Ok action
                        /\ py_eq action (JStr "add") = false
                        /\ py_eq action (JStr "remove") = false).

(** ** Vocabulary of the coverage of the walk *)














(** The item sequence [items] under [n] nested folders. *)
Fixpoint folders (n : nat) (items : json) : json :=
  match n with
  | O => items
  | S k => JArr [JObj [("item", folders k items)]]
  end.

(** ** Induction on values *)

Section JsonInd.
Variable P : json -> Prop.
Hypothesis HNull : P JNull.
Hypothesis HBool : forall b, P (JBool b).
Hypothesis HNum : forall z, P (JNum z).
Hypothesis HStr : forall s, P (JStr s).
Hypothesis HArr : forall l, Forall P l -> P (JArr l).
Hypothesis HObj : forall d, Forall (fun kv => P (snd kv)) d -> P (JObj d).

Fixpoint json_ind (v : json) : P v :=
  match v with
  | JNull => HNull
  | JBool b => HBool b
  | JNum z => HNum z
  | JStr s => HStr s
  | JArr l =>
      HArr l ((fix all (l : list json) : Forall P l :=
               match l with
               | [] => Forall_nil P
               | x :: r => Forall_cons x (json_ind x) (all r)
               end) l)
  | JObj d =>
      HObj d ((fix all (d : list (string * json)) : Forall (fun kv => P (snd kv)) d :=
               match d with
               | [] => Forall_nil _
               | kv :: r => Forall_cons kv (json_ind (snd kv)) (all r)
               end) d)
  end.
End JsonInd.

(** * Properties *)

Ltac raised := eexists; reflexivity.


(** ** The primitives on concrete inputs *)

Example py_split_scheme : py_split "://" "a://b://c" = ["a"; "b"; "c"].
Proof. reflexivity. Qed.

Example py_split_non_overlapping :
  py_split "aa" "aaaaa" = [EmptyString; EmptyString; "a"].
Proof. reflexivity. Qed.

Example py_split_trailing_separator :
  py_split "?" "a?b?c?" = ["a"; "b"; "c"; EmptyString].
Proof. reflexivity. Qed.

Example py_split_empty_text : py_split "/" EmptyString = [EmptyString].
Proof. reflexivity. Qed.

Example py_eq_bool_is_int : py_eq (JBool true) (JNum 1) = true.
Proof. reflexivity. Qed.

Example py_str_of_values :
  py_str JNull = "None"
  /\ py_str (JNum (-5)) = "-5"
  /\ py_str (JArr [JStr "a"; JBool false; JObj [("k", JNull)]]) = "['a', False, {'k': None}]".
Proof. repeat split. Qed.

Example normalize_url_without_scheme :
  normalize_url "example.com/a/b?x=1"
  = Ok (JObj [("raw", JStr "example.com/a/b?x=1");
              ("protocol", JNull);
              ("host", JArr [JStr "example"; JStr "com"]);
              ("path", JArr [JStr "a"; JStr "b"]);
              ("query", JArr [])]).
Proof. reflexivity. Qed.

Example process_items_on_key_strings :
  process_items (JObj []) (JObj [("request", JNull); ("item", JNull)])
  = Raise TypeError.
Proof. reflexivity. Qed.

(** ** The result monad *)

Lemma bind_ok {A B : Type} (m : result A) (k : A -> result B) (b : B) :
  bind m k = Ok b -> exists a, m = Ok a /\ k a = Ok b.
Proof.
  destruct m as [a|e]; simpl; intros H; [exists a; auto | discriminate].
Qed.

Lemma mapM_app {A B : Type} (f : A -> result B) (l1 l2 : list A) :
  mapM f (l1 ++ l2)%list
  = (x <- mapM f l1 ;; y <- mapM f l2 ;; Ok (x ++ y)%list).
Proof.
  induction l1 as [|a l1 IH]; simpl.
  - destruct (mapM f l2); reflexivity.
  - destruct (f a); simpl; [|reflexivity].
    rewrite IH. destruct (mapM f l1); simpl; [|reflexivity].
    destruct (mapM f l2); reflexivity.
Qed.

Lemma mapM_as_str (l : list string) : mapM as_str (map JStr l) = Ok l.
Proof.
  induction l as [|s l IH]; simpl; [reflexivity|]. rewrite IH. reflexivity.
Qed.

Lemma py_join_strings (sep : string) (l : list string) :
  py_join sep (JArr (map JStr l)) = Ok (String.concat sep l).
Proof.
  unfold py_join. simpl. rewrite mapM_as_str. reflexivity.
Qed.

(** ** Dictionaries *)

Lemma dict_get_set_same (k : string) (v : json) (d : dict) :
  dict_get k (dict_set k v d) = Some v.
Proof.
  induction d as [|[k' v'] d IH]; simpl.
  - rewrite String.eqb_refl. reflexivity.
  - destruct (String.eqb k' k) eqn:E; simpl; rewrite E; auto.
Qed.

Lemma dict_get_set_other (k k' : string) (v : json) (d : dict) :
  k <> k' -> dict_get k' (dict_set k v d) = dict_get k' d.
Proof.
  intros Hne. induction d as [|[k0 v0] d IH]; simpl.
  - destruct (String.eqb k k') eqn:E; [apply String.eqb_eq in E; contradiction | reflexivity].
  - destruct (String.eqb k0 k) eqn:E; simpl.
    + apply String.eqb_eq in E. subst k0.
      destruct (String.eqb k k') eqn:E'; [apply String.eqb_eq in E'; contradiction | reflexivity].
    + rewrite IH. reflexivity.
Qed.

Lemma dict_set_get_id (k : string) (v : json) (d : dict) :
  dict_get k d = Some v -> dict_set k v d = d.
Proof.
  induction d as [|[k' v'] d IH]; simpl; [discriminate|].
  destruct (String.eqb k' k) eqn:E; intros H.
  - congruence.
  - rewrite IH by assumption. reflexivity.
Qed.

Lemma dict_set_set (k : string) (v1 v2 : json) (d : dict) :
  dict_set k v2 (dict_set k v1 d) = dict_set k v2 d.
Proof.
  induction d as [|[k' v'] d IH]; simpl.
  - rewrite String.eqb_refl. reflexivity.
  - destruct (String.eqb k' k) eqn:E; simpl; rewrite E; [reflexivity | rewrite IH; reflexivity].
Qed.

(** ** [split] *)

Lemma split_go_nonempty (sep s : string) (skip : nat) (cur : string) :
  exists x r, split_go sep s skip cur = x :: r.
Proof.
  revert skip cur. induction s as [|c s IH]; intros skip cur; cbn [split_go].
  - eauto.
  - destruct skip as [|k]; [|apply IH].
    destruct (String.prefix sep (String c s)); [eauto | apply IH].
Qed.

Lemma py_index_first (sep s : string) :
  exists x, py_index (py_split sep s) 0 = Ok x.
Proof.
  unfold py_split. destruct (split_go_nonempty sep s 0 EmptyString) as (x & r & E).
  rewrite E. exists x. reflexivity.
Qed.

Lemma contains_cons (sub : string) (c : ascii) (s : string) :
  contains sub (String c s) = String.prefix sub (String c s) || contains sub s.
Proof. reflexivity. Qed.

Lemma split_go_two (c0 : ascii) (sep0 s cur : string) :
  contains (String c0 sep0) s = true ->
  exists x y r, split_go (String c0 sep0) s 0 cur = x :: y :: r.
Proof.
  revert cur. induction s as [|c s IH]; intros cur H.
  - discriminate.
  - rewrite contains_cons in H.
    cbn [split_go].
    destruct (String.prefix (String c0 sep0) (String c s)) eqn:E.
    + destruct (split_go_nonempty (String c0 sep0) s
                  (String.length (String c0 sep0) - 1) EmptyString) as (y & r & E').
      rewrite E'. eauto.
    + simpl in H. apply IH. exact H.
Qed.

Lemma py_index_second (c0 : ascii) (sep0 s : string) :
  contains (String c0 sep0) s = true ->
  exists x, py_index (py_split (String c0 sep0) s) 1 = Ok x.
Proof.
  intros H. unfold py_split.
  destruct (split_go_two c0 sep0 s EmptyString H) as (x & y & r & E).
  rewrite E. exists y. reflexivity.
Qed.

Lemma normalize_url_total (u : string) :
  exists protocol host path,
    normalize_url u = Ok (converted u protocol host path)
    /\ (forall base, py_index (py_split "?" u) 0 = Ok base ->
        contains "://" base = false -> protocol = JNull).
Proof.
  unfold normalize_url.
  destruct (py_index_first "?" u) as (base & Eb). rewrite Eb. cbn [bind].
  destruct (contains "://" base) eqn:Ec.
  - destruct (py_index_first "://" base) as (p & Ep). rewrite Ep. cbn [bind].
    destruct (py_index_second ":" "//" base Ec) as (rest & Er). rewrite Er. cbn [bind].
    destruct (py_index_first "/" rest) as (h & Eh). rewrite Eh. cbn [bind].
    exists (JStr p), (py_split "." h), (tl (py_split "/" rest)).
    split; [reflexivity|]. intros b Hb Hc. congruence.
  - destruct (py_index_first "/" base) as (h & Eh). rewrite Eh. cbn [bind].
    exists JNull, (py_split "." h), (tl (py_split "/" base)).
    split; reflexivity.
Qed.

(** ** Access paths *)

Lemma with_request_obj (d : dict) (req : json) (f : json -> result json) :
  dict_get "request" d = Some req ->
  with_request (JObj d) f = (req' <- f req ;; Ok (JObj (dict_set "request" req' d))).
Proof.
  intros H. unfold with_request. simpl. rewrite H. reflexivity.
Qed.

Lemma py_in_obj (k : string) (d : dict) (v : json) :
  dict_get k d = Some v -> py_in k (JObj d) = Ok true.
Proof. intros H. simpl. rewrite H. reflexivity. Qed.

Lemma py_getitem_obj (k : string) (d : dict) (v : json) :
  dict_get k d = Some v -> py_getitem (JObj d) k = Ok v.
Proof. intros H. simpl. rewrite H. reflexivity. Qed.

(** ** String urls *)

Lemma structured_url_string (u : string) :
  structured_url (JStr u) = normalize_url u.
Proof.
  unfold structured_url.
  destruct (normalize_url_total u) as (p & h & pa & E & _).
  rewrite E. reflexivity.
Qed.

(** C6: a string url becomes a dict whose query list is empty (the text
    after the first '?' is not parsed) and whose raw is the input string. *)
Theorem normalize_url_empty_query_same_raw (u : string) :
  exists d,
    normalize_url u = Ok (JObj d)
    /\ structured_url (JStr u) = Ok (JObj d)
    /\ dict_get "query" d = Some (JArr [])
    /\ dict_get "raw" d = Some (JStr u).
Proof.
  destruct (normalize_url_total u) as (p & h & pa & E & _).
  rewrite structured_url_string, E.
  eexists. split; [reflexivity|]. split; [reflexivity|]. split; reflexivity.
Qed.

(** ** Rebuilding raw *)

Lemma mapM_param_text (qs : list json) :
  forallb is_param qs = true ->
  mapM (fun e => k <- py_getitem e "key" ;;
                 v <- py_getitem e "value" ;;
                 Ok (py_str k ++ "=" ++ py_str v)) qs
  = Ok (map param_text qs).
Proof.
  induction qs as [|q qs IH]; intros H; [reflexivity|].
  cbn [forallb] in H. apply andb_true_iff in H. destruct H as [Hq Hqs].
  cbn [mapM map]. rewrite (IH Hqs).
  destruct q as [| | | | |e]; try discriminate.
  unfold is_param, has_field in Hq. unfold param_text, py_getitem.
  destruct (dict_get "key" e); [|discriminate].
  destruct (dict_get "value" e); [|discriminate].
  reflexivity.
Qed.

Lemma rebuild_raw_eq (d : dict) (qs : list json)
      (protocol : option json) (host path : option (list string)) :
  dict_get "query" d = Some (JArr qs) ->
  forallb is_param qs = true ->
  dict_get "protocol" d = protocol ->
  dict_get "host" d = option_map (fun l => JArr (map JStr l)) host ->
  dict_get "path" d = option_map (fun l => JArr (map JStr l)) path ->
  rebuild_raw (JObj d)
  = Ok (py_str (or_default (JStr "http") protocol) ++ "://"
          ++ String.concat "." (or_default [] host) ++ "/"
          ++ String.concat "/" (or_default [] path) ++ "?"
          ++ String.concat "&" (map param_text qs)).
Proof.
  intros Hq Hqs Hp Hh Hpa. unfold rebuild_raw.
  rewrite (py_getitem_obj _ _ _ Hq). cbn [bind py_iter].
  rewrite (mapM_param_text _ Hqs). cbn [bind py_get].
  rewrite Hpa, Hp, Hh.
  assert (J : forall sep (o : option (list string)),
             py_join sep (match option_map (fun l => JArr (map JStr l)) o with
                          | Some v => v
                          | None => JArr []
                          end)
             = Ok (String.concat sep (or_default [] o))).
  { intros sep [l|]; [apply py_join_strings | reflexivity]. }
  rewrite !J. cbn [bind]. destruct protocol; reflexivity.
Qed.

(** C10: on a structured url whose protocol, host or path may be absent,
    the rebuild returns protocol://host/path?query, with "http" for an absent
    protocol and the empty sequence for an absent host or path. *)
Theorem rebuild_raw_total_on_missing_fields (d : dict) (qs : list json)
        (protocol : option json) (host path : option (list string)) :
  dict_get "query" d = Some (JArr qs) ->
  forallb is_param qs = true ->
  dict_get "protocol" d = protocol ->
  dict_get "host" d = option_map (fun l => JArr (map JStr l)) host ->
  dict_get "path" d = option_map (fun l => JArr (map JStr l)) path ->
  rebuild_raw (JObj d)
  = Ok (py_str (or_default (JStr "http") protocol) ++ "://"
          ++ String.concat "." (or_default [] host) ++ "/"
          ++ String.concat "/" (or_default [] path) ++ "?"
          ++ String.concat "&" (map param_text qs))
  /\ (protocol = None -> host = None -> path = None ->
      rebuild_raw (JObj d)
      = Ok ("http:///?" ++ String.concat "&" (map param_text qs))).
Proof.
  intros Hq Hqs Hp Hh Hpa.
  pose proof (rebuild_raw_eq d qs protocol host path Hq Hqs Hp Hh Hpa) as E.
  split; [exact E|].
  intros -> -> ->. rewrite E. reflexivity.
Qed.

Lemma rebuild_raw_total_on_missing_fields_witness :
  rebuild_raw (JObj [("query", JArr [JObj [("key", JStr "a"); ("value", JStr "1")]])])
  = Ok "http:///?a=1".
Proof.
  apply (rebuild_raw_total_on_missing_fields
           [("query", JArr [JObj [("key", JStr "a"); ("value", JStr "1")]])]
           [JObj [("key", JStr "a"); ("value", JStr "1")]]
           None None None);
    reflexivity.
Defined.

(** ** Adding to a freshly converted url *)

Lemma query_add_converted (u : dict) (s : string) (p : json) (host path : list string)
      (K : string) (V : json) :
  add_directive K V u ->
  query_add (JObj u) (converted s p host path)
  = Ok (JObj [("raw", JStr (py_str p ++ "://" ++ String.concat "." host ++ "/"
                              ++ String.concat "/" path ++ "?" ++ (K ++ "=" ++ py_str V)));
              ("protocol", p);
              ("host", JArr (map JStr host));
              ("path", JArr (map JStr path));
              ("query", JArr [JObj [("key", JStr K); ("value", V)]])]).
Proof.
  intros (Ha & Hk & Hv).
  unfold query_add, converted.
  cbn [py_getitem dict_get String.eqb Ascii.eqb Bool.eqb bind upsert update_first].
  unfold new_param. rewrite (py_getitem_obj _ _ _ Hk), (py_getitem_obj _ _ _ Hv).
  cbn [bind app py_setitem dict_set String.eqb Ascii.eqb Bool.eqb].
  rewrite (rebuild_raw_eq _ [JObj [("key", JStr K); ("value", V)]]
             (Some p) (Some host) (Some path)); reflexivity.
Qed.

Lemma query_params_add_string (d r u : dict) (s : string) (K : string) (V : json) :
  dict_get "request" d = Some (JObj r) ->
  dict_get "url" r = Some (JStr s) ->
  add_directive K V u ->
  exists p host path,
    normalize_url s = Ok (converted s p host path)
    /\ (forall base, py_index (py_split "?" s) 0 = Ok base ->
        contains "://" base = false -> p = JNull)
    /\ apply_update (JObj d) ("query_params", JObj u)
       = (url <- query_add (JObj u) (converted s p host path) ;;
          Ok (JObj (dict_set "request" (JObj (dict_set "url" url r)) d))).
Proof.
  intros Hr Hu Hd.
  destruct (normalize_url_total s) as (p & host & path & E & Hp).
  exists p, host, path. split; [exact E|]. split; [exact Hp|].
  cbn [apply_update String.eqb Ascii.eqb Bool.eqb].
  rewrite (with_request_obj _ _ _ Hr).
  unfold query_params_update.
  rewrite (py_in_obj _ _ _ Hu). cbn [bind negb].
  rewrite (py_getitem_obj _ _ _ Hu). cbn [bind].
  rewrite structured_url_string, E. cbn [bind].
  destruct Hd as (Ha & Hk & Hv).
  rewrite (py_getitem_obj _ _ _ Ha). cbn [bind py_eq String.eqb Ascii.eqb Bool.eqb].
  destruct (query_add (JObj u) (converted s p host path)); reflexivity.
Qed.

(** C7 (the code departs from it): for a string url whose base has no
    "://", the conversion stores protocol None, present in the dict, and a
    query add then rebuilds a raw that starts with "None://", not "http://". *)
Theorem schemeless_string_url_raw_starts_with_None
        (d r u : dict) (s base : string) (K : string) (V : json) :
  dict_get "request" d = Some (JObj r) ->
  dict_get "url" r = Some (JStr s) ->
  py_index (py_split "?" s) 0 = Ok base ->
  contains "://" base = false ->
  add_directive K V u ->
  exists url rest,
    apply_update (JObj d) ("query_params", JObj u)
    = Ok (JObj (dict_set "request" (JObj (dict_set "url" (JObj url) r)) d))
    /\ dict_get "protocol" url = Some JNull
    /\ dict_get "raw" url = Some (JStr ("None://" ++ rest))
    /\ (forall rest', "None://" ++ rest <> "http://" ++ rest').
Proof.
  intros Hr Hu Hb Hc Hd.
  destruct (query_params_add_string d r u s K V Hr Hu Hd) as (p & host & path & _ & Hp & E).
  rewrite (Hp base Hb Hc) in E.
  rewrite (query_add_converted u s JNull host path K V Hd) in E. cbn [bind] in E.
  eexists. eexists. split; [exact E|].
  split; [reflexivity|]. split; [reflexivity|].
  intros rest'. discriminate.
Qed.

Lemma schemeless_string_url_raw_starts_with_None_witness :
  exists url rest,
    apply_update (JObj [("request", JObj [("url", JStr "example.com/a")])])
                 ("query_params",
                  JObj [("action", JStr "add"); ("key", JStr "k"); ("value", JStr "v")])
    = Ok (JObj (dict_set "request"
                  (JObj (dict_set "url" (JObj url) [("url", JStr "example.com/a")]))
                  [("request", JObj [("url", JStr "example.com/a")])]))
    /\ dict_get "protocol" url = Some JNull
    /\ dict_get "raw" url = Some (JStr ("None://" ++ rest))
    /\ (forall rest', "None://" ++ rest <> "http://" ++ rest').
Proof.
  apply (schemeless_string_url_raw_starts_with_None
           [("request", JObj [("url", JStr "example.com/a")])]
           [("url", JStr "example.com/a")]
           [("action", JStr "add"); ("key", JStr "k"); ("value", JStr "v")]
           "example.com/a" "example.com/a" "k" (JStr "v")).
  - reflexivity.
  - reflexivity.
  - reflexivity.
  - reflexivity.
  - repeat split.
Defined.

(** C8: the url "https://api.example.com/v1/users" with
    query_params add limit=10, through the whole handler. *)
Theorem string_url_example :
  apply_update
    (JObj [("request", JObj [("url", JStr "https://api.example.com/v1/users")])])
    ("query_params", JObj [("action", JStr "add"); ("key", JStr "limit"); ("value", JStr "10")])
  = Ok (JObj [("request",
               JObj [("url",
                      JObj [("raw", JStr "https://api.example.com/v1/users?limit=10");
                            ("protocol", JStr "https");
                            ("host", JArr [JStr "api"; JStr "example"; JStr "com"]);
                            ("path", JArr [JStr "v1"; JStr "users"]);
                            ("query", JArr [JObj [("key", JStr "limit");
                                                  ("value", JStr "10")]])])])])
  /\ bulk_update
       (JObj [("filename", JStr "c.json");
              ("updates",
               JObj [("query_params",
                      JObj [("action", JStr "add"); ("key", JStr "limit");
                            ("value", JStr "10")])])])
       (Ok (JObj [("info", JObj []);
                  ("item",
                   JArr [JObj [("request",
                                JObj [("url", JStr "https://api.example.com/v1/users")])]])]))
     = Success
         (JObj [("info", JObj []);
                ("item",
                 JArr [JObj [("request",
                   JObj [("url",
                      JObj [("raw", JStr "https://api.example.com/v1/users?limit=10");
                            ("protocol", JStr "https");
                            ("host", JArr [JStr "api"; JStr "example"; JStr "com"]);
                            ("path", JArr [JStr "v1"; JStr "users"]);
                            ("query", JArr [JObj [("key", JStr "limit");
                                                  ("value", JStr "10")]])])])]])]).
Proof.
  split; vm_compute; reflexivity.
Qed.

(** ** The add loop *)

Lemma key_is_set_value (K : string) (V : json) (e : dict) :
  key_is K (JObj (dict_set "value" V e)) = key_is K (JObj e).
Proof.
  unfold key_is. rewrite dict_get_set_other by discriminate. reflexivity.
Qed.

Lemma first_match_split (p : json -> bool) (l : list json) :
  existsb p l = true ->
  exists pre x post,
    l = (pre ++ x :: post)%list /\ existsb p pre = false /\ p x = true.
Proof.
  induction l as [|a l IH]; simpl; [discriminate|].
  destruct (p a) eqn:E; simpl; intros H.
  - exists [], a, l. auto.
  - destruct (IH H) as (pre & x & post & -> & Hpre & Hx).
    exists (a :: pre), x, post. simpl. rewrite E. auto.
Qed.

Lemma update_first_none (u : dict) (K : string) (l : list json) :
  dict_get "key" u = Some (JStr K) ->
  forallb (has_field "key") l = true ->
  existsb (key_is K) l = false ->
  update_first (JObj u) l = Ok None.
Proof.
  intros Hk. induction l as [|e l IH]; intros Hf Hn; [reflexivity|].
  cbn [forallb] in Hf. apply andb_true_iff in Hf. destruct Hf as [He Hf].
  cbn [existsb] in Hn. apply orb_false_iff in Hn. destruct Hn as [Hne Hn].
  cbn [update_first].
  destruct e as [| | | | |e]; try discriminate.
  unfold has_field in He. unfold key_is in Hne. unfold py_getitem at 1.
  destruct (dict_get "key" e) as [k|]; [|discriminate].
  cbn [bind]. rewrite (py_getitem_obj _ _ _ Hk). cbn [bind].
  rewrite Hne, (IH Hf Hn). reflexivity.
Qed.

Lemma update_first_some (u : dict) (K : string) (V : json)
      (pre : list json) (e : dict) (post : list json) :
  dict_get "key" u = Some (JStr K) ->
  dict_get "value" u = Some V ->
  forallb (has_field "key") pre = true ->
  existsb (key_is K) pre = false ->
  key_is K (JObj e) = true ->
  update_first (JObj u) (pre ++ JObj e :: post)
  = Ok (Some (pre ++ JObj (dict_set "value" V e) :: post)%list).
Proof.
  intros Hk Hv. induction pre as [|a pre IH]; intros Hf Hn He.
  - cbn [app update_first]. unfold key_is in He. unfold py_getitem at 1.
    destruct (dict_get "key" e) as [k|]; [|discriminate].
    cbn [bind]. rewrite (py_getitem_obj _ _ _ Hk). cbn [bind].
    rewrite He, (py_getitem_obj _ _ _ Hv). reflexivity.
  - cbn [forallb] in Hf. apply andb_true_iff in Hf. destruct Hf as [Ha Hf].
    cbn [existsb] in Hn. apply orb_false_iff in Hn. destruct Hn as [Hna Hn].
    cbn [app update_first].
    destruct a as [| | | | |a]; try discriminate.
    unfold has_field in Ha. unfold key_is in Hna. unfold py_getitem at 1.
    destruct (dict_get "key" a) as [k|]; [|discriminate].
    cbn [bind]. rewrite (py_getitem_obj _ _ _ Hk). cbn [bind].
    rewrite Hna, (IH Hf Hn He). reflexivity.
Qed.

Lemma count_key_app (K : string) (l1 l2 : list json) :
  count_key K (l1 ++ l2) = count_key K l1 + count_key K l2.
Proof.
  unfold count_key. rewrite filter_app, length_app. reflexivity.
Qed.

Lemma count_key_none (K : string) (l : list json) :
  existsb (key_is K) l = false -> count_key K l = 0.
Proof.
  unfold count_key. induction l as [|a l IH]; simpl; [reflexivity|].
  destruct (key_is K a); simpl; [discriminate | exact IH].
Qed.

Lemma count_key_cons (K : string) (x : json) (l : list json) :
  count_key K (x :: l) = (if key_is K x then 1 else 0) + count_key K l.
Proof.
  unfold count_key. simpl. destruct (key_is K x); reflexivity.
Qed.

Lemma first_match_updated_count (K : string) (V new : json) (l l' : list json) :
  key_is K new = true ->
  first_match_updated K V new l l' ->
  count_key K l' = Nat.max 1 (count_key K l).
Proof.
  intros Hnew [[Hn ->] | (pre & e & post & -> & Hpre & He & ->)].
  - rewrite count_key_app, (count_key_none _ _ Hn), count_key_cons, Hnew. reflexivity.
  - rewrite !count_key_app, !count_key_cons, key_is_set_value, He,
      (count_key_none _ _ Hpre). reflexivity.
Qed.

(** The loop and the append on a list of entries that all have a key. *)
Lemma upsert_list (u : dict) (K : string) (V new : json) (entry : result json)
      (l : list json) :
  add_directive K V u ->
  entry = Ok new ->
  forallb (has_field "key") l = true ->
  exists l',
    upsert (JObj u) entry (JArr l) = Ok (JArr l')
    /\ first_match_updated K V new l l'.
Proof.
  intros (_ & Hk & Hv) -> Hf. cbn [upsert].
  destruct (existsb (key_is K) l) eqn:E.
  - destruct (first_match_split _ _ E) as (pre & x & post & -> & Hpre & Hx).
    destruct x as [| | | | |e]; try discriminate.
    rewrite forallb_app in Hf. apply andb_true_iff in Hf. destruct Hf as [Hf _].
    rewrite (update_first_some u K V pre e post Hk Hv Hf Hpre Hx). cbn [bind].
    eexists. split; [reflexivity|].
    right. exists pre, e, post. auto.
  - rewrite (update_first_none u K l Hk Hf E). cbn [bind].
    eexists. split; [reflexivity|]. left. auto.
Qed.

Lemma without_key_list (u : dict) (K : string) (l : list json) :
  dict_get "key" u = Some (JStr K) ->
  forallb (has_field "key") l = true ->
  without_key (JObj u) (JArr l) = Ok (JArr (filter (fun e => negb (key_is K e)) l)).
Proof.
  intros Hk Hf. unfold without_key. cbn [py_iter bind].
  assert (E : filterM (fun e => k <- py_getitem e "key" ;;
                                k' <- py_getitem (JObj u) "key" ;;
                                Ok (negb (py_eq k k'))) l
              = Ok (filter (fun e => negb (key_is K e)) l)).
  { induction l as [|e l IH]; [reflexivity|].
    cbn [forallb] in Hf. apply andb_true_iff in Hf. destruct Hf as [He Hf].
    cbn [filterM filter]. rewrite (IH Hf).
    destruct e as [| | | | |e]; try discriminate.
    unfold has_field in He. unfold key_is. unfold py_getitem at 1.
    destruct (dict_get "key" e) as [k|]; [|discriminate].
    cbn [bind]. rewrite (py_getitem_obj _ _ _ Hk). cbn [bind].
    destruct (py_eq k (JStr K)); reflexivity. }
  rewrite E. reflexivity.
Qed.

Lemma count_key_filtered (K : string) (l : list json) :
  count_key K (filter (fun e => negb (key_is K e)) l) = 0.
Proof.
  unfold count_key. induction l as [|a l IH]; simpl; [reflexivity|].
  destruct (key_is K a) eqn:E; simpl; [exact IH|]. rewrite E. exact IH.
Qed.

(** ** Headers *)

Lemma new_header_ok (u : dict) (K : string) (V : json) :
  add_directive K V u ->
  new_header (JObj u)
  = Ok (JObj [("key", JStr K); ("value", V);
              ("type", or_default (JStr "text") (dict_get "type" u))]).
Proof.
  intros (_ & Hk & Hv). unfold new_header.
  rewrite (py_getitem_obj _ _ _ Hk), (py_getitem_obj _ _ _ Hv). cbn [bind py_get].
  destruct (dict_get "type" u); reflexivity.
Qed.

Lemma headers_add_list (r u : dict) (K : string) (V : json) (hs : list json) :
  dict_get "header" r = Some (JArr hs) \/ (dict_get "header" r = None /\ hs = []) ->
  forallb (has_field "key") hs = true ->
  add_directive K V u ->
  exists hs',
    headers_add (JObj u) (JObj r) = Ok (JObj (dict_set "header" (JArr hs') r))
    /\ first_match_updated K V
         (JObj [("key", JStr K); ("value", V);
                ("type", or_default (JStr "text") (dict_get "type" u))]) hs hs'.
Proof.
  intros Hh Hf Hd.
  destruct (upsert_list u K V _ _ hs Hd (new_header_ok u K V Hd) Hf) as (hs' & E & Hs).
  exists hs'. split; [|exact Hs].
  unfold headers_add.
  destruct Hh as [Hh | [Hh ->]].
  - rewrite (py_in_obj _ _ _ Hh). cbn [bind].
    rewrite (py_getitem_obj _ _ _ Hh). cbn [bind]. rewrite E. reflexivity.
  - cbn [py_in]. rewrite Hh. cbn [bind py_setitem py_getitem].
    rewrite dict_get_set_same. cbn [bind]. rewrite E. cbn [bind].
    rewrite dict_set_set. reflexivity.
Qed.

(** C2 (amended): a headers add on a request whose headers all carry a key
    sets the value of the first header with key K and leaves every other
    field and entry as it was, or appends {key, value, type or "text"} when
    no header has key K (an absent header list counts as empty).  The
    number of headers with key K becomes max(1, number before): exactly one
    when at most one was there. *)
Theorem headers_add_first_match (d r u : dict) (K : string) (V : json) (hs : list json) :
  dict_get "request" d = Some (JObj r) ->
  dict_get "header" r = Some (JArr hs) \/ (dict_get "header" r = None /\ hs = []) ->
  forallb (has_field "key") hs = true ->
  add_directive K V u ->
  exists hs',
    apply_update (JObj d) ("headers", JObj u)
    = Ok (JObj (dict_set "request" (JObj (dict_set "header" (JArr hs') r)) d))
    /\ first_match_updated K V
         (JObj [("key", JStr K); ("value", V);
                ("type", or_default (JStr "text") (dict_get "type" u))]) hs hs'
    /\ (forall e, dict_get "type" (dict_set "value" V e) = dict_get "type" e)
    /\ count_key K hs' = Nat.max 1 (count_key K hs)
    /\ (count_key K hs <= 1 -> count_key K hs' = 1).
Proof.
  intros Hr Hh Hf Hd.
  destruct (headers_add_list r u K V hs Hh Hf Hd) as (hs' & E & Hs).
  assert (Hc : count_key K hs' = Nat.max 1 (count_key K hs)).
  { refine (first_match_updated_count K V _ hs hs' _ Hs).
    unfold key_is. cbn [dict_get String.eqb Ascii.eqb Bool.eqb py_eq].
    apply String.eqb_refl. }
  exists hs'. split; [|split; [exact Hs|split; [|split; [exact Hc|]]]].
  - cbn [apply_update String.eqb Ascii.eqb Bool.eqb]. unfold headers_update.
    destruct Hd as (Ha & _).
    rewrite (py_getitem_obj _ _ _ Ha). cbn [bind py_eq String.eqb Ascii.eqb Bool.eqb].
    rewrite (with_request_obj _ _ _ Hr), E. reflexivity.
  - intros e. apply dict_get_set_other. discriminate.
  - intros Hle. rewrite Hc. lia.
Qed.

Lemma headers_add_first_match_witness :
  exists hs',
    apply_update
      (JObj [("request", JObj [("header", JArr [JObj [("key", JStr "A"); ("value", JStr "0");
                                                     ("type", JStr "default")]])])])
      ("headers", JObj [("action", JStr "add"); ("key", JStr "A"); ("value", JStr "1")])
    = Ok (JObj [("request", JObj [("header", JArr hs')])])
    /\ count_key "A" hs' = 1.
Proof.
  destruct (headers_add_first_match
              [("request", JObj [("header", JArr [JObj [("key", JStr "A"); ("value", JStr "0");
                                                        ("type", JStr "default")]])])]
              [("header", JArr [JObj [("key", JStr "A"); ("value", JStr "0");
                                      ("type", JStr "default")]])]
              [("action", JStr "add"); ("key", JStr "A"); ("value", JStr "1")]
              "A" (JStr "1")
              [JObj [("key", JStr "A"); ("value", JStr "0"); ("type", JStr "default")]])
    as (hs' & E & _ & _ & _ & H1).
  - reflexivity.
  - left. reflexivity.
  - reflexivity.
  - repeat split.
  - exists hs'. split; [exact E | apply H1; vm_compute; lia].
Defined.

(** C2 as stated fails: with two headers of key A before the add, two
    headers of key A remain (only the first is updated). *)
Lemma headers_add_keeps_later_duplicates :
  apply_update
    (JObj [("request", JObj [("header", JArr [JObj [("key", JStr "A"); ("value", JStr "0")];
                                              JObj [("key", JStr "A"); ("value", JStr "9")]])])])
    ("headers", JObj [("action", JStr "add"); ("key", JStr "A"); ("value", JStr "1")])
  = Ok (JObj [("request", JObj [("header", JArr [JObj [("key", JStr "A"); ("value", JStr "1")];
                                                 JObj [("key", JStr "A"); ("value", JStr "9")]])])])
  /\ count_key "A" [JObj [("key", JStr "A"); ("value", JStr "1")];
                    JObj [("key", JStr "A"); ("value", JStr "9")]] = 2.
Proof.
  split; reflexivity.
Qed.

Lemma headers_remove_list (r u : dict) (K : string) (hs : list json) :
  dict_get "header" r = Some (JArr hs) ->
  forallb (has_field "key") hs = true ->
  dict_get "key" u = Some (JStr K) ->
  headers_remove (JObj u) (JObj r)
  = Ok (JObj (dict_set "header" (JArr (filter (fun h => negb (key_is K h)) hs)) r)).
Proof.
  intros Hh Hf Hk. unfold headers_remove.
  rewrite (py_in_obj _ _ _ Hh). cbn [bind].
  rewrite (py_getitem_obj _ _ _ Hh). cbn [bind].
  rewrite (without_key_list u K hs Hk Hf). reflexivity.
Qed.

Lemma headers_update_remove (d u : dict) (req : json) :
  dict_get "request" d = Some req ->
  dict_get "action" u = Some (JStr "remove") ->
  apply_update (JObj d) ("headers", JObj u)
  = (req' <- headers_remove (JObj u) req ;; Ok (JObj (dict_set "request" req' d))).
Proof.
  intros Hr Ha.
  cbn [apply_update String.eqb Ascii.eqb Bool.eqb]. unfold headers_update.
  rewrite (py_getitem_obj _ _ _ Ha). cbn [bind py_eq String.eqb Ascii.eqb Bool.eqb].
  apply with_request_obj. exact Hr.
Qed.

(** C3: a headers remove for key K leaves no header with key K and keeps
    every other header, in order; without a header field the request is
    unchanged. *)
Theorem headers_remove_all_matches (d r u : dict) (K : string) :
  dict_get "request" d = Some (JObj r) ->
  remove_directive K u ->
  (forall hs,
      dict_get "header" r = Some (JArr hs) ->
      forallb (has_field "key") hs = true ->
      let hs' := filter (fun h => negb (key_is K h)) hs in
      apply_update (JObj d) ("headers", JObj u)
      = Ok (JObj (dict_set "request" (JObj (dict_set "header" (JArr hs') r)) d))
      /\ count_key K hs' = 0
      /\ List.length hs' + count_key K hs = List.length hs)
  /\ (dict_get "header" r = None ->
      apply_update (JObj d) ("headers", JObj u) = Ok (JObj d)).
Proof.
  intros Hr (Ha & Hk).
  rewrite (headers_update_remove d u (JObj r) Hr Ha).
  split.
  - intros hs Hh Hf hs'. subst hs'.
    rewrite (headers_remove_list r u K hs Hh Hf Hk). cbn [bind].
    split; [reflexivity|]. split; [apply count_key_filtered|].
    unfold count_key. clear. induction hs as [|h hs IH]; [reflexivity|].
    cbn [filter]. destruct (key_is K h); cbn [negb List.length]; lia.
  - intros Hh. unfold headers_remove. cbn [py_in]. rewrite Hh. cbn [bind].
    rewrite (dict_set_get_id _ _ _ Hr). reflexivity.
Qed.

Lemma headers_remove_all_matches_witness :
  apply_update
    (JObj [("request", JObj [("header", JArr [JObj [("key", JStr "A"); ("value", JStr "0")];
                                              JObj [("key", JStr "B"); ("value", JStr "1")];
                                              JObj [("key", JStr "A"); ("value", JStr "2")]])])])
    ("headers", JObj [("action", JStr "remove"); ("key", JStr "A")])
  = Ok (JObj [("request", JObj [("header", JArr [JObj [("key", JStr "B"); ("value", JStr "1")]])])]).
Proof.
  destruct (headers_remove_all_matches
              [("request", JObj [("header", JArr [JObj [("key", JStr "A"); ("value", JStr "0")];
                                                  JObj [("key", JStr "B"); ("value", JStr "1")];
                                                  JObj [("key", JStr "A"); ("value", JStr "2")]])])]
              [("header", JArr [JObj [("key", JStr "A"); ("value", JStr "0")];
                                JObj [("key", JStr "B"); ("value", JStr "1")];
                                JObj [("key", JStr "A"); ("value", JStr "2")]])]
              [("action", JStr "remove"); ("key", JStr "A")]
              "A") as [H _].
  - reflexivity.
  - split; reflexivity.
  - destruct (H [JObj [("key", JStr "A"); ("value", JStr "0")];
                 JObj [("key", JStr "B"); ("value", JStr "1")];
                 JObj [("key", JStr "A"); ("value", JStr "2")]]) as (E & _).
    + reflexivity.
    + reflexivity.
    + exact E.
Defined.

(** ** Query parameters *)

Lemma forallb_is_str (l : list json) :
  forallb is_str l = true -> exists ss, l = map JStr ss.
Proof.
  induction l as [|a l IH]; intros H.
  - exists []. reflexivity.
  - cbn [forallb] in H. apply andb_true_iff in H. destruct H as [Ha Hl].
    destruct (IH Hl) as (ss & ->).
    destruct a as [| | |s| |]; try discriminate.
    exists (s :: ss). reflexivity.
Qed.

Lemma strings_or_absent_inv (o : option json) :
  strings_or_absent o = true ->
  exists h, o = option_map (fun l => JArr (map JStr l)) h.
Proof.
  destruct o as [[| | | |l|]|]; simpl; try discriminate.
  - intros H. destruct (forallb_is_str l H) as (ss & ->). exists (Some ss). reflexivity.
  - intros _. exists None. reflexivity.
Qed.

Lemma structured_url_wf (url : json) :
  wf_url url = true ->
  exists d0 qs host path,
    structured_url url = Ok (JObj d0)
    /\ dict_get "query" d0 = Some (JArr qs)
    /\ forallb is_param qs = true
    /\ dict_get "host" d0 = option_map (fun l => JArr (map JStr l)) host
    /\ dict_get "path" d0 = option_map (fun l => JArr (map JStr l)) path
    /\ (forall s, url = JStr s -> qs = []).
Proof.
  destruct url as [| | |s| |d]; try discriminate.
  - intros _. rewrite structured_url_string.
    destruct (normalize_url_total s) as (p & host & path & E & _).
    rewrite E. eexists. exists [], (Some host), (Some path).
    repeat split; reflexivity.
  - cbn [wf_url]. intros H.
    apply andb_true_iff in H. destruct H as [H Hq].
    apply andb_true_iff in H. destruct H as [Hh Hp].
    destruct (strings_or_absent_inv _ Hh) as (host & Eh).
    destruct (strings_or_absent_inv _ Hp) as (path & Ep).
    unfold structured_url. cbn [bind py_in].
    destruct (dict_get "query" d) as [[| | | |qs|]|] eqn:Eq; try discriminate.
    + cbn [bind]. exists d, qs, host, path.
      repeat split; try assumption. discriminate.
    + cbn [bind py_setitem]. exists (dict_set "query" (JArr []) d), [], host, path.
      rewrite dict_get_set_same, !dict_get_set_other by discriminate.
      repeat split; try assumption.
Qed.

Lemma structured_url_keyed (url : json) :
  keyed_url url = true ->
  exists d0 qs,
    structured_url url = Ok (JObj d0)
    /\ dict_get "query" d0 = Some (JArr qs)
    /\ forallb (has_field "key") qs = true
    /\ (forall s, url = JStr s -> dict_get "raw" d0 = Some (JStr s))
    /\ (forall du, url = JObj du -> dict_get "raw" d0 = dict_get "raw" du).
Proof.
  destruct url as [| | |s| |d]; try discriminate.
  - intros _. rewrite structured_url_string.
    destruct (normalize_url_total s) as (p & host & path & E & _).
    rewrite E. eexists. exists [].
    repeat split; try reflexivity.
    + intros s' [= <-]. reflexivity.
    + discriminate.
  - cbn [keyed_url]. intros H.
    unfold structured_url. cbn [bind py_in].
    destruct (dict_get "query" d) as [[| | | |qs|]|] eqn:Eq; try discriminate.
    + cbn [bind]. exists d, qs.
      repeat split; try assumption; [discriminate|]. intros du [= <-]. reflexivity.
    + cbn [bind py_setitem]. exists (dict_set "query" (JArr []) d), [].
      rewrite dict_get_set_same.
      repeat split; [discriminate|].
      intros du [= <-]. apply dict_get_set_other. discriminate.
Qed.

Lemma rebuild_raw_ignores_raw (d : dict) (x : json) :
  rebuild_raw (JObj (dict_set "raw" x d)) = rebuild_raw (JObj d).
Proof.
  unfold rebuild_raw. cbn [py_getitem py_get].
  rewrite !dict_get_set_other by discriminate. reflexivity.
Qed.

Lemma is_param_has_key (l : list json) :
  forallb is_param l = true -> forallb (has_field "key") l = true.
Proof.
  induction l as [|a l IH]; [reflexivity|].
  cbn [forallb]. intros H. apply andb_true_iff in H. destruct H as [Ha Hl].
  unfold is_param in Ha. apply andb_true_iff in Ha. destruct Ha as [Ha _].
  rewrite Ha, (IH Hl). reflexivity.
Qed.

Lemma first_match_updated_params (K : string) (V new : json) (l l' : list json) :
  is_param new = true ->
  forallb is_param l = true ->
  first_match_updated K V new l l' ->
  forallb is_param l' = true.
Proof.
  intros Hnew Hl [[_ ->] | (pre & e & post & -> & _ & _ & ->)].
  - rewrite forallb_app, Hl. cbn [forallb]. rewrite Hnew. reflexivity.
  - rewrite forallb_app in Hl |- *. cbn [forallb] in Hl |- *.
    apply andb_true_iff in Hl. destruct Hl as [Hpre Hl].
    apply andb_true_iff in Hl. destruct Hl as [He Hpost].
    rewrite Hpre, Hpost.
    unfold is_param, has_field in He |- *.
    rewrite dict_get_set_same, dict_get_set_other by discriminate.
    apply andb_true_iff in He. destruct He as [He _]. rewrite He. reflexivity.
Qed.

Lemma query_add_list (d0 u : dict) (K : string) (V : json) (qs : list json)
      (host path : option (list string)) :
  dict_get "query" d0 = Some (JArr qs) ->
  forallb is_param qs = true ->
  dict_get "host" d0 = option_map (fun l => JArr (map JStr l)) host ->
  dict_get "path" d0 = option_map (fun l => JArr (map JStr l)) path ->
  add_directive K V u ->
  exists qs' raw,
    query_add (JObj u) (JObj d0)
    = Ok (JObj (dict_set "raw" (JStr raw) (dict_set "query" (JArr qs') d0)))
    /\ first_match_updated K V (JObj [("key", JStr K); ("value", V)]) qs qs'
    /\ rebuild_raw (JObj (dict_set "raw" (JStr raw) (dict_set "query" (JArr qs') d0)))
       = Ok raw.
Proof.
  intros Hq Hqs Hh Hp Hd.
  assert (Hnew : new_param (JObj u) = Ok (JObj [("key", JStr K); ("value", V)])).
  { destruct Hd as (_ & Hk & Hv). unfold new_param.
    rewrite (py_getitem_obj _ _ _ Hk), (py_getitem_obj _ _ _ Hv). reflexivity. }
  destruct (upsert_list u K V _ _ qs Hd Hnew (is_param_has_key qs Hqs)) as (qs' & E & Hs).
  assert (Hqs' : forallb is_param qs' = true).
  { apply (first_match_updated_params K V (JObj [("key", JStr K); ("value", V)]) qs qs');
      [reflexivity | exact Hqs | exact Hs]. }
  pose proof (rebuild_raw_eq (dict_set "query" (JArr qs') d0) qs'
                (dict_get "protocol" d0) host path) as R.
  rewrite dict_get_set_same, !dict_get_set_other in R by discriminate.
  specialize (R eq_refl Hqs' eq_refl Hh Hp).
  exists qs'. eexists. split; [|split; [exact Hs|]].
  - unfold query_add. rewrite (py_getitem_obj _ _ _ Hq). cbn [bind].
    rewrite E. cbn [bind py_setitem]. rewrite R. reflexivity.
  - rewrite rebuild_raw_ignores_raw. exact R.
Qed.

Lemma query_params_step (d r u : dict) (url : json) (d0 : dict) (action : string) :
  dict_get "request" d = Some (JObj r) ->
  dict_get "url" r = Some url ->
  structured_url url = Ok (JObj d0) ->
  dict_get "action" u = Some (JStr action) ->
  apply_update (JObj d) ("query_params", JObj u)
  = (url2 <- (if String.eqb action "add" then query_add (JObj u) (JObj d0)
              else if String.eqb action "remove" then query_remove (JObj u) (JObj d0)
              else Ok (JObj d0)) ;;
     Ok (JObj (dict_set "request" (JObj (dict_set "url" url2 r)) d))).
Proof.
  intros Hr Hu Hs Ha.
  cbn [apply_update String.eqb Ascii.eqb Bool.eqb].
  rewrite (with_request_obj _ _ _ Hr).
  unfold query_params_update.
  rewrite (py_in_obj _ _ _ Hu). cbn [bind negb].
  rewrite (py_getitem_obj _ _ _ Hu). cbn [bind].
  rewrite Hs. cbn [bind].
  rewrite (py_getitem_obj _ _ _ Ha). cbn [bind py_eq].
  destruct (String.eqb action "add").
  - destruct (query_add (JObj u) (JObj d0)); reflexivity.
  - destruct (String.eqb action "remove"); [|reflexivity].
    destruct (query_remove (JObj u) (JObj d0)); reflexivity.
Qed.

Lemma texts_strings (o : option (list string)) :
  texts (option_map (fun l => JArr (map JStr l)) o) = or_default [] o.
Proof.
  destruct o as [l|]; [|reflexivity]. cbn [option_map texts or_default].
  induction l as [|x l IH]; [reflexivity|]. cbn [map py_str]. rewrite IH. reflexivity.
Qed.

(** The structured form of a url with a known scheme has a string for
    protocol, or none. *)
Lemma structured_url_scheme (url : json) (d0 : dict) :
  scheme_known url = true ->
  structured_url url = Ok (JObj d0) ->
  dict_get "protocol" d0 = None \/ exists p, dict_get "protocol" d0 = Some (JStr p).
Proof.
  destruct url as [| | |s| |d]; try discriminate.
  - cbn [scheme_known]. rewrite structured_url_string. unfold normalize_url.
    destruct (py_index (py_split "?" s) 0) as [base|e]; [|discriminate].
    intros Hc. cbn [bind]. rewrite Hc.
    destruct (py_index (py_split "://" base) 0) as [p|e]; [|discriminate]. cbn [bind].
    destruct (py_index (py_split "://" base) 1) as [rest|e]; [|discriminate]. cbn [bind].
    destruct (py_index (py_split "/" rest) 0) as [h|e]; [|discriminate]. cbn [bind].
    intros [= <-]. right. exists p. reflexivity.
  - cbn [scheme_known]. intros Hk. unfold structured_url. cbn [bind py_in].
    destruct (dict_get "query" d).
    + cbn [bind]. intros [= <-].
      destruct (dict_get "protocol" d) as [[| | |p| |]|]; try discriminate; eauto.
    + cbn [bind py_setitem]. intros [= <-].
      rewrite dict_get_set_other by discriminate.
      destruct (dict_get "protocol" d) as [[| | |p| |]|]; try discriminate; eauto.
Qed.

(** C1 (amended): a query_params add on a request whose url is a string or
    a well-formed dict sets the value of the first query entry with key K, or
    appends {key, value} when there is none; the number of entries with key
    K becomes max(1, number before), exactly one when at most one was there
    (always so for a string url, whose query starts empty).  When the url is
    a string with a scheme, or a dict whose protocol is a string or absent,
    raw is the string that rebuildRaw of the specification gives on the
    resulting url. *)
Theorem query_add_first_match_and_raw (d r u : dict) (url : json) (K : string) (V : json) :
  dict_get "request" d = Some (JObj r) ->
  dict_get "url" r = Some url ->
  wf_url url = true ->
  add_directive K V u ->
  exists d0 qs qs' raw,
    structured_url url = Ok (JObj d0)
    /\ dict_get "query" d0 = Some (JArr qs)
    /\ apply_update (JObj d) ("query_params", JObj u)
       = Ok (JObj (dict_set "request"
                     (JObj (dict_set "url"
                              (JObj (dict_set "raw" (JStr raw)
                                       (dict_set "query" (JArr qs') d0))) r)) d))
    /\ first_match_updated K V (JObj [("key", JStr K); ("value", V)]) qs qs'
    /\ count_key K qs' = Nat.max 1 (count_key K qs)
    /\ (count_key K qs <= 1 -> count_key K qs' = 1)
    /\ (forall s, url = JStr s -> qs = [] /\ count_key K qs' = 1)
    /\ (scheme_known url = true ->
        raw = rebuildRaw (dict_set "raw" (JStr raw) (dict_set "query" (JArr qs') d0))).
Proof.
  intros Hr Hu Hw Hd.
  destruct (structured_url_wf url Hw) as (d0 & qs & host & path & Hs & Hq & Hqs & Hh & Hp & Hstr).
  destruct (query_add_list d0 u K V qs host path Hq Hqs Hh Hp Hd) as (qs' & raw & E & Hfm & Hraw).
  assert (Hc : count_key K qs' = Nat.max 1 (count_key K qs)).
  { refine (first_match_updated_count K V _ qs qs' _ Hfm).
    unfold key_is. cbn [dict_get String.eqb Ascii.eqb Bool.eqb py_eq].
    apply String.eqb_refl. }
  exists d0, qs, qs', raw.
  split; [exact Hs|]. split; [exact Hq|]. split.
  - destruct Hd as (Ha & _).
    rewrite (query_params_step d r u url d0 "add" Hr Hu Hs Ha).
    cbn [String.eqb Ascii.eqb Bool.eqb]. rewrite E. reflexivity.
  - split; [exact Hfm|]. split; [exact Hc|]. split; [intros; lia|].
    split.
    + intros s Es. pose proof (Hstr s Es) as Hnil. split; [exact Hnil|].
      rewrite Hc, Hnil. reflexivity.
    + intros Hk.
      assert (Hqs' : forallb is_param qs' = true).
      { apply (first_match_updated_params K V (JObj [("key", JStr K); ("value", V)]) qs qs');
          [reflexivity | exact Hqs | exact Hfm]. }
      assert (G : forall k, "raw" <> k -> "query" <> k ->
                            dict_get k (dict_set "raw" (JStr raw)
                                          (dict_set "query" (JArr qs') d0))
                            = dict_get k d0).
      { intros k H1 H2. rewrite (dict_get_set_other _ _ _ _ H1).
        apply dict_get_set_other. exact H2. }
      assert (Gq : dict_get "query" (dict_set "raw" (JStr raw)
                                       (dict_set "query" (JArr qs') d0))
                   = Some (JArr qs')).
      { rewrite dict_get_set_other by discriminate. apply dict_get_set_same. }
      pose proof (rebuild_raw_eq
                    (dict_set "raw" (JStr raw) (dict_set "query" (JArr qs') d0)) qs'
                    (dict_get "protocol" d0) host path Gq Hqs') as R.
      rewrite !G in R by discriminate.
      specialize (R eq_refl Hh Hp).
      rewrite Hraw in R. injection R as R.
      unfold rebuildRaw.
      rewrite Gq, !G by discriminate.
      rewrite Hh, Hp, !texts_strings.
      destruct (structured_url_scheme url d0 Hk Hs) as [Ep | (p & Ep)];
        rewrite Ep in R |- *; exact R.
Qed.

Lemma query_add_first_match_and_raw_witness :
  exists d0 qs qs' raw,
    structured_url (JStr "https://h.io/p?x=1") = Ok (JObj d0)
    /\ dict_get "query" d0 = Some (JArr qs)
    /\ apply_update
         (JObj [("request", JObj [("url", JStr "https://h.io/p?x=1")])])
         ("query_params", JObj [("action", JStr "add"); ("key", JStr "a"); ("value", JStr "1")])
       = Ok (JObj (dict_set "request"
                     (JObj (dict_set "url"
                              (JObj (dict_set "raw" (JStr raw)
                                       (dict_set "query" (JArr qs') d0)))
                              [("url", JStr "https://h.io/p?x=1")]))
                     [("request", JObj [("url", JStr "https://h.io/p?x=1")])]))
    /\ first_match_updated "a" (JStr "1") (JObj [("key", JStr "a"); ("value", JStr "1")]) qs qs'
    /\ count_key "a" qs' = Nat.max 1 (count_key "a" qs)
    /\ (count_key "a" qs <= 1 -> count_key "a" qs' = 1)
    /\ (forall s, JStr "https://h.io/p?x=1" = JStr s -> qs = [] /\ count_key "a" qs' = 1)
    /\ (scheme_known (JStr "https://h.io/p?x=1") = true ->
        raw = rebuildRaw (dict_set "raw" (JStr raw) (dict_set "query" (JArr qs') d0))).
Proof.
  apply (query_add_first_match_and_raw
           [("request", JObj [("url", JStr "https://h.io/p?x=1")])]
           [("url", JStr "https://h.io/p?x=1")]
           [("action", JStr "add"); ("key", JStr "a"); ("value", JStr "1")]
           (JStr "https://h.io/p?x=1") "a" (JStr "1")).
  - reflexivity.
  - reflexivity.
  - reflexivity.
  - repeat split.
Defined.

(** C1 as stated fails: a structured url that already has two query entries
    of key a keeps two after the add (only the first is updated). *)
Lemma query_add_keeps_later_duplicates :
  apply_update
    (JObj [("request",
            JObj [("url", JObj [("raw", JStr "http://h/p?a=0&a=9");
                                ("protocol", JStr "http");
                                ("host", JArr [JStr "h"]);
                                ("path", JArr [JStr "p"]);
                                ("query", JArr [JObj [("key", JStr "a"); ("value", JStr "0")];
                                                JObj [("key", JStr "a"); ("value", JStr "9")]])])])])
    ("query_params", JObj [("action", JStr "add"); ("key", JStr "a"); ("value", JStr "1")])
  = Ok (JObj [("request",
               JObj [("url", JObj [("raw", JStr "http://h/p?a=1&a=9");
                                   ("protocol", JStr "http");
                                   ("host", JArr [JStr "h"]);
                                   ("path", JArr [JStr "p"]);
                                   ("query", JArr [JObj [("key", JStr "a"); ("value", JStr "1")];
                                                   JObj [("key", JStr "a"); ("value", JStr "9")]])])])])
  /\ count_key "a" [JObj [("key", JStr "a"); ("value", JStr "1")];
                    JObj [("key", JStr "a"); ("value", JStr "9")]] = 2.
Proof.
  split; reflexivity.
Qed.

Lemma query_remove_list (d0 u : dict) (K : string) (qs : list json) :
  dict_get "query" d0 = Some (JArr qs) ->
  forallb (has_field "key") qs = true ->
  dict_get "key" u = Some (JStr K) ->
  query_remove (JObj u) (JObj d0)
  = Ok (JObj (dict_set "query" (JArr (filter (fun e => negb (key_is K e)) qs)) d0)).
Proof.
  intros Hq Hf Hk. unfold query_remove.
  rewrite (py_in_obj _ _ _ Hq). cbn [bind].
  rewrite (py_getitem_obj _ _ _ Hq). cbn [bind].
  rewrite (without_key_list u K qs Hk Hf). reflexivity.
Qed.

(** C5: a query_params remove for key K leaves no query entry with key K
    and does not touch raw: it is the raw of the url as it stood before the
    removal (the input string for a string url, the former raw for a dict). *)
Theorem query_remove_all_matches_raw_kept (d r u : dict) (url : json) (K : string) :
  dict_get "request" d = Some (JObj r) ->
  dict_get "url" r = Some url ->
  keyed_url url = true ->
  remove_directive K u ->
  exists d0 qs,
    structured_url url = Ok (JObj d0)
    /\ dict_get "query" d0 = Some (JArr qs)
    /\ (let qs' := filter (fun e => negb (key_is K e)) qs in
        apply_update (JObj d) ("query_params", JObj u)
        = Ok (JObj (dict_set "request"
                      (JObj (dict_set "url" (JObj (dict_set "query" (JArr qs') d0)) r)) d))
        /\ count_key K qs' = 0
        /\ dict_get "raw" (dict_set "query" (JArr qs') d0) = dict_get "raw" d0)
    /\ (forall s, url = JStr s -> dict_get "raw" d0 = Some (JStr s))
    /\ (forall du, url = JObj du -> dict_get "raw" d0 = dict_get "raw" du).
Proof.
  intros Hr Hu Hw (Ha & Hk).
  destruct (structured_url_keyed url Hw) as (d0 & qs & Hs & Hq & Hf & Hstr & Hobj).
  exists d0, qs. split; [exact Hs|]. split; [exact Hq|]. split; [|split; assumption].
  cbv zeta. split; [|split].
  - rewrite (query_params_step d r u url d0 "remove" Hr Hu Hs Ha).
    cbn [String.eqb Ascii.eqb Bool.eqb].
    rewrite (query_remove_list d0 u K qs Hq Hf Hk). reflexivity.
  - apply count_key_filtered.
  - apply dict_get_set_other. discriminate.
Qed.

Lemma query_remove_all_matches_raw_kept_witness :
  exists d0 qs,
    structured_url (JStr "http://h.io/p?a=1") = Ok (JObj d0)
    /\ dict_get "query" d0 = Some (JArr qs)
    /\ (let qs' := filter (fun e => negb (key_is "a" e)) qs in
        apply_update
          (JObj [("request", JObj [("url", JStr "http://h.io/p?a=1")])])
          ("query_params", JObj [("action", JStr "remove"); ("key", JStr "a")])
        = Ok (JObj (dict_set "request"
                      (JObj (dict_set "url" (JObj (dict_set "query" (JArr qs') d0))
                               [("url", JStr "http://h.io/p?a=1")]))
                      [("request", JObj [("url", JStr "http://h.io/p?a=1")])]))
        /\ count_key "a" qs' = 0
        /\ dict_get "raw" (dict_set "query" (JArr qs') d0) = dict_get "raw" d0)
    /\ (forall s, JStr "http://h.io/p?a=1" = JStr s -> dict_get "raw" d0 = Some (JStr s))
    /\ (forall du, JStr "http://h.io/p?a=1" = JObj du -> dict_get "raw" d0 = dict_get "raw" du).
Proof.
  apply (query_remove_all_matches_raw_kept
           [("request", JObj [("url", JStr "http://h.io/p?a=1")])]
           [("url", JStr "http://h.io/p?a=1")]
           [("action", JStr "remove"); ("key", JStr "a")]
           (JStr "http://h.io/p?a=1") "a").
  - reflexivity.
  - reflexivity.
  - reflexivity.
  - split; reflexivity.
Defined.

(** ** The walker *)

Lemma apply_update_request (d : dict) (req : json) (u : string * json) :
  dict_get "request" d = Some req ->
  apply_update (JObj d) u
  = (req' <- update_step u req ;; Ok (JObj (dict_set "request" req' d))).
Proof.
  intros Hr. destruct u as [ut ud]. unfold apply_update, update_step, headers_update.
  destruct (String.eqb ut "headers").
  - destruct (py_getitem ud "action") as [action|e]; [|reflexivity]. cbn [bind].
    destruct (py_eq action (JStr "add")); [apply with_request_obj; exact Hr|].
    destruct (py_eq action (JStr "remove")); [apply with_request_obj; exact Hr|].
    cbn [bind]. rewrite (dict_set_get_id _ _ _ Hr). reflexivity.
  - destruct (String.eqb ut "query_params"); [apply with_request_obj; exact Hr|].
    cbn [bind]. rewrite (dict_set_get_id _ _ _ Hr). reflexivity.
Qed.

Lemma foldM_apply_update_request (us : list (string * json)) :
  forall (d : dict) (req : json),
    dict_get "request" d = Some req ->
    foldM apply_update (JObj d) us
    = (req' <- (item <- foldM apply_update (JObj [("request", req)]) us ;;
                py_getitem item "request") ;;
       Ok (JObj (dict_set "request" req' d))).
Proof.
  induction us as [|u us IH]; intros d req Hr.
  - cbn. rewrite (dict_set_get_id _ _ _ Hr). reflexivity.
  - cbn [foldM].
    rewrite (apply_update_request d req u Hr).
    rewrite (apply_update_request [("request", req)] req u eq_refl).
    destruct (update_step u req) as [r1|e]; [|reflexivity]. cbn [bind].
    rewrite (IH (dict_set "request" r1 d) r1 (dict_get_set_same _ _ _)).
    change (dict_set "request" r1 [("request", req)]) with [("request", r1)].
    destruct (item <- foldM apply_update (JObj [("request", r1)]) us ;;
              py_getitem item "request") as [r2|e]; [|reflexivity].
    cbn [bind]. rewrite dict_set_set. reflexivity.
Qed.

(** The updates of an item are the updates of its request. *)
Lemma apply_updates_request (updates : json) (d : dict) (req : json) :
  dict_get "request" d = Some req ->
  apply_updates updates (JObj d)
  = (req' <- update_request updates req ;; Ok (JObj (dict_set "request" req' d))).
Proof.
  intros Hr. unfold update_request, apply_updates.
  destruct (py_items updates) as [us|e]; [|reflexivity]. cbn [bind].
  apply foldM_apply_update_request. exact Hr.
Qed.

Lemma visit_request_obj (updates : json) (d : dict) :
  visit_request updates (JObj d)
  = match dict_get "request" d with
    | Some req => req' <- update_request updates req ;;
                  Ok (JObj (dict_set "request" req' d))
    | None => Ok (JObj d)
    end.
Proof.
  unfold visit_request. cbn [py_in bind].
  destruct (dict_get "request" d) as [req|] eqn:E; [|reflexivity].
  apply apply_updates_request. exact E.
Qed.

Lemma find_item (updates : json) (d : dict) :
  (fix find (d : list (string * json)) : result json :=
     match d with
     | [] => Raise KeyError
     | (k, v) :: r => if String.eqb k "item" then process_items updates v else find r
     end) d
  = match dict_get "item" d with
    | Some v => process_items updates v
    | None => Raise KeyError
    end.
Proof.
  induction d as [|[k v] d IH]; [reflexivity|].
  cbn [dict_get]. destruct (String.eqb k "item"); [reflexivity | exact IH].
Qed.

Lemma process_item_obj (updates : json) (d : dict) :
  process_item updates (JObj d)
  = (item1 <- visit_request updates (JObj d) ;;
     b <- py_in "item" item1 ;;
     if b
     then sub' <- match dict_get "item" d with
                  | Some v => process_items updates v
                  | None => Raise KeyError
                  end ;;
          py_setitem item1 "item" sub'
     else Ok item1).
Proof.
  rewrite <- (find_item updates d). reflexivity.
Qed.

Lemma apply_update_non_obj (item : json) (u : string * json) (x : json) :
  (forall d, item <> JObj d) ->
  apply_update item u = Ok x -> x = item.
Proof.
  intros Hn. destruct u as [ut ud]. unfold apply_update, headers_update, with_request.
  assert (G : py_getitem item "request" = Raise TypeError).
  { destruct item; try reflexivity. exfalso. apply (Hn d). reflexivity. }
  rewrite G. cbn [bind].
  destruct (String.eqb ut "headers").
  - destruct (py_getitem ud "action") as [action|e]; [|discriminate]. cbn [bind].
    destruct (py_eq action (JStr "add")); [discriminate|].
    destruct (py_eq action (JStr "remove")); [discriminate|]. congruence.
  - destruct (String.eqb ut "query_params"); [discriminate | congruence].
Qed.

Lemma visit_request_non_obj (updates item x : json) :
  (forall d, item <> JObj d) ->
  visit_request updates item = Ok x -> x = item.
Proof.
  intros Hn. unfold visit_request, apply_updates.
  destruct (py_in "request" item) as [[|]|e]; cbn [bind]; try congruence.
  destruct (py_items updates) as [us|e]; [|discriminate]. cbn [bind].
  induction us as [|u us IH]; cbn [foldM]; [congruence|].
  destruct (apply_update item u) as [y|e] eqn:E; [|discriminate]. cbn [bind].
  rewrite (apply_update_non_obj item u y Hn E). exact IH.
Qed.

(** The structural definition is the loop body of the source. *)
Lemma process_item_unfold (updates item : json) :
  process_item updates item = process_item_with (process_items updates) updates item.
Proof.
  unfold process_item_with.
  destruct item as [| | | | |d];
    try (change (process_item updates ?i) with (process_leaf updates i);
         unfold process_leaf, process_item_with;
         match goal with
         | |- context [visit_request updates ?i] =>
             destruct (visit_request updates i) as [x|e] eqn:E; [|reflexivity];
             apply visit_request_non_obj in E; [|discriminate]; subst x
         end;
         cbn [bind];
         match goal with
         | |- context [py_in "item" ?i] => destruct (py_in "item" i) as [[|]|e]
         end; reflexivity).
  rewrite process_item_obj, visit_request_obj.
  destruct (dict_get "request" d) as [req|].
  - destruct (update_request updates req) as [req'|e]; [|reflexivity].
    cbn [bind py_in py_getitem]. rewrite dict_get_set_other by discriminate.
    destruct (dict_get "item" d); reflexivity.
  - cbn [bind py_in py_getitem]. destruct (dict_get "item" d); reflexivity.
Qed.

Lemma nested_requests (d : dict) :
  (fix nested (d : list (string * json)) : list json :=
     match d with
     | [] => []
     | (k, v) :: r => if String.eqb k "item" then requests_of v else nested r
     end) d
  = match dict_get "item" d with
    | Some v => requests_of v
    | None => []
    end.
Proof.
  induction d as [|[k v] d IH]; [reflexivity|].
  cbn [dict_get]. destruct (String.eqb k "item"); [reflexivity | exact IH].
Qed.

Lemma node_requests_obj (d : dict) :
  node_requests (JObj d)
  = (match dict_get "request" d with Some req => [req] | None => [] end
     ++ match dict_get "item" d with Some v => requests_of v | None => [] end)%list.
Proof.
  rewrite <- (nested_requests d). reflexivity.
Qed.

Lemma wf_node_obj (d : dict) :
  wf_node (JObj d)
  = match dict_get "item" d with
    | Some v => wf_tree v
    | None => true
    end.
Proof.
  change (wf_node (JObj d))
    with ((fix nested (d : list (string * json)) : bool :=
             match d with
             | [] => true
             | (k, v) :: r => if String.eqb k "item" then wf_tree v else nested r
             end) d).
  induction d as [|[k v] d IH]; [reflexivity|].
  cbn [dict_get]. destruct (String.eqb k "item"); [reflexivity | exact IH].
Qed.

Lemma dict_get_in (k : string) (v : json) (d : dict) :
  dict_get k d = Some v -> In (k, v) d.
Proof.
  induction d as [|[k' v'] d IH]; simpl; [discriminate|].
  destruct (String.eqb k' k) eqn:E; intros H.
  - apply String.eqb_eq in E. left. congruence.
  - right. auto.
Qed.

(** Walking a tree and then listing its requests is updating each listed
    request in turn: same requests, same order, same first exception. *)
Lemma process_items_requests (updates : json) (v : json) :
  (wf_tree v = true ->
   (items' <- process_items updates v ;; Ok (requests_of items'))
   = mapM (update_request updates) (requests_of v))
  /\ (wf_node v = true ->
      (item' <- process_item updates v ;; Ok (node_requests item'))
      = mapM (update_request updates) (node_requests v)).
Proof.
  induction v as [| | | |l IH|d IH] using json_ind; try (split; discriminate).
  - split; [|discriminate].
    change (wf_tree (JArr l)) with (forallb wf_node l).
    change (process_items updates (JArr l))
      with (l' <- mapM (process_item updates) l ;; Ok (JArr l')).
    change (requests_of (JArr l)) with (flat_map node_requests l).
    intros Hw.
    assert (G : (l' <- mapM (process_item updates) l ;; Ok (flat_map node_requests l'))
                = mapM (update_request updates) (flat_map node_requests l)).
    { induction l as [|a l IHl]; [reflexivity|].
      cbn [forallb] in Hw. apply andb_true_iff in Hw. destruct Hw as [Ha Hl].
      inversion IH as [|? ? [_ Pa] Pl]; subst.
      cbn [mapM flat_map]. rewrite mapM_app, <- (Pa Ha), <- (IHl Pl Hl).
      destruct (process_item updates a) as [a'|e]; [|reflexivity]. cbn [bind].
      destruct (mapM (process_item updates) l) as [l'|e]; reflexivity. }
    rewrite <- G.
    destruct (mapM (process_item updates) l) as [l'|e]; reflexivity.
  - split; [discriminate|].
    rewrite wf_node_obj, process_item_obj, visit_request_obj, node_requests_obj.
    intros Hw.
    assert (Hsub : forall sub, dict_get "item" d = Some sub ->
                (items' <- process_items updates sub ;; Ok (requests_of items'))
                = mapM (update_request updates) (requests_of sub)).
    { intros sub Es. rewrite Es in Hw.
      rewrite Forall_forall in IH.
      apply (IH ("item", sub) (dict_get_in _ _ _ Es)). exact Hw. }
    rewrite mapM_app.
    destruct (dict_get "request" d) as [req|] eqn:Er.
    + cbn [mapM].
      destruct (update_request updates req) as [req'|e]; [|reflexivity].
      cbn [bind py_in]. rewrite dict_get_set_other by discriminate.
      destruct (dict_get "item" d) as [sub|] eqn:Es.
      * cbn [bind]. rewrite <- (Hsub sub eq_refl).
        destruct (process_items updates sub) as [sub'|e]; [|reflexivity].
        cbn [bind py_setitem]. rewrite node_requests_obj.
        rewrite dict_get_set_same, dict_get_set_other by discriminate.
        rewrite dict_get_set_same. reflexivity.
      * cbn [bind]. rewrite node_requests_obj.
        rewrite dict_get_set_same, dict_get_set_other by discriminate.
        rewrite Es. reflexivity.
    + cbn [mapM bind py_in].
      destruct (dict_get "item" d) as [sub|] eqn:Es.
      * cbn [bind]. rewrite <- (Hsub sub eq_refl).
        destruct (process_items updates sub) as [sub'|e]; [|reflexivity].
        cbn [bind py_setitem]. rewrite node_requests_obj.
        rewrite dict_get_set_same, dict_get_set_other by discriminate.
        rewrite Er. reflexivity.
      * cbn [bind]. rewrite node_requests_obj, Er, Es. reflexivity.
Qed.

Lemma mapM_Forall2 {A B : Type} (f : A -> result B) (l : list A) (l' : list B) :
  mapM f l = Ok l' -> Forall2 (fun a b => f a = Ok b) l l'.
Proof.
  revert l'. induction l as [|a l IH]; intros l'; cbn [mapM].
  - intros [= <-]. constructor.
  - destruct (f a) as [b|e] eqn:E; [|discriminate]. cbn [bind].
    destruct (mapM f l) as [bs|e]; [|discriminate]. cbn [bind].
    intros [= <-]. constructor; [exact E | apply IH; reflexivity].
Qed.

Lemma mapM_total {A B : Type} (f : A -> result B) (l : list A) :
  (forall a, In a l -> exists b, f a = Ok b) -> exists l', mapM f l = Ok l'.
Proof.
  induction l as [|a l IH]; intros H; cbn [mapM].
  - eauto.
  - destruct (H a (or_introl eq_refl)) as (b & ->).
    destruct IH as (l' & ->); [intros; apply H; right; assumption|].
    cbn [bind]. eauto.
Qed.

Lemma mapM_raises {A B : Type} (f : A -> result B) (l : list A) (a : A) :
  In a l -> (exists e, f a = Raise e) -> exists e, mapM f l = Raise e.
Proof.
  intros Hin (e & He). induction l as [|x l IH]; [contradiction|].
  cbn [mapM]. destruct (f x) as [y|e'] eqn:E.
  - cbn [bind]. destruct Hin as [Hx | Hin].
    + subst x. congruence.
    + destruct (IH Hin) as (e' & El). rewrite El. cbn [bind]. exists e'. reflexivity.
  - exists e'. reflexivity.
Qed.

(** ** The handler *)

Lemma update_request_fold (updates req : json) :
  update_request updates req
  = (us <- py_items updates ;; foldM (fun r u => update_step u r) req us).
Proof.
  unfold update_request, apply_updates.
  destruct (py_items updates) as [us|e]; [|reflexivity]. cbn [bind].
  revert req. induction us as [|u us IH]; intros req; [reflexivity|].
  cbn [foldM].
  rewrite (apply_update_request [("request", req)] req u eq_refl).
  destruct (update_step u req) as [r1|e]; [|reflexivity]. cbn [bind].
  apply IH.
Qed.

Lemma update_first_missing (u : dict) (l : list json) :
  dict_get "key" u = None \/ dict_get "value" u = None ->
  update_first (JObj u) l = Ok None \/ exists e, update_first (JObj u) l = Raise e.
Proof.
  intros Hm. induction l as [|x l IH]; [left; reflexivity|].
  cbn [update_first].
  destruct (py_getitem x "key") as [k|e]; [|right; raised]. cbn [bind py_getitem].
  destruct (dict_get "key" u) as [k'|] eqn:Ek; [|right; raised]. cbn [bind].
  destruct Hm as [Hm | Hv]; [discriminate|].
  destruct (py_eq k k').
  - rewrite Hv. right. raised.
  - destruct IH as [-> | (e & ->)]; [left; reflexivity | right; raised].
Qed.

Lemma upsert_missing (u : dict) (entry : result json) (c : json) :
  dict_get "key" u = None \/ dict_get "value" u = None ->
  (exists e, entry = Raise e) ->
  exists e, upsert (JObj u) entry c = Raise e.
Proof.
  intros Hm (e0 & ->).
  assert (G : forall l, exists e,
               (r <- update_first (JObj u) l ;;
                match r with
                | Some l' => Ok (JArr l')
                | None => e <- Raise e0 ;; Ok (JArr (l ++ [e])%list)
                end) = Raise e).
  { intros l. destruct (update_first_missing u l Hm) as [-> | (e & ->)]; cbn [bind]; raised. }
  destruct c as [| | |s|l|d]; cbn [upsert py_iter]; try raised.
  - cbn [bind].
    destruct (update_first_missing u (map JStr (chars s)) Hm) as [-> | (e & ->)]; raised.
  - apply G.
  - cbn [bind].
    destruct (update_first_missing u (map (fun kv => JStr (fst kv)) d) Hm) as [-> | (e & ->)];
      raised.
Qed.

Lemma new_entry_missing (u : dict) :
  dict_get "key" u = None \/ dict_get "value" u = None ->
  (exists e, new_header (JObj u) = Raise e) /\ (exists e, new_param (JObj u) = Raise e).
Proof.
  intros Hm. unfold new_header, new_param. cbn [py_getitem].
  destruct (dict_get "key" u); [|split; raised]. cbn [bind].
  destruct Hm as [Hm | ->]; [discriminate|]. split; raised.
Qed.

Lemma headers_add_missing (u : dict) (req : json) :
  dict_get "key" u = None \/ dict_get "value" u = None ->
  exists e, headers_add (JObj u) req = Raise e.
Proof.
  intros Hm. unfold headers_add.
  destruct (py_in "header" req) as [b|e]; [|raised]. cbn [bind].
  destruct (if b then Ok req else py_setitem req "header" (JArr [])) as [req1|e]; [|raised].
  cbn [bind].
  destruct (py_getitem req1 "header") as [hs|e]; [|raised]. cbn [bind].
  destruct (upsert_missing u (new_header (JObj u)) hs Hm (proj1 (new_entry_missing u Hm)))
    as (e & ->).
  raised.
Qed.

Lemma query_params_add_missing (u : dict) (req : json) :
  dict_get "action" u = Some (JStr "add") ->
  dict_get "key" u = None \/ dict_get "value" u = None ->
  py_in "url" req = Ok true ->
  exists e, query_params_update (JObj u) req = Raise e.
Proof.
  intros Ha Hm Hu. unfold query_params_update. rewrite Hu. cbn [bind negb].
  destruct (py_getitem req "url") as [url|e]; [|raised]. cbn [bind].
  destruct (structured_url url) as [url1|e]; [|raised]. cbn [bind].
  rewrite (py_getitem_obj _ _ _ Ha). cbn [bind py_eq String.eqb Ascii.eqb Bool.eqb].
  unfold query_add.
  destruct (py_getitem url1 "query") as [q|e]; [|raised]. cbn [bind].
  destruct (upsert_missing u (new_param (JObj u)) q Hm (proj2 (new_entry_missing u Hm)))
    as (e & ->).
  raised.
Qed.

Lemma without_key_missing (u : dict) (x : json) (l : list json) :
  dict_get "key" u = None ->
  exists e, without_key (JObj u) (JArr (x :: l)) = Raise e.
Proof.
  intros Hk. unfold without_key. cbn [py_iter bind filterM].
  destruct (py_getitem x "key") as [k|e]; [|raised].
  cbn [bind py_getitem]. rewrite Hk. raised.
Qed.

Lemma headers_remove_missing (u r : dict) (h : json) (hs : list json) :
  dict_get "key" u = None ->
  dict_get "header" r = Some (JArr (h :: hs)) ->
  exists e, headers_remove (JObj u) (JObj r) = Raise e.
Proof.
  intros Hk Hh. unfold headers_remove.
  rewrite (py_in_obj _ _ _ Hh). cbn [bind].
  rewrite (py_getitem_obj _ _ _ Hh). cbn [bind].
  destruct (without_key_missing u h hs Hk) as (e & ->). raised.
Qed.

Lemma query_params_remove_missing (u r d0 : dict) (url q : json) (qs : list json) :
  dict_get "action" u = Some (JStr "remove") ->
  dict_get "key" u = None ->
  dict_get "url" r = Some url ->
  structured_url url = Ok (JObj d0) ->
  dict_get "query" d0 = Some (JArr (q :: qs)) ->
  exists e, query_params_update (JObj u) (JObj r) = Raise e.
Proof.
  intros Ha Hk Hu Hs Hq. unfold query_params_update.
  rewrite (py_in_obj _ _ _ Hu). cbn [bind negb].
  rewrite (py_getitem_obj _ _ _ Hu). cbn [bind]. rewrite Hs. cbn [bind].
  rewrite (py_getitem_obj _ _ _ Ha). cbn [bind py_eq String.eqb Ascii.eqb Bool.eqb].
  unfold query_remove.
  rewrite (py_in_obj _ _ _ Hq). cbn [bind].
  rewrite (py_getitem_obj _ _ _ Hq). cbn [bind].
  destruct (without_key_missing u q qs Hk) as (e & ->). raised.
Qed.

(** The directive raises on the request on which it reads the missing field. *)
Lemma update_step_missing (ut : string) (u : dict) (req : json) :
  reads_missing u ut req ->
  exists e, update_step (ut, JObj u) req = Raise e.
Proof.
  intros [req0 Ha Hm | req0 Ha Hm Hu | r h hs Ha Hk Hh | r d0 url q qs Ha Hk Hu Hs Hq];
    cbn [update_step String.eqb Ascii.eqb Bool.eqb].
  - rewrite (py_getitem_obj _ _ _ Ha). cbn [bind py_eq String.eqb Ascii.eqb Bool.eqb].
    apply headers_add_missing. exact Hm.
  - apply query_params_add_missing; assumption.
  - rewrite (py_getitem_obj _ _ _ Ha). cbn [bind py_eq String.eqb Ascii.eqb Bool.eqb].
    apply (headers_remove_missing u r h hs Hk Hh).
  - apply (query_params_remove_missing u r d0 url q qs Ha Hk Hu Hs Hq).
Qed.

(** A request that has a url still has one after any update. *)
Lemma update_step_keeps_url (u : string * json) (req req' : json) :
  update_step u req = Ok req' ->
  py_in "url" req = Ok true ->
  py_in "url" req' = Ok true.
Proof.
  assert (S : forall c v c', py_setitem c "header" v = Ok c' ->
                             py_in "url" c = Ok true -> py_in "url" c' = Ok true).
  { intros c v c' H. destruct c; try discriminate. injection H as <-.
    cbn [py_in]. rewrite dict_get_set_other by discriminate. auto. }
  destruct u as [ut ud]. unfold update_step.
  destruct (String.eqb ut "headers").
  - intros H Hu. apply bind_ok in H. destruct H as (action & _ & H).
    destruct (py_eq action (JStr "add")).
    + unfold headers_add in H.
      apply bind_ok in H. destruct H as (b & _ & H).
      apply bind_ok in H. destruct H as (req1 & H1 & H).
      apply bind_ok in H. destruct H as (hs & _ & H).
      apply bind_ok in H. destruct H as (hs' & _ & H).
      apply (S _ _ _ H). destruct b; [congruence|]. apply (S _ _ _ H1 Hu).
    + destruct (py_eq action (JStr "remove")); [|congruence].
      unfold headers_remove in H.
      apply bind_ok in H. destruct H as (b & _ & H).
      destruct b; [|congruence].
      apply bind_ok in H. destruct H as (hs & _ & H).
      apply bind_ok in H. destruct H as (hs' & _ & H).
      apply (S _ _ _ H Hu).
  - destruct (String.eqb ut "query_params"); [|congruence].
    intros H Hu. unfold query_params_update in H. rewrite Hu in H. cbn [bind negb] in H.
    apply bind_ok in H. destruct H as (url & _ & H).
    apply bind_ok in H. destruct H as (url1 & _ & H).
    apply bind_ok in H. destruct H as (action & _ & H).
    apply bind_ok in H. destruct H as (url2 & _ & H).
    destruct req; try discriminate. injection H as <-.
    cbn [py_in]. rewrite dict_get_set_same. reflexivity.
Qed.

(** What an update of one type leaves alone in a request dict. *)
Lemma headers_step_keeps_url (ud : json) (r : dict) (req' : json) :
  update_step ("headers", ud) (JObj r) = Ok req' ->
  exists r', req' = JObj r' /\ dict_get "url" r' = dict_get "url" r.
Proof.
  cbn [update_step String.eqb Ascii.eqb Bool.eqb]. intros H.
  apply bind_ok in H. destruct H as (action & _ & H).
  destruct (py_eq action (JStr "add")).
  - unfold headers_add in H.
    apply bind_ok in H. destruct H as (b & _ & H).
    apply bind_ok in H. destruct H as (req1 & H1 & H).
    apply bind_ok in H. destruct H as (hs & _ & H).
    apply bind_ok in H. destruct H as (hs' & _ & H).
    assert (E1 : exists r1, req1 = JObj r1 /\ dict_get "url" r1 = dict_get "url" r).
    { destruct b.
      - injection H1 as <-. eauto.
      - cbn [py_setitem] in H1. injection H1 as <-. eexists. split; [reflexivity|].
        apply dict_get_set_other. discriminate. }
    destruct E1 as (r1 & -> & E1). cbn [py_setitem] in H. injection H as <-.
    eexists. split; [reflexivity|].
    rewrite dict_get_set_other by discriminate. exact E1.
  - destruct (py_eq action (JStr "remove")).
    + unfold headers_remove in H.
      apply bind_ok in H. destruct H as (b & _ & H).
      destruct b; [|injection H as <-; eauto].
      apply bind_ok in H. destruct H as (hs & _ & H).
      apply bind_ok in H. destruct H as (hs' & _ & H).
      cbn [py_setitem] in H. injection H as <-.
      eexists. split; [reflexivity|]. apply dict_get_set_other. discriminate.
    + injection H as <-. eauto.
Qed.

Lemma query_step_keeps_header (ud : json) (r : dict) (req' : json) :
  update_step ("query_params", ud) (JObj r) = Ok req' ->
  exists r', req' = JObj r' /\ dict_get "header" r' = dict_get "header" r.
Proof.
  cbn [update_step String.eqb Ascii.eqb Bool.eqb]. unfold query_params_update. intros H.
  apply bind_ok in H. destruct H as (b & _ & H).
  destruct b; cbn [negb] in H; [|injection H as <-; eauto].
  apply bind_ok in H. destruct H as (url & _ & H).
  apply bind_ok in H. destruct H as (url1 & _ & H).
  apply bind_ok in H. destruct H as (action & _ & H).
  apply bind_ok in H. destruct H as (url2 & _ & H).
  cbn [py_setitem] in H. injection H as <-.
  eexists. split; [reflexivity|]. apply dict_get_set_other. discriminate.
Qed.

Lemma other_step_keeps_request (ut : string) (ud req req' : json) :
  String.eqb ut "headers" = false ->
  String.eqb ut "query_params" = false ->
  update_step (ut, ud) req = Ok req' -> req' = req.
Proof.
  intros H1 H2. cbn [update_step]. rewrite H1, H2. congruence.
Qed.

(** An update of another type does not undo the condition. *)
Lemma reads_missing_kept (u : dict) (ut ut' : string) (ud req req' : json) :
  ut' <> ut ->
  update_step (ut', ud) req = Ok req' ->
  reads_missing u ut req ->
  reads_missing u ut req'.
Proof.
  intros Hne Hs Hr.
  destruct Hr as [req0 Ha Hm | req0 Ha Hm Hu | r h hs Ha Hk Hh | r d0 url q qs Ha Hk Hu Hst Hq].
  - apply headers_add_reads; assumption.
  - apply query_add_reads; try assumption.
    exact (update_step_keeps_url (ut', ud) req0 req' Hs Hu).
  - destruct (String.eqb ut' "headers") eqn:E1;
      [apply String.eqb_eq in E1; contradiction|].
    destruct (String.eqb ut' "query_params") eqn:E2.
    + apply String.eqb_eq in E2. subst ut'.
      destruct (query_step_keeps_header ud r req' Hs) as (r' & -> & E).
      apply (headers_remove_reads u r' h hs Ha Hk). rewrite E. exact Hh.
    + rewrite (other_step_keeps_request ut' ud (JObj r) req' E1 E2 Hs).
      apply (headers_remove_reads u r h hs Ha Hk Hh).
  - destruct (String.eqb ut' "query_params") eqn:E2;
      [apply String.eqb_eq in E2; contradiction|].
    destruct (String.eqb ut' "headers") eqn:E1.
    + apply String.eqb_eq in E1. subst ut'.
      destruct (headers_step_keeps_url ud r req' Hs) as (r' & -> & E).
      apply (query_remove_reads u r' d0 url q qs Ha Hk); [|exact Hst|exact Hq].
      rewrite E. exact Hu.
    + rewrite (other_step_keeps_request ut' ud (JObj r) req' E1 E2 Hs).
      apply (query_remove_reads u r d0 url q qs Ha Hk Hu Hst Hq).
Qed.

Lemma update_request_missing (us : list (string * json)) (ut : string) (u : dict) (req : json) :
  NoDup (map fst us) ->
  In (ut, JObj u) us ->
  reads_missing u ut req ->
  exists e, update_request (JObj us) req = Raise e.
Proof.
  intros Hnd Hin. rewrite update_request_fold. cbn [py_items bind].
  revert req. induction us as [|[ut' ud] us IH]; intros req Hr; [contradiction|].
  cbn [foldM].
  cbn [map fst] in Hnd. inversion Hnd as [|? ? Hnotin Hnd']; subst.
  destruct Hin as [[= -> ->] | Hin].
  - destruct (update_step_missing ut u req Hr) as (e & ->). raised.
  - destruct (update_step (ut', ud) req) as [req'|e] eqn:E; [|raised]. cbn [bind].
    apply (IH Hnd' Hin).
    apply (reads_missing_kept u ut ut' ud req req'); [|exact E|exact Hr].
    intros ->. apply Hnotin.
    apply (in_map fst us (ut, JObj u) Hin).
Qed.

Lemma bulk_update_well_formed (dd : dict) (f : string) (updates : json)
  (stored : result json) :
  dict_get "filename" dd = Some (JStr f) ->
  dict_get "updates" dd = Some updates ->
  bulk_update (JObj dd) stored
  = match update_stored updates stored with
    | Ok collection => Success collection
    | Raise e => ServerError e
    end.
Proof.
  intros Hf Hu. unfold bulk_update.
  destruct dd as [|kv dd]; [discriminate|].
  cbn [py_truthy negb].
  rewrite (py_in_obj _ _ _ Hf), (py_in_obj _ _ _ Hu).
  rewrite (py_getitem_obj _ _ _ Hf), (py_getitem_obj _ _ _ Hu). reflexivity.
Qed.

(** Line 91: a name that is not a string raises [TypeError] before the
    [try]. *)
Lemma bulk_update_name_not_a_string (dd : dict) (fname updates : json)
  (stored : result json) :
  dict_get "filename" dd = Some fname ->
  dict_get "updates" dd = Some updates ->
  is_str fname = false ->
  bulk_update (JObj dd) stored = Unhandled TypeError.
Proof.
  intros Hf Hu Hs. unfold bulk_update.
  destruct dd as [|kv dd]; [discriminate|].
  cbn [py_truthy negb].
  rewrite (py_in_obj _ _ _ Hf), (py_in_obj _ _ _ Hu).
  rewrite (py_getitem_obj _ _ _ Hf).
  destruct fname; try reflexivity. discriminate.
Qed.

(** C9 (amended): the call answers with an error when the stored document
    has no item field, and when a directive lacks a field that the walk reads
    on some request node of the tree: key or value of an add (on any request
    for headers, on a request with a url for query_params), key of a remove
    (on a request with at least one header, resp. one query entry).  With a
    file name that is a string the error is the one caught by the handler
    (the KeyError of the missing item field in the first case); with any
    other name it is the TypeError of line 91, raised before the [try]. *)
Theorem bulk_update_reports_missing_fields (dd c : dict) (fname updates : json) :
  dict_get "filename" dd = Some fname ->
  dict_get "updates" dd = Some updates ->
  (dict_get "item" c = None ->
   bulk_update (JObj dd) (Ok (JObj c))
   = if is_str fname then ServerError KeyError else Unhandled TypeError)
  /\ (forall items us ut u req,
         dict_get "item" c = Some items ->
         wf_tree items = true ->
         In req (requests_of items) ->
         updates = JObj us ->
         NoDup (map fst us) ->
         In (ut, JObj u) us ->
         reads_missing u ut req ->
         exists e, bulk_update (JObj dd) (Ok (JObj c))
                   = if is_str fname then ServerError e else Unhandled TypeError).
Proof.
  intros Hf Hu.
  destruct (is_str fname) eqn:Hs.
  - assert (exists f, fname = JStr f) as (f & ->)
      by (destruct fname; try discriminate; eauto).
    rewrite (bulk_update_well_formed dd f updates _ Hf Hu).
    unfold update_stored. cbn [bind py_getitem].
    split.
    + intros ->. reflexivity.
    + intros items us ut u req -> Hw Hin -> Hnd Hus Hm. cbn [bind].
      pose proof (proj1 (process_items_requests (JObj us) items) Hw) as E.
      destruct (mapM_raises (update_request (JObj us)) (requests_of items) req Hin
                  (update_request_missing us ut u req Hnd Hus Hm)) as (e & Er).
      rewrite Er in E.
      destruct (process_items (JObj us) items) as [items'|e']; [discriminate|].
      cbn [bind]. eauto.
  - rewrite (bulk_update_name_not_a_string dd fname updates _ Hf Hu Hs).
    split; [reflexivity|]. intros. exists TypeError. reflexivity.
Qed.

Lemma bulk_update_reports_missing_fields_witness :
  bulk_update
    (JObj [("filename", JStr "c.json"); ("updates", JObj [])])
    (Ok (JObj [("info", JObj [])]))
  = ServerError KeyError
  /\ exists e,
      bulk_update
        (JObj [("filename", JStr "c.json");
               ("updates", JObj [("headers", JObj [("action", JStr "add");
                                                   ("value", JStr "1")])])])
        (Ok (JObj [("info", JObj []);
                   ("item", JArr [JObj [("item", JArr [JObj [("request", JObj [])]])]])]))
      = ServerError e.
Proof.
  split.
  - apply (bulk_update_reports_missing_fields
             [("filename", JStr "c.json"); ("updates", JObj [])]
             [("info", JObj [])] (JStr "c.json") (JObj [])); reflexivity.
  - destruct (bulk_update_reports_missing_fields
                [("filename", JStr "c.json");
                 ("updates", JObj [("headers", JObj [("action", JStr "add");
                                                     ("value", JStr "1")])])]
                [("info", JObj []);
                 ("item", JArr [JObj [("item", JArr [JObj [("request", JObj [])]])]])]
                (JStr "c.json")
                (JObj [("headers", JObj [("action", JStr "add"); ("value", JStr "1")])])
                eq_refl eq_refl) as [_ H].
    apply (H (JArr [JObj [("item", JArr [JObj [("request", JObj [])]])]])
             [("headers", JObj [("action", JStr "add"); ("value", JStr "1")])]
             "headers"
             [("action", JStr "add"); ("value", JStr "1")]
             (JObj [])).
    + reflexivity.
    + reflexivity.
    + left. reflexivity.
    + reflexivity.
    + repeat constructor. intros [].
    + left. reflexivity.
    + apply headers_add_reads; [reflexivity | left; reflexivity].
Defined.

(** C9 as stated fails: a stored document without info, and an add
    directive without key and value that meets no request, end in success. *)
Lemma bulk_update_accepts_missing_info :
  bulk_update
    (JObj [("filename", JStr "c.json");
           ("updates", JObj [("headers", JObj [("action", JStr "add")])])])
    (Ok (JObj [("item", JArr [JObj [("name", JStr "empty folder"); ("item", JArr [])]])]))
  = Success (JObj [("item", JArr [JObj [("name", JStr "empty folder"); ("item", JArr [])]])]).
Proof.
  reflexivity.
Qed.

(** * Further properties of the engine *)

(** ** Applying an add twice *)

Lemma first_match_unique (p : json -> bool) (pre1 : list json) :
  forall (x1 : json) (post1 pre2 : list json) (x2 : json) (post2 : list json),
    (pre1 ++ x1 :: post1 = pre2 ++ x2 :: post2)%list ->
    existsb p pre1 = false -> p x1 = true ->
    existsb p pre2 = false -> p x2 = true ->
    pre1 = pre2 /\ x1 = x2 /\ post1 = post2.
Proof.
  induction pre1 as [|a pre1 IH]; intros x1 post1 pre2 x2 post2 E H1 Hx1 H2 Hx2.
  - destruct pre2 as [|b pre2]; cbn [app] in E.
    + injection E as -> ->. auto.
    + injection E as <- _. cbn [existsb] in H2. rewrite Hx1 in H2. discriminate.
  - destruct pre2 as [|b pre2]; cbn [app] in E.
    + injection E as -> _. cbn [existsb] in H1. rewrite Hx2 in H1. discriminate.
    + injection E as -> E.
      cbn [existsb] in H1, H2.
      apply orb_false_iff in H1. destruct H1 as [_ H1].
      apply orb_false_iff in H2. destruct H2 as [_ H2].
      destruct (IH x1 post1 pre2 x2 post2 E H1 Hx1 H2 Hx2) as (-> & -> & ->). auto.
Qed.

Lemma first_match_updated_again (K : string) (V : json) (e0 : dict) (l l' l'' : list json) :
  key_is K (JObj e0) = true ->
  dict_set "value" V e0 = e0 ->
  first_match_updated K V (JObj e0) l l' ->
  first_match_updated K V (JObj e0) l' l'' ->
  l'' = l'.
Proof.
  intros Hk Hv H1 H2.
  assert (Hfound : forall pre e post,
             l' = (pre ++ JObj e :: post)%list ->
             existsb (key_is K) pre = false ->
             key_is K (JObj e) = true ->
             dict_set "value" V e = e ->
             l'' = l').
  { intros pre e post El' Hpre He Hset.
    destruct H2 as [[Hn _] | (pre2 & e2 & post2 & E2 & Hpre2 & He2 & ->)].
    - rewrite El', existsb_app in Hn. cbn [existsb] in Hn.
      rewrite He, orb_true_r in Hn. discriminate.
    - rewrite El' in E2.
      destruct (first_match_unique (key_is K) pre (JObj e) post pre2 (JObj e2) post2
                  E2 Hpre He Hpre2 He2) as (<- & [= <-] & <-).
      rewrite Hset. symmetry. exact El'. }
  destruct H1 as [[Hn El'] | (pre & e & post & El & Hpre & He & El')].
  - apply (Hfound l e0 []); assumption.
  - apply (Hfound pre (dict_set "value" V e) post); try assumption.
    + rewrite key_is_set_value. exact He.
    + apply dict_set_set.
Qed.

Lemma first_match_updated_keys (K : string) (V new : json) (l l' : list json) :
  has_field "key" new = true ->
  forallb (has_field "key") l = true ->
  first_match_updated K V new l l' ->
  forallb (has_field "key") l' = true.
Proof.
  intros Hnew Hl [[_ ->] | (pre & e & post & -> & _ & _ & ->)].
  - rewrite forallb_app, Hl. cbn [forallb]. rewrite Hnew. reflexivity.
  - rewrite forallb_app in Hl |- *. cbn [forallb] in Hl |- *.
    apply andb_true_iff in Hl. destruct Hl as [Hpre Hl].
    apply andb_true_iff in Hl. destruct Hl as [He Hpost].
    rewrite Hpre, Hpost.
    unfold has_field in He |- *.
    rewrite dict_get_set_other by discriminate.
    rewrite He. reflexivity.
Qed.

Lemma headers_update_add (d u : dict) (req : json) :
  dict_get "request" d = Some req ->
  dict_get "action" u = Some (JStr "add") ->
  apply_update (JObj d) ("headers", JObj u)
  = (req' <- headers_add (JObj u) req ;; Ok (JObj (dict_set "request" req' d))).
Proof.
  intros Hr Ha.
  cbn [apply_update String.eqb Ascii.eqb Bool.eqb]. unfold headers_update.
  rewrite (py_getitem_obj _ _ _ Ha). cbn [bind py_eq String.eqb Ascii.eqb Bool.eqb].
  apply with_request_obj. exact Hr.
Qed.

(** The header list an add leaves behind is a fixed point of the add. *)
Lemma headers_add_twice (r u : dict) (K : string) (V : json) (hs : list json) :
  dict_get "header" r = Some (JArr hs) \/ (dict_get "header" r = None /\ hs = []) ->
  forallb (has_field "key") hs = true ->
  add_directive K V u ->
  exists hs',
    headers_add (JObj u) (JObj r) = Ok (JObj (dict_set "header" (JArr hs') r))
    /\ headers_add (JObj u) (JObj (dict_set "header" (JArr hs') r))
       = Ok (JObj (dict_set "header" (JArr hs') r))
    /\ forallb (has_field "key") hs' = true
    /\ first_match_updated K V
         (JObj [("key", JStr K); ("value", V);
                ("type", or_default (JStr "text") (dict_get "type" u))]) hs hs'.
Proof.
  intros Hh Hf Hd.
  destruct (headers_add_list r u K V hs Hh Hf Hd) as (hs' & E & Hs).
  assert (Hf' : forallb (has_field "key") hs' = true).
  { refine (first_match_updated_keys K V _ hs hs' _ Hf Hs). reflexivity. }
  destruct (headers_add_list (dict_set "header" (JArr hs') r) u K V hs'
              (or_introl (dict_get_set_same _ _ _)) Hf' Hd) as (hs'' & E' & Hs').
  assert (Hsame : hs'' = hs').
  { apply (first_match_updated_again K V
             [("key", JStr K); ("value", V);
              ("type", or_default (JStr "text") (dict_get "type" u))] hs hs' hs'');
      try assumption.
    - unfold key_is. cbn [dict_get String.eqb Ascii.eqb Bool.eqb py_eq].
      apply String.eqb_refl.
    - reflexivity. }
  subst hs''. rewrite dict_set_set in E'.
  exists hs'. auto.
Qed.

(** X1: on a request whose headers all carry a key, a headers add applied
    to its own result changes nothing: twice is the same as once. *)
Theorem headers_add_idempotent (d r u : dict) (K : string) (V : json) (hs : list json) :
  dict_get "request" d = Some (JObj r) ->
  dict_get "header" r = Some (JArr hs) \/ (dict_get "header" r = None /\ hs = []) ->
  forallb (has_field "key") hs = true ->
  add_directive K V u ->
  exists item1,
    apply_update (JObj d) ("headers", JObj u) = Ok item1
    /\ apply_update item1 ("headers", JObj u) = Ok item1.
Proof.
  intros Hr Hh Hf Hd.
  destruct (headers_add_twice r u K V hs Hh Hf Hd) as (hs' & E1 & E2 & _).
  pose proof Hd as (Ha & _).
  eexists. split.
  - rewrite (headers_update_add d u (JObj r) Hr Ha), E1. reflexivity.
  - rewrite (headers_update_add _ u _ (dict_get_set_same _ _ _) Ha), E2.
    cbn [bind]. rewrite dict_set_set. reflexivity.
Qed.

Lemma headers_add_idempotent_witness :
  exists item1,
    apply_update
      (JObj [("name", JStr "n");
             ("request", JObj [("header", JArr [JObj [("key", JStr "B"); ("value", JStr "0")]])])])
      ("headers", JObj [("action", JStr "add"); ("key", JStr "A"); ("value", JStr "1")])
    = Ok item1
    /\ apply_update item1
         ("headers", JObj [("action", JStr "add"); ("key", JStr "A"); ("value", JStr "1")])
       = Ok item1.
Proof.
  apply (headers_add_idempotent
           [("name", JStr "n");
            ("request", JObj [("header", JArr [JObj [("key", JStr "B"); ("value", JStr "0")]])])]
           [("header", JArr [JObj [("key", JStr "B"); ("value", JStr "0")]])]
           [("action", JStr "add"); ("key", JStr "A"); ("value", JStr "1")]
           "A" (JStr "1")
           [JObj [("key", JStr "B"); ("value", JStr "0")]]).
  - reflexivity.
  - left. reflexivity.
  - reflexivity.
  - repeat split.
Defined.

(** ** A remove after an add *)

Lemma first_match_updated_others (K : string) (V new : json) (l l' : list json) :
  key_is K new = true ->
  first_match_updated K V new l l' ->
  filter (fun e => negb (key_is K e)) l' = filter (fun e => negb (key_is K e)) l.
Proof.
  intros Hnew [[_ ->] | (pre & e & post & -> & _ & He & ->)].
  - rewrite filter_app. cbn [filter]. rewrite Hnew. cbn [negb]. apply app_nil_r.
  - rewrite !filter_app. cbn [filter]. rewrite key_is_set_value, He. reflexivity.
Qed.

Lemma filter_twice (p : json -> bool) (l : list json) :
  filter p (filter p l) = filter p l.
Proof.
  induction l as [|a l IH]; cbn [filter]; [reflexivity|].
  destruct (p a) eqn:E; cbn [filter]; [rewrite E, IH|]; auto.
Qed.

Lemma forallb_filter (p q : json -> bool) (l : list json) :
  forallb p l = true -> forallb p (filter q l) = true.
Proof.
  induction l as [|a l IH]; cbn [forallb filter]; [reflexivity|].
  intros H. apply andb_true_iff in H. destruct H as [Ha Hl].
  destruct (q a); cbn [forallb]; [rewrite Ha|]; auto.
Qed.

(** X2: on a request whose headers all carry a key, a headers remove of key
    K after a headers add of key K leaves the headers that had another key,
    in their order, as the remove alone does on the original list; and a
    second remove changes nothing. *)
Theorem headers_remove_after_add (d r u u' : dict) (K : string) (V : json) (hs : list json) :
  dict_get "request" d = Some (JObj r) ->
  dict_get "header" r = Some (JArr hs) \/ (dict_get "header" r = None /\ hs = []) ->
  forallb (has_field "key") hs = true ->
  add_directive K V u ->
  remove_directive K u' ->
  exists item1,
    let item2 :=
      JObj (dict_set "request"
              (JObj (dict_set "header"
                       (JArr (filter (fun h => negb (key_is K h)) hs)) r)) d) in
    apply_update (JObj d) ("headers", JObj u) = Ok item1
    /\ apply_update item1 ("headers", JObj u') = Ok item2
    /\ apply_update item2 ("headers", JObj u') = Ok item2.
Proof.
  intros Hr Hh Hf Hd (Ha' & Hk').
  destruct (headers_add_twice r u K V hs Hh Hf Hd) as (hs' & E1 & _ & Hf' & Hs).
  pose proof Hd as (Ha & _).
  assert (Ho : filter (fun e => negb (key_is K e)) hs'
               = filter (fun e => negb (key_is K e)) hs).
  { refine (first_match_updated_others K V _ hs hs' _ Hs).
    unfold key_is. cbn [dict_get String.eqb Ascii.eqb Bool.eqb py_eq].
    apply String.eqb_refl. }
  eexists. cbv zeta. split; [|split].
  - rewrite (headers_update_add d u (JObj r) Hr Ha), E1. reflexivity.
  - rewrite (headers_update_remove _ u' _ (dict_get_set_same _ _ _) Ha').
    rewrite (headers_remove_list _ u' K hs' (dict_get_set_same _ _ _) Hf' Hk').
    cbn [bind]. rewrite !dict_set_set, Ho. reflexivity.
  - rewrite (headers_update_remove _ u' _ (dict_get_set_same _ _ _) Ha').
    rewrite (headers_remove_list _ u' K _ (dict_get_set_same _ _ _)
               (forallb_filter _ _ hs Hf) Hk').
    cbn [bind]. rewrite !dict_set_set, filter_twice. reflexivity.
Qed.

Lemma headers_remove_after_add_witness :
  exists item1,
    apply_update
      (JObj [("request", JObj [("header", JArr [JObj [("key", JStr "B"); ("value", JStr "0")]])])])
      ("headers", JObj [("action", JStr "add"); ("key", JStr "A"); ("value", JStr "1")])
    = Ok item1
    /\ apply_update item1 ("headers", JObj [("action", JStr "remove"); ("key", JStr "A")])
       = Ok (JObj [("request",
                    JObj [("header", JArr [JObj [("key", JStr "B"); ("value", JStr "0")]])])]).
Proof.
  destruct (headers_remove_after_add
              [("request", JObj [("header", JArr [JObj [("key", JStr "B"); ("value", JStr "0")]])])]
              [("header", JArr [JObj [("key", JStr "B"); ("value", JStr "0")]])]
              [("action", JStr "add"); ("key", JStr "A"); ("value", JStr "1")]
              [("action", JStr "remove"); ("key", JStr "A")]
              "A" (JStr "1")
              [JObj [("key", JStr "B"); ("value", JStr "0")]])
    as (item1 & E1 & E2 & _).
  - reflexivity.
  - left. reflexivity.
  - reflexivity.
  - repeat split.
  - split; reflexivity.
  - exists item1. split; [exact E1 | exact E2].
Defined.

(** X3: on a request whose url is a string or a well-formed dict, a
    query_params add applied to its own result changes nothing, raw
    included: twice is the same as once. *)
Theorem query_add_idempotent (d r u : dict) (url : json) (K : string) (V : json) :
  dict_get "request" d = Some (JObj r) ->
  dict_get "url" r = Some url ->
  wf_url url = true ->
  add_directive K V u ->
  exists item1,
    apply_update (JObj d) ("query_params", JObj u) = Ok item1
    /\ apply_update item1 ("query_params", JObj u) = Ok item1.
Proof.
  intros Hr Hu Hw Hd.
  destruct (structured_url_wf url Hw) as (d0 & qs & host & path & Hs & Hq & Hqs & Hh & Hp & _).
  destruct (query_add_list d0 u K V qs host path Hq Hqs Hh Hp Hd) as (qs' & raw & E & Hfm & Hraw).
  pose proof Hd as (Ha & _).
  set (d1 := dict_set "raw" (JStr raw) (dict_set "query" (JArr qs') d0)) in *.
  assert (Hq1 : dict_get "query" d1 = Some (JArr qs')).
  { unfold d1. rewrite dict_get_set_other by discriminate. apply dict_get_set_same. }
  assert (Hqs' : forallb is_param qs' = true).
  { apply (first_match_updated_params K V (JObj [("key", JStr K); ("value", V)]) qs qs');
      [reflexivity | exact Hqs | exact Hfm]. }
  assert (Hh1 : dict_get "host" d1 = option_map (fun l => JArr (map JStr l)) host).
  { unfold d1. rewrite !dict_get_set_other by discriminate. exact Hh. }
  assert (Hp1 : dict_get "path" d1 = option_map (fun l => JArr (map JStr l)) path).
  { unfold d1. rewrite !dict_get_set_other by discriminate. exact Hp. }
  destruct (query_add_list d1 u K V qs' host path Hq1 Hqs' Hh1 Hp1 Hd)
    as (qs'' & raw2 & E2 & Hfm2 & Hraw2).
  assert (Hsame : qs'' = qs').
  { apply (first_match_updated_again K V [("key", JStr K); ("value", V)] qs qs' qs'');
      try assumption.
    - unfold key_is. cbn [dict_get String.eqb Ascii.eqb Bool.eqb py_eq].
      apply String.eqb_refl.
    - reflexivity. }
  subst qs''.
  rewrite (dict_set_get_id _ _ _ Hq1) in E2, Hraw2.
  rewrite rebuild_raw_ignores_raw, Hraw in Hraw2. injection Hraw2 as <-.
  assert (Hr1 : dict_set "raw" (JStr raw) d1 = d1).
  { apply dict_set_get_id. unfold d1. apply dict_get_set_same. }
  rewrite Hr1 in E2.
  assert (Hs1 : structured_url (JObj d1) = Ok (JObj d1)).
  { unfold structured_url. cbn [bind py_in]. rewrite Hq1. reflexivity. }
  eexists. split.
  - rewrite (query_params_step d r u url d0 "add" Hr Hu Hs Ha).
    cbn [String.eqb Ascii.eqb Bool.eqb]. rewrite E. reflexivity.
  - rewrite (query_params_step _ _ u (JObj d1) d1 "add"
               (dict_get_set_same _ _ _) (dict_get_set_same _ _ _) Hs1 Ha).
    cbn [String.eqb Ascii.eqb Bool.eqb]. rewrite E2. cbn [bind].
    rewrite !dict_set_set. reflexivity.
Qed.

Lemma query_add_idempotent_witness :
  exists item1,
    apply_update (JObj [("request", JObj [("url", JStr "https://h.io/p?old=1")])])
                 ("query_params",
                  JObj [("action", JStr "add"); ("key", JStr "a"); ("value", JStr "1")])
    = Ok item1
    /\ apply_update item1
         ("query_params",
          JObj [("action", JStr "add"); ("key", JStr "a"); ("value", JStr "1")])
       = Ok item1.
Proof.
  apply (query_add_idempotent
           [("request", JObj [("url", JStr "https://h.io/p?old=1")])]
           [("url", JStr "https://h.io/p?old=1")]
           [("action", JStr "add"); ("key", JStr "a"); ("value", JStr "1")]
           (JStr "https://h.io/p?old=1") "a" (JStr "1")).
  - reflexivity.
  - reflexivity.
  - reflexivity.
  - repeat split.
Defined.

(** ** What an update leaves alone *)

Lemma headers_step_frame (ud : json) (r : dict) (req' : json) :
  update_step ("headers", ud) (JObj r) = Ok req' ->
  exists r', req' = JObj r' /\ forall k, k <> "header" -> dict_get k r' = dict_get k r.
Proof.
  cbn [update_step String.eqb Ascii.eqb Bool.eqb]. intros H.
  apply bind_ok in H. destruct H as (action & _ & H).
  destruct (py_eq action (JStr "add")).
  - unfold headers_add in H.
    apply bind_ok in H. destruct H as (b & _ & H).
    apply bind_ok in H. destruct H as (req1 & H1 & H).
    apply bind_ok in H. destruct H as (hs & _ & H).
    apply bind_ok in H. destruct H as (hs' & _ & H).
    assert (E1 : exists r1, req1 = JObj r1
                            /\ forall k, k <> "header" -> dict_get k r1 = dict_get k r).
    { destruct b.
      - injection H1 as <-. eauto.
      - cbn [py_setitem] in H1. injection H1 as <-. eexists. split; [reflexivity|].
        intros k Hk. apply dict_get_set_other. congruence. }
    destruct E1 as (r1 & -> & E1). cbn [py_setitem] in H. injection H as <-.
    eexists. split; [reflexivity|].
    intros k Hk. rewrite dict_get_set_other by congruence. apply E1. exact Hk.
  - destruct (py_eq action (JStr "remove")).
    + unfold headers_remove in H.
      apply bind_ok in H. destruct H as (b & _ & H).
      destruct b; [|injection H as <-; eauto].
      apply bind_ok in H. destruct H as (hs & _ & H).
      apply bind_ok in H. destruct H as (hs' & _ & H).
      cbn [py_setitem] in H. injection H as <-.
      eexists. split; [reflexivity|].
      intros k Hk. apply dict_get_set_other. congruence.
    + injection H as <-. eauto.
Qed.

Lemma query_step_frame (ud : json) (r : dict) (req' : json) :
  update_step ("query_params", ud) (JObj r) = Ok req' ->
  exists r', req' = JObj r' /\ forall k, k <> "url" -> dict_get k r' = dict_get k r.
Proof.
  cbn [update_step String.eqb Ascii.eqb Bool.eqb]. unfold query_params_update. intros H.
  apply bind_ok in H. destruct H as (b & _ & H).
  destruct b; cbn [negb] in H; [|injection H as <-; eauto].
  apply bind_ok in H. destruct H as (url & _ & H).
  apply bind_ok in H. destruct H as (url1 & _ & H).
  apply bind_ok in H. destruct H as (action & _ & H).
  apply bind_ok in H. destruct H as (url2 & _ & H).
  cbn [py_setitem] in H. injection H as <-.
  eexists. split; [reflexivity|].
  intros k Hk. apply dict_get_set_other. congruence.
Qed.

(** X4: whatever the directive holds, an update that succeeds on an item
    changes nothing but its request, and in the request nothing but 'header'
    (a headers update) or 'url' (a query_params update); any other update
    type changes nothing at all. *)
Theorem update_changes_one_field (d r : dict) (ut : string) (ud item' : json) :
  dict_get "request" d = Some (JObj r) ->
  apply_update (JObj d) (ut, ud) = Ok item' ->
  exists r',
    item' = JObj (dict_set "request" (JObj r') d)
    /\ (forall k, k <> "request" ->
                  dict_get k (dict_set "request" (JObj r') d) = dict_get k d)
    /\ (forall k, k <> "header" -> k <> "url" -> dict_get k r' = dict_get k r)
    /\ (ut <> "headers" -> dict_get "header" r' = dict_get "header" r)
    /\ (ut <> "query_params" -> dict_get "url" r' = dict_get "url" r)
    /\ (ut <> "headers" -> ut <> "query_params" -> item' = JObj d).
Proof.
  intros Hr H. rewrite (apply_update_request d (JObj r) (ut, ud) Hr) in H.
  apply bind_ok in H. destruct H as (req' & Hs & H). injection H as <-.
  assert (G : exists r',
             req' = JObj r'
             /\ (forall k, k <> "header" -> k <> "url" -> dict_get k r' = dict_get k r)
             /\ (ut <> "headers" -> dict_get "header" r' = dict_get "header" r)
             /\ (ut <> "query_params" -> dict_get "url" r' = dict_get "url" r)
             /\ (ut <> "headers" -> ut <> "query_params" -> r' = r)).
  { destruct (String.eqb ut "headers") eqn:E1.
    - apply String.eqb_eq in E1. subst ut.
      destruct (headers_step_frame ud r req' Hs) as (r' & -> & F).
      exists r'. split; [reflexivity|]. split; [intros; apply F; assumption|].
      split; [congruence|]. split; [intros _; apply F; discriminate | congruence].
    - destruct (String.eqb ut "query_params") eqn:E2.
      + apply String.eqb_eq in E2. subst ut.
        destruct (query_step_frame ud r req' Hs) as (r' & -> & F).
        exists r'. split; [reflexivity|]. split; [intros; apply F; assumption|].
        split; [intros _; apply F; discriminate|]. split; congruence.
      + rewrite (other_step_keeps_request ut ud (JObj r) req' E1 E2 Hs).
        exists r. auto. }
  destruct G as (r' & -> & F1 & F2 & F3 & F4).
  exists r'. split; [reflexivity|].
  split; [intros k Hk; apply dict_get_set_other; congruence|].
  split; [exact F1|]. split; [exact F2|]. split; [exact F3|].
  intros H1 H2. rewrite (F4 H1 H2), (dict_set_get_id _ _ _ Hr). reflexivity.
Qed.

Lemma update_changes_one_field_witness :
  exists r',
    JObj [("name", JStr "n");
          ("request", JObj [("method", JStr "GET");
                            ("header", JArr [JObj [("key", JStr "A"); ("value", JStr "1");
                                                   ("type", JStr "text")]])])]
    = JObj (dict_set "request" (JObj r')
              [("name", JStr "n"); ("request", JObj [("method", JStr "GET")])])
    /\ dict_get "method" r' = Some (JStr "GET")
    /\ dict_get "url" r' = None.
Proof.
  destruct (update_changes_one_field
              [("name", JStr "n"); ("request", JObj [("method", JStr "GET")])]
              [("method", JStr "GET")]
              "headers"
              (JObj [("action", JStr "add"); ("key", JStr "A"); ("value", JStr "1")])
              (JObj [("name", JStr "n");
                     ("request", JObj [("method", JStr "GET");
                                       ("header", JArr [JObj [("key", JStr "A");
                                                              ("value", JStr "1");
                                                              ("type", JStr "text")]])])]))
    as (r' & E & _ & F1 & _ & F3 & _).
  - reflexivity.
  - reflexivity.
  - exists r'. split; [exact E|]. split.
    + apply (F1 "method"); discriminate.
    + apply F3. discriminate.
Defined.

Lemma query_update_url_frame (ud : json) (r du : dict) (req' : json) :
  dict_get "url" r = Some (JObj du) ->
  query_params_update ud (JObj r) = Ok req' ->
  exists du',
    req' = JObj (dict_set "url" (JObj du') r)
    /\ forall k, k <> "query" -> k <> "raw" -> dict_get k du' = dict_get k du.
Proof.
  intros Hu H. unfold query_params_update in H.
  rewrite (py_in_obj _ _ _ Hu) in H. cbn [bind negb] in H.
  rewrite (py_getitem_obj _ _ _ Hu) in H. cbn [bind] in H.
  assert (S : exists d1, structured_url (JObj du) = Ok (JObj d1)
                         /\ forall k, k <> "query" -> dict_get k d1 = dict_get k du).
  { unfold structured_url. cbn [bind py_in].
    destruct (dict_get "query" du); cbn [bind py_setitem].
    - exists du. auto.
    - eexists. split; [reflexivity|]. intros k Hk. apply dict_get_set_other. congruence. }
  destruct S as (d1 & Es & F1). rewrite Es in H. cbn [bind] in H.
  apply bind_ok in H. destruct H as (action & _ & H).
  apply bind_ok in H. destruct H as (url2 & H2 & H).
  cbn [py_setitem] in H. injection H as <-.
  assert (G : exists du', url2 = JObj du'
                          /\ forall k, k <> "query" -> k <> "raw" ->
                                       dict_get k du' = dict_get k d1).
  { destruct (py_eq action (JStr "add")).
    - unfold query_add in H2.
      apply bind_ok in H2. destruct H2 as (q & _ & H2).
      apply bind_ok in H2. destruct H2 as (q' & _ & H2).
      cbn [py_setitem bind] in H2.
      apply bind_ok in H2. destruct H2 as (raw & _ & H2). injection H2 as <-.
      eexists. split; [reflexivity|].
      intros k Hq Hr. rewrite !dict_get_set_other by congruence. reflexivity.
    - destruct (py_eq action (JStr "remove")); [|injection H2 as <-; eauto].
      unfold query_remove in H2.
      apply bind_ok in H2. destruct H2 as (b & _ & H2).
      destruct b; [|injection H2 as <-; eauto].
      apply bind_ok in H2. destruct H2 as (q & _ & H2).
      apply bind_ok in H2. destruct H2 as (q' & _ & H2).
      cbn [py_setitem] in H2. injection H2 as <-.
      eexists. split; [reflexivity|].
      intros k Hq Hr. apply dict_get_set_other. congruence. }
  destruct G as (du' & -> & F2).
  exists du'. split; [reflexivity|].
  intros k Hq Hr. rewrite (F2 k Hq Hr). apply F1. exact Hq.
Qed.

(** X5: a query_params update that succeeds on a structured url, whatever
    its action, leaves every field of the url but 'query' and 'raw' as it
    was: protocol, host and path are never recomputed. *)
Theorem query_update_keeps_url_fields (d r du : dict) (ud item' : json) :
  dict_get "request" d = Some (JObj r) ->
  dict_get "url" r = Some (JObj du) ->
  apply_update (JObj d) ("query_params", ud) = Ok item' ->
  exists du',
    item' = JObj (dict_set "request" (JObj (dict_set "url" (JObj du') r)) d)
    /\ dict_get "protocol" du' = dict_get "protocol" du
    /\ dict_get "host" du' = dict_get "host" du
    /\ dict_get "path" du' = dict_get "path" du
    /\ forall k, k <> "query" -> k <> "raw" -> dict_get k du' = dict_get k du.
Proof.
  intros Hr Hu H. rewrite (apply_update_request d (JObj r) _ Hr) in H.
  apply bind_ok in H. destruct H as (req' & Hs & H). injection H as <-.
  cbn [update_step String.eqb Ascii.eqb Bool.eqb] in Hs.
  destruct (query_update_url_frame ud r du req' Hu Hs) as (du' & -> & F).
  exists du'. split; [reflexivity|].
  split; [apply F; discriminate|]. split; [apply F; discriminate|].
  split; [apply F; discriminate | exact F].
Qed.

Lemma query_update_keeps_url_fields_witness :
  exists du',
    JObj [("request",
           JObj [("url", JObj [("raw", JStr "http://h/p?a=1");
                               ("host", JArr [JStr "h"]);
                               ("path", JArr [JStr "p"]);
                               ("variable", JArr []);
                               ("query", JArr [JObj [("key", JStr "a"); ("value", JStr "1")]])])])]
    = JObj (dict_set "request"
              (JObj (dict_set "url" (JObj du')
                       [("url", JObj [("raw", JStr "stale");
                                      ("host", JArr [JStr "h"]);
                                      ("path", JArr [JStr "p"]);
                                      ("variable", JArr [])])]))
              [("request", JObj [("url", JObj [("raw", JStr "stale");
                                               ("host", JArr [JStr "h"]);
                                               ("path", JArr [JStr "p"]);
                                               ("variable", JArr [])])])])
    /\ dict_get "variable" du' = Some (JArr []).
Proof.
  destruct (query_update_keeps_url_fields
              [("request", JObj [("url", JObj [("raw", JStr "stale");
                                               ("host", JArr [JStr "h"]);
                                               ("path", JArr [JStr "p"]);
                                               ("variable", JArr [])])])]
              [("url", JObj [("raw", JStr "stale");
                             ("host", JArr [JStr "h"]);
                             ("path", JArr [JStr "p"]);
                             ("variable", JArr [])])]
              [("raw", JStr "stale");
               ("host", JArr [JStr "h"]);
               ("path", JArr [JStr "p"]);
               ("variable", JArr [])]
              (JObj [("action", JStr "add"); ("key", JStr "a"); ("value", JStr "1")])
              (JObj [("request",
                      JObj [("url", JObj [("raw", JStr "http://h/p?a=1");
                                          ("host", JArr [JStr "h"]);
                                          ("path", JArr [JStr "p"]);
                                          ("variable", JArr []);
                                          ("query", JArr [JObj [("key", JStr "a");
                                                                ("value", JStr "1")]])])])]))
    as (du' & E & _ & _ & _ & F).
  - reflexivity.
  - reflexivity.
  - reflexivity.
  - exists du'. split; [exact E|]. apply (F "variable"); discriminate.
Defined.

(** ** The walk as a whole *)

Lemma erase_node_obj (d : dict) :
  erase_node (JObj d) = JObj (map erase_field d).
Proof.
  change (erase_node (JObj d))
    with (JObj ((fix fields (d : list (string * json)) : list (string * json) :=
                   match d with
                   | [] => []
                   | (k, v) :: r =>
                       (if String.eqb k "request" then (k, JNull)
                        else if String.eqb k "item" then (k, erase_requests v)
                        else (k, v)) :: fields r
                   end) d)).
  f_equal. induction d as [|[k v] d IH]; [reflexivity|].
  cbn [map]. rewrite <- IH. unfold erase_field. cbn [fst snd].
  destruct (String.eqb k "request"); [reflexivity|].
  destruct (String.eqb k "item"); reflexivity.
Qed.

Lemma erase_set_request (x y : json) (d : dict) :
  dict_get "request" d = Some y ->
  map erase_field (dict_set "request" x d) = map erase_field d.
Proof.
  induction d as [|[k v] d IH]; cbn [dict_get dict_set]; [discriminate|].
  destruct (String.eqb k "request") eqn:E; intros H.
  - cbn [map]. unfold erase_field. cbn [fst snd]. rewrite E. reflexivity.
  - cbn [map]. rewrite (IH H). reflexivity.
Qed.

Lemma erase_set_item (sub sub' : json) (d : dict) :
  dict_get "item" d = Some sub ->
  erase_requests sub' = erase_requests sub ->
  map erase_field (dict_set "item" sub' d) = map erase_field d.
Proof.
  intros H Hs. induction d as [|[k v] d IH]; cbn [dict_get dict_set] in *; [discriminate|].
  destruct (String.eqb k "item") eqn:E.
  - injection H as ->. cbn [map]. unfold erase_field. cbn [fst snd].
    rewrite E. apply String.eqb_eq in E. subst k.
    cbn [String.eqb Ascii.eqb Bool.eqb]. rewrite Hs. reflexivity.
  - cbn [map]. rewrite (IH H). reflexivity.
Qed.

(** The walk changes requests only, and a tree stays a tree. *)
Lemma process_items_shape (updates : json) (v : json) :
  (wf_tree v = true -> forall v',
      process_items updates v = Ok v' ->
      erase_requests v' = erase_requests v /\ wf_tree v' = true)
  /\ (wf_node v = true -> forall v',
         process_item updates v = Ok v' ->
         erase_node v' = erase_node v /\ wf_node v' = true).
Proof.
  induction v as [| | | |l IH|d IH] using json_ind; try (split; discriminate).
  - split; [|discriminate].
    change (wf_tree (JArr l)) with (forallb wf_node l).
    change (process_items updates (JArr l))
      with (l' <- mapM (process_item updates) l ;; Ok (JArr l')).
    intros Hw v' H. apply bind_ok in H. destruct H as (l' & Hm & H). injection H as <-.
    change (erase_requests (JArr l')) with (JArr (map erase_node l')).
    change (erase_requests (JArr l)) with (JArr (map erase_node l)).
    change (wf_tree (JArr l')) with (forallb wf_node l').
    revert l' Hm. induction l as [|a l IHl]; intros l' Hm.
    + injection Hm as <-. auto.
    + cbn [forallb] in Hw. apply andb_true_iff in Hw. destruct Hw as [Ha Hl].
      inversion IH as [|? ? [_ Pa] Pl]; subst.
      cbn [mapM] in Hm.
      apply bind_ok in Hm. destruct Hm as (a' & Ea & Hm).
      apply bind_ok in Hm. destruct Hm as (l1 & El & Hm). injection Hm as <-.
      destruct (Pa Ha a' Ea) as (Ea1 & Ea2).
      destruct (IHl Pl Hl l1 El) as (El1 & El2).
      cbn [map forallb]. rewrite Ea1, Ea2, El2. injection El1 as ->. auto.
  - split; [discriminate|].
    rewrite wf_node_obj, process_item_obj, visit_request_obj.
    intros Hw v' H.
    assert (V : exists d1, (match dict_get "request" d with
                            | Some req => req' <- update_request updates req ;;
                                          Ok (JObj (dict_set "request" req' d))
                            | None => Ok (JObj d)
                            end) = Ok (JObj d1)
                           /\ map erase_field d1 = map erase_field d
                           /\ dict_get "item" d1 = dict_get "item" d).
    { destruct (dict_get "request" d) as [req|] eqn:Er; [|exists d; auto].
      destruct (update_request updates req) as [req'|e]; [|discriminate].
      cbn [bind]. eexists. split; [reflexivity|]. split.
      - apply (erase_set_request req' req d Er).
      - apply dict_get_set_other. discriminate. }
    destruct V as (d1 & Ev & Ee & Ei). rewrite Ev in H. cbn [bind py_in] in H.
    rewrite Ei in H.
    destruct (dict_get "item" d) as [sub|] eqn:Es.
    + cbn [bind] in H. apply bind_ok in H. destruct H as (sub' & Ep & H).
      cbn [py_setitem] in H. injection H as <-.
      rewrite Forall_forall in IH.
      destruct (proj1 (IH ("item", sub) (dict_get_in _ _ _ Es)) Hw sub' Ep) as (E1 & E2).
      rewrite !erase_node_obj, wf_node_obj, dict_get_set_same.
      rewrite (erase_set_item sub sub' d1 Ei E1), Ee. auto.
    + cbn [bind] in H. injection H as <-.
      rewrite !erase_node_obj, wf_node_obj, Ei, Ee. auto.
Qed.

(** X6: the walk of a tree of items changes requests only: with every
    request blanked, the result is the input (same nesting, same order, same
    other fields on every item), and it is again a tree of items. *)
Theorem process_items_changes_requests_only (updates items items' : json) :
  wf_tree items = true ->
  process_items updates items = Ok items' ->
  erase_requests items' = erase_requests items /\ wf_tree items' = true.
Proof.
  intros Hw H. exact (proj1 (process_items_shape updates items) Hw items' H).
Qed.

Lemma process_items_changes_requests_only_witness :
  erase_requests
    (JArr [JObj [("name", JStr "folder");
                 ("item", JArr [JObj [("name", JStr "r");
                                      ("request",
                                       JObj [("header",
                                              JArr [JObj [("key", JStr "A"); ("value", JStr "1");
                                                          ("type", JStr "text")]])])]])]])
  = erase_requests
      (JArr [JObj [("name", JStr "folder");
                   ("item", JArr [JObj [("name", JStr "r"); ("request", JObj [])]])]]).
Proof.
  apply (process_items_changes_requests_only
           (JObj [("headers", JObj [("action", JStr "add"); ("key", JStr "A");
                                    ("value", JStr "1")])])
           (JArr [JObj [("name", JStr "folder");
                        ("item", JArr [JObj [("name", JStr "r"); ("request", JObj [])]])]])).
  - reflexivity.
  - reflexivity.
Defined.

(** A tree whose requests the updates leave as they are is left as it is. *)
Lemma process_items_fixed (updates : json) (v : json) :
  (wf_tree v = true ->
   (forall req, In req (requests_of v) -> update_request updates req = Ok req) ->
   process_items updates v = Ok v)
  /\ (wf_node v = true ->
      (forall req, In req (node_requests v) -> update_request updates req = Ok req) ->
      process_item updates v = Ok v).
Proof.
  induction v as [| | | |l IH|d IH] using json_ind; try (split; discriminate).
  - split; [|discriminate].
    change (wf_tree (JArr l)) with (forallb wf_node l).
    change (process_items updates (JArr l))
      with (l' <- mapM (process_item updates) l ;; Ok (JArr l')).
    change (requests_of (JArr l)) with (flat_map node_requests l).
    intros Hw Hf.
    assert (G : mapM (process_item updates) l = Ok l).
    { induction l as [|a l IHl]; [reflexivity|].
      cbn [forallb] in Hw. apply andb_true_iff in Hw. destruct Hw as [Ha Hl].
      inversion IH as [|? ? [_ Pa] Pl]; subst.
      cbn [flat_map] in Hf. cbn [mapM].
      rewrite (Pa Ha (fun req H => Hf req (in_or_app _ _ _ (or_introl H)))).
      cbn [bind].
      rewrite (IHl Pl Hl (fun req H => Hf req (in_or_app _ _ _ (or_intror H)))).
      reflexivity. }
    rewrite G. reflexivity.
  - split; [discriminate|].
    rewrite wf_node_obj, process_item_obj, visit_request_obj, node_requests_obj.
    intros Hw Hf.
    assert (V : (match dict_get "request" d with
                 | Some req => req' <- update_request updates req ;;
                               Ok (JObj (dict_set "request" req' d))
                 | None => Ok (JObj d)
                 end) = Ok (JObj d)).
    { destruct (dict_get "request" d) as [req|] eqn:Er; [|reflexivity].
      rewrite (Hf req (in_or_app _ _ _ (or_introl (in_eq req [])))).
      cbn [bind]. rewrite (dict_set_get_id _ _ _ Er). reflexivity. }
    rewrite V. cbn [bind py_in].
    destruct (dict_get "item" d) as [sub|] eqn:Es; [|reflexivity].
    cbn [bind]. rewrite Forall_forall in IH.
    pose proof (proj1 (IH ("item", sub) (dict_get_in _ _ _ Es)) Hw
                  (fun req H => Hf req (in_or_app _ _ _ (or_intror H)))) as Ps.
    cbn [snd] in Ps. rewrite Ps.
    cbn [bind py_setitem]. rewrite (dict_set_get_id _ _ _ Es). reflexivity.
Qed.

Lemma update_step_passed_over (u : string * json) (req : json) :
  passed_over u -> update_step u req = Ok req.
Proof.
  destruct u as [ut ud]. unfold passed_over. cbn [fst snd update_step].
  intros [[H1 H2] | [-> (action & Ea & Eadd & Erem)]].
  - destruct (String.eqb ut "headers") eqn:E1;
      [apply String.eqb_eq in E1; contradiction|].
    destruct (String.eqb ut "query_params") eqn:E2;
      [apply String.eqb_eq in E2; contradiction|].
    reflexivity.
  - cbn [String.eqb Ascii.eqb Bool.eqb]. rewrite Ea. cbn [bind].
    rewrite Eadd, Erem. reflexivity.
Qed.

Lemma update_request_passed_over (us : list (string * json)) (req : json) :
  Forall passed_over us -> update_request (JObj us) req = Ok req.
Proof.
  intros H. rewrite update_request_fold. cbn [py_items bind].
  induction H as [|u us Hu _ IH]; [reflexivity|].
  cbn [foldM]. rewrite (update_step_passed_over u req Hu). exact IH.
Qed.

(** X7: when every directive is of an unknown update type, or is a headers
    directive with an action other than add and remove (no directive at all
    included), the walk returns the tree as it is. *)
Theorem process_items_passes_over_unknown (items : json) (us : list (string * json)) :
  wf_tree items = true ->
  Forall passed_over us ->
  process_items (JObj us) items = Ok items.
Proof.
  intros Hw Hp.
  apply (proj1 (process_items_fixed (JObj us) items) Hw).
  intros req _. apply (update_request_passed_over us req Hp).
Qed.

Lemma process_items_passes_over_unknown_witness :
  process_items
    (JObj [("body", JObj [("action", JStr "add")]);
           ("headers", JObj [("action", JStr "rename")])])
    (JArr [JObj [("item", JArr [JObj [("request", JObj [("url", JStr "h.io")])]])]])
  = Ok (JArr [JObj [("item", JArr [JObj [("request", JObj [("url", JStr "h.io")])]])]]).
Proof.
  apply (process_items_passes_over_unknown
           (JArr [JObj [("item", JArr [JObj [("request", JObj [("url", JStr "h.io")])]])]])
           [("body", JObj [("action", JStr "add")]);
            ("headers", JObj [("action", JStr "rename")])]).
  - reflexivity.
  - constructor; [|constructor; [|constructor]].
    + left. split; discriminate.
    + right. split; [reflexivity|]. exists (JStr "rename"). repeat split.
Defined.

(** X8: when [updates] is not a dict (a list, a string, a number, null), the
    walk raises AttributeError as soon as the tree holds a request, and
    returns the tree as it is when it holds none. *)
Theorem process_items_with_updates_not_a_dict (updates items : json) :
  (forall us, updates <> JObj us) ->
  wf_tree items = true ->
  (requests_of items = [] -> process_items updates items = Ok items)
  /\ (requests_of items <> [] -> process_items updates items = Raise AttributeError).
Proof.
  intros Hn Hw.
  split.
  - intros Hnil.
    apply (proj1 (process_items_fixed updates items) Hw).
    rewrite Hnil. intros req [].
  - intros Hne.
    pose proof (proj1 (process_items_requests updates items) Hw) as E.
    destruct (requests_of items) as [|req reqs]; [contradiction|].
    assert (R : update_request updates req = Raise AttributeError).
    { unfold update_request, apply_updates.
      destruct updates; try reflexivity. exfalso. apply (Hn d). reflexivity. }
    cbn [mapM] in E. rewrite R in E. cbn [bind] in E.
    destruct (process_items updates items) as [items'|e]; [discriminate|].
    cbn [bind] in E. injection E as ->. reflexivity.
Qed.

Lemma process_items_with_updates_not_a_dict_witness :
  process_items (JArr [JStr "headers"])
    (JArr [JObj [("item", JArr [JObj [("request", JObj [])]])]])
  = Raise AttributeError.
Proof.
  apply (process_items_with_updates_not_a_dict
           (JArr [JStr "headers"])
           (JArr [JObj [("item", JArr [JObj [("request", JObj [])]])]])).
  - discriminate.
  - reflexivity.
  - discriminate.
Defined.

Lemma update_request_headers_add_twice (u : dict) (K : string) (V req : json) :
  keyed_headers req = true ->
  add_directive K V u ->
  exists req1,
    update_request (JObj [("headers", JObj u)]) req = Ok req1
    /\ update_request (JObj [("headers", JObj u)]) req1 = Ok req1.
Proof.
  intros Hk Hd. pose proof Hd as (Ha & _).
  assert (S : forall x, update_request (JObj [("headers", JObj u)]) x
                        = headers_add (JObj u) x).
  { intros x. rewrite update_request_fold.
    cbn [py_items bind foldM update_step String.eqb Ascii.eqb Bool.eqb].
    rewrite (py_getitem_obj _ _ _ Ha). cbn [bind py_eq String.eqb Ascii.eqb Bool.eqb].
    destruct (headers_add (JObj u) x); reflexivity. }
  destruct req as [| | | | |r]; try discriminate.
  assert (H : exists hs,
             (dict_get "header" r = Some (JArr hs) \/ (dict_get "header" r = None /\ hs = []))
             /\ forallb (has_field "key") hs = true).
  { cbn [keyed_headers] in Hk.
    destruct (dict_get "header" r) as [[| | | |hs|]|]; try discriminate.
    - exists hs. auto.
    - exists []. auto. }
  destruct H as (hs & Hh & Hf).
  destruct (headers_add_twice r u K V hs Hh Hf Hd) as (hs' & E1 & E2 & _).
  eexists. rewrite !S. split; [exact E1 | exact E2].
Qed.

Lemma Forall2_in_right {A B : Type} (R : A -> B -> Prop) (l : list A) (l' : list B) (y : B) :
  Forall2 R l l' -> In y l' -> exists x, In x l /\ R x y.
Proof.
  intros H. induction H as [|a b l l' Hab _ IH]; intros Hin; [contradiction|].
  destruct Hin as [<- | Hin].
  - exists a. split; [left; reflexivity | exact Hab].
  - destruct (IH Hin) as (x & Hx & Hr). exists x. split; [right; exact Hx | exact Hr].
Qed.

(** X9: on a tree of items whose requests all have keyed headers, the bulk
    headers add succeeds, and running it again on its result changes nothing:
    the whole walk is idempotent. *)
Theorem bulk_headers_add_idempotent (u : dict) (K : string) (V items : json) :
  wf_tree items = true ->
  forallb keyed_headers (requests_of items) = true ->
  add_directive K V u ->
  exists items',
    process_items (JObj [("headers", JObj u)]) items = Ok items'
    /\ process_items (JObj [("headers", JObj u)]) items' = Ok items'.
Proof.
  intros Hw Hk Hd.
  set (updates := JObj [("headers", JObj u)]).
  rewrite forallb_forall in Hk.
  pose proof (proj1 (process_items_requests updates items) Hw) as E.
  destruct (mapM_total (update_request updates) (requests_of items)) as (reqs' & Em).
  { intros req Hin.
    destruct (update_request_headers_add_twice u K V req (Hk req Hin) Hd) as (req1 & E1 & _).
    exists req1. exact E1. }
  rewrite Em in E.
  destruct (process_items updates items) as [items'|e] eqn:Ep; [|discriminate].
  cbn [bind] in E. injection E as E.
  exists items'. split; [reflexivity|].
  destruct (proj1 (process_items_shape updates items) Hw items' Ep) as (_ & Hw').
  apply (proj1 (process_items_fixed updates items') Hw').
  intros req' Hin. rewrite E in Hin.
  destruct (Forall2_in_right _ _ _ req' (mapM_Forall2 _ _ _ Em) Hin) as (req & Hreq & Hr).
  destruct (update_request_headers_add_twice u K V req (Hk req Hreq) Hd) as (req1 & E1 & E2).
  fold updates in E1, E2. rewrite Hr in E1. injection E1 as ->. exact E2.
Qed.

Lemma bulk_headers_add_idempotent_witness :
  exists items',
    process_items
      (JObj [("headers", JObj [("action", JStr "add"); ("key", JStr "A"); ("value", JStr "1")])])
      (JArr [JObj [("item", JArr [JObj [("request", JObj [])]])];
             JObj [("request", JObj [("header", JArr [JObj [("key", JStr "A");
                                                            ("value", JStr "0")]])])]])
    = Ok items'
    /\ process_items
         (JObj [("headers", JObj [("action", JStr "add"); ("key", JStr "A");
                                  ("value", JStr "1")])])
         items'
       = Ok items'.
Proof.
  apply (bulk_headers_add_idempotent
           [("action", JStr "add"); ("key", JStr "A"); ("value", JStr "1")]
           "A" (JStr "1")
           (JArr [JObj [("item", JArr [JObj [("request", JObj [])]])];
                  JObj [("request", JObj [("header", JArr [JObj [("key", JStr "A");
                                                                 ("value", JStr "0")]])])]])).
  - reflexivity.
  - reflexivity.
  - repeat split.
Defined.

(** ** Directives that add nothing *)

(** X10: on a string url, a query_params directive whose action is not
    "add" (a remove of any key, or an unknown action) still replaces the
    string by its structured form, with an empty query and the string as
    raw; a remove does so even without a key. *)
Theorem query_update_converts_string_url (d r u : dict) (s : string) (action : json) :
  dict_get "request" d = Some (JObj r) ->
  dict_get "url" r = Some (JStr s) ->
  dict_get "action" u = Some action ->
  py_eq action (JStr "add") = false ->
  exists du,
    normalize_url s = Ok (JObj du)
    /\ apply_update (JObj d) ("query_params", JObj u)
       = Ok (JObj (dict_set "request" (JObj (dict_set "url" (JObj du) r)) d))
    /\ dict_get "query" du = Some (JArr [])
    /\ dict_get "raw" du = Some (JStr s).
Proof.
  intros Hr Hu Ha Hadd.
  destruct (normalize_url_total s) as (p & host & path & E & _).
  eexists. split; [exact E|]. split; [|split; reflexivity].
  cbn [apply_update String.eqb Ascii.eqb Bool.eqb].
  rewrite (with_request_obj _ _ _ Hr).
  unfold query_params_update.
  rewrite (py_in_obj _ _ _ Hu). cbn [bind negb].
  rewrite (py_getitem_obj _ _ _ Hu). cbn [bind].
  rewrite structured_url_string, E. cbn [bind].
  rewrite (py_getitem_obj _ _ _ Ha). cbn [bind]. rewrite Hadd.
  destruct (py_eq action (JStr "remove")); reflexivity.
Qed.

Lemma query_update_converts_string_url_witness :
  exists du,
    normalize_url "h.io/p?a=1" = Ok (JObj du)
    /\ apply_update (JObj [("request", JObj [("url", JStr "h.io/p?a=1")])])
                    ("query_params", JObj [("action", JStr "remove")])
       = Ok (JObj (dict_set "request"
                     (JObj (dict_set "url" (JObj du) [("url", JStr "h.io/p?a=1")]))
                     [("request", JObj [("url", JStr "h.io/p?a=1")])]))
    /\ dict_get "query" du = Some (JArr [])
    /\ dict_get "raw" du = Some (JStr "h.io/p?a=1").
Proof.
  apply (query_update_converts_string_url
           [("request", JObj [("url", JStr "h.io/p?a=1")])]
           [("url", JStr "h.io/p?a=1")]
           [("action", JStr "remove")]
           "h.io/p?a=1" (JStr "remove")); reflexivity.
Defined.

(** ** The check of the request body *)

(** X11: for a body that is a dict, the answer is the 400 "Missing required
    data" exactly when 'filename' or 'updates' is missing (the empty dict
    included), whatever the stored file is. *)
Theorem bulk_update_bad_request (dd : dict) (stored : result json) :
  bulk_update (JObj dd) stored = BadRequest
  <-> (dict_get "filename" dd = None \/ dict_get "updates" dd = None).
Proof.
  split.
  - intros H.
    destruct (dict_get "filename" dd) as [fname|] eqn:Ef; [|left; reflexivity].
    destruct (dict_get "updates" dd) as [updates|] eqn:Eu; [|right; reflexivity].
    destruct (is_str fname) eqn:Hs.
    + destruct fname; try discriminate.
      rewrite (bulk_update_well_formed dd _ updates stored Ef Eu) in H.
      destruct (update_stored updates stored); discriminate.
    + rewrite (bulk_update_name_not_a_string dd fname updates stored Ef Eu Hs) in H.
      discriminate.
  - intros H. unfold bulk_update.
    destruct dd as [|kv dd]; [reflexivity|].
    cbn [py_truthy negb py_in].
    destruct (dict_get "filename" (kv :: dd)); [|reflexivity].
    destruct H as [H | H]; [discriminate|]. rewrite H. reflexivity.
Qed.

Lemma bulk_update_bad_request_witness :
  bulk_update (JObj [("filename", JStr "c.json")]) (Ok (JObj [("item", JArr [])]))
  = BadRequest.
Proof.
  apply (bulk_update_bad_request [("filename", JStr "c.json")]).
  right. reflexivity.
Defined.

(** ** A string url, converted and rebuilt *)

Lemma str_app_assoc (a b c : string) : (a ++ b) ++ c = a ++ (b ++ c).
Proof.
  induction a as [|x a IH]; cbn [append]; [reflexivity | rewrite IH; reflexivity].
Qed.

Lemma str_app_nil_r (a : string) : a ++ EmptyString = a.
Proof.
  induction a as [|x a IH]; cbn [append]; congruence.
Qed.

Lemma prefix_drop (t s : string) :
  String.prefix t s = true -> s = t ++ drop (String.length t) s.
Proof.
  revert s. induction t as [|c t IH]; intros s H; [reflexivity|].
  destruct s as [|c' s]; cbn [String.prefix] in H; [discriminate|].
  destruct (ascii_dec c c') as [<-|]; [|discriminate].
  cbn [String.length drop append]. rewrite <- (IH s H). reflexivity.
Qed.

Lemma concat_cons (sep x y : string) (r : list string) :
  String.concat sep (x :: y :: r) = x ++ sep ++ String.concat sep (y :: r).
Proof. reflexivity. Qed.

(** [sep.join(s.split(sep)) == s], for a non-empty separator. *)
Lemma concat_split_go (c0 : ascii) (sep0 s : string) :
  forall (k : nat) (cur : string),
    String.concat (String c0 sep0) (split_go (String c0 sep0) s k cur) = cur ++ drop k s.
Proof.
  induction s as [|c s IH]; intros k cur.
  - cbn [split_go String.concat]. destruct k; cbn [drop]; symmetry; apply str_app_nil_r.
  - destruct k as [|k]; cbn [split_go drop]; [|apply IH].
    destruct (String.prefix (String c0 sep0) (String c s)) eqn:E.
    + destruct (split_go_nonempty (String c0 sep0) s
                  (String.length (String c0 sep0) - 1) EmptyString) as (y & r & Ey).
      rewrite Ey, concat_cons, <- Ey, IH. cbn [append].
      f_equal.
      pose proof (prefix_drop _ _ E) as D.
      cbn [String.length drop append] in D.
      cbn [String.length Nat.sub]. rewrite Nat.sub_0_r. symmetry. exact D.
    + rewrite IH. cbn [drop]. rewrite str_app_assoc. reflexivity.
Qed.

Lemma concat_py_split (c0 : ascii) (sep0 s : string) :
  String.concat (String c0 sep0) (py_split (String c0 sep0) s) = s.
Proof.
  unfold py_split. rewrite concat_split_go. reflexivity.
Qed.

Lemma split_go_without_separator (sep s : string) :
  contains sep s = false ->
  forall cur, split_go sep s 0 cur = [cur ++ s].
Proof.
  induction s as [|c s IH]; intros H cur.
  - cbn [split_go]. rewrite str_app_nil_r. reflexivity.
  - rewrite contains_cons in H. apply orb_false_iff in H. destruct H as [Hp Hc].
    cbn [split_go]. rewrite Hp, (IH Hc). rewrite str_app_assoc. reflexivity.
Qed.

Lemma py_split_two_contains (sep s a b : string) :
  py_split sep s = [a; b] -> contains sep s = true.
Proof.
  intros H. destruct (contains sep s) eqn:E; [reflexivity|].
  unfold py_split in H. rewrite (split_go_without_separator sep s E) in H. discriminate.
Qed.

(** X12: for a string url of the form scheme://host/path (one "://" before
    the first '?', and a '/' after the host), the raw a query add rebuilds
    is the url up to its first '?', then "?key=value": the structured fields
    give the url back, and the query text the string had is dropped. *)
Theorem query_add_rebuilds_string_url
        (d r u : dict) (s base scheme rest h p : string) (ps : list string)
        (K : string) (V : json) :
  dict_get "request" d = Some (JObj r) ->
  dict_get "url" r = Some (JStr s) ->
  py_index (py_split "?" s) 0 = Ok base ->
  py_split "://" base = [scheme; rest] ->
  py_split "/" rest = h :: p :: ps ->
  add_directive K V u ->
  exists du,
    apply_update (JObj d) ("query_params", JObj u)
    = Ok (JObj (dict_set "request" (JObj (dict_set "url" (JObj du) r)) d))
    /\ dict_get "raw" du = Some (JStr (base ++ "?" ++ K ++ "=" ++ py_str V))
    /\ dict_get "protocol" du = Some (JStr scheme)
    /\ dict_get "host" du = Some (JArr (map JStr (py_split "." h)))
    /\ dict_get "path" du = Some (JArr (map JStr (p :: ps))).
Proof.
  intros Hr Hu Hb Hs Hp Hd.
  assert (N : normalize_url s
              = Ok (converted s (JStr scheme) (py_split "." h) (p :: ps))).
  { unfold normalize_url. rewrite Hb. cbn [bind].
    rewrite (py_split_two_contains "://" base scheme rest Hs), Hs.
    cbn [py_index nth_error bind]. rewrite Hp. reflexivity. }
  assert (E : apply_update (JObj d) ("query_params", JObj u)
              = (url <- query_add (JObj u)
                          (converted s (JStr scheme) (py_split "." h) (p :: ps)) ;;
                 Ok (JObj (dict_set "request" (JObj (dict_set "url" url r)) d)))).
  { cbn [apply_update String.eqb Ascii.eqb Bool.eqb].
    rewrite (with_request_obj _ _ _ Hr).
    unfold query_params_update.
    rewrite (py_in_obj _ _ _ Hu). cbn [bind negb].
    rewrite (py_getitem_obj _ _ _ Hu). cbn [bind].
    rewrite structured_url_string, N. cbn [bind].
    destruct Hd as (Ha & _).
    rewrite (py_getitem_obj _ _ _ Ha). cbn [bind py_eq String.eqb Ascii.eqb Bool.eqb].
    destruct (query_add (JObj u) (converted s (JStr scheme) (py_split "." h) (p :: ps)));
      reflexivity. }
  rewrite (query_add_converted u s (JStr scheme) (py_split "." h) (p :: ps) K V Hd) in E.
  cbn [bind] in E.
  eexists. split; [exact E|]. split; [|split; [|split]]; try reflexivity.
  cbn [dict_get String.eqb Ascii.eqb Bool.eqb py_str]. do 2 f_equal.
  rewrite (concat_py_split "." EmptyString h).
  pose proof (concat_py_split "/" EmptyString rest) as Cr. rewrite Hp, concat_cons in Cr.
  pose proof (concat_py_split ":" "//" base) as Cb. rewrite Hs in Cb.
  cbn [String.concat] in Cb.
  rewrite <- Cb, <- Cr. rewrite !str_app_assoc. reflexivity.
Qed.

Lemma query_add_rebuilds_string_url_witness :
  exists du,
    apply_update (JObj [("request", JObj [("url", JStr "https://h.io/a/b?old=1")])])
                 ("query_params",
                  JObj [("action", JStr "add"); ("key", JStr "k"); ("value", JStr "v")])
    = Ok (JObj (dict_set "request"
                  (JObj (dict_set "url" (JObj du) [("url", JStr "https://h.io/a/b?old=1")]))
                  [("request", JObj [("url", JStr "https://h.io/a/b?old=1")])]))
    /\ dict_get "raw" du = Some (JStr ("https://h.io/a/b" ++ "?" ++ "k" ++ "=" ++ "v")).
Proof.
  destruct (query_add_rebuilds_string_url
              [("request", JObj [("url", JStr "https://h.io/a/b?old=1")])]
              [("url", JStr "https://h.io/a/b?old=1")]
              [("action", JStr "add"); ("key", JStr "k"); ("value", JStr "v")]
              "https://h.io/a/b?old=1" "https://h.io/a/b" "https" "h.io/a/b" "h.io" "a" ["b"]
              "k" (JStr "v"))
    as (du & E & Eraw & _).
  - reflexivity.
  - reflexivity.
  - reflexivity.
  - reflexivity.
  - reflexivity.
  - repeat split.
  - exists du. split; [exact E | exact Eraw].
Defined.

(** * Properties of the routes *)

Lemma write_same (st : store) (path : string) (c : content) :
  write st path c path = File c.
Proof. unfold write. rewrite String.eqb_refl. reflexivity. Qed.

Lemma write_other (st : store) (path p : string) (c : content) :
  p <> path -> write st path c p = st p.
Proof.
  intros H. unfold write. destruct (String.eqb p path) eqn:E; [|reflexivity].
  apply String.eqb_eq in E. contradiction.
Qed.

(** X13: [update_collection] stores whatever value comes under 'collection',
    unvalidated, and [get_collection] and [export_collection] of the same
    name then return that value; no other file of the folder changes. *)
Theorem update_collection_then_get
        (sf : string -> string) (st : store) (dd : dict) (f : string) (v : json) :
  dict_get "filename" dd = Some (JStr f) ->
  dict_get "collection" dd = Some v ->
  st (upload_path sf f) <> Directory ->
  exists st',
    update_collection sf st (JObj dd) = (Json 200 (JObj [("success", JBool true)]), st')
    /\ get_collection sf st' f = Json 200 v
    /\ export_collection sf st' f = Attachment (Parsed v)
    /\ forall p, p <> upload_path sf f -> st' p = st p.
Proof.
  intros Hf Hc Hd.
  exists (write st (upload_path sf f) (Parsed v)).
  split; [|split; [|split]].
  - unfold update_collection.
    destruct dd as [|kv dd]; [discriminate|].
    cbn [py_truthy negb].
    rewrite (py_in_obj _ _ _ Hf), (py_in_obj _ _ _ Hc).
    rewrite (py_getitem_obj _ _ _ Hf), (py_getitem_obj _ _ _ Hc).
    destruct (st (upload_path sf f)); [reflexivity | contradiction | reflexivity].
  - unfold get_collection. rewrite write_same. reflexivity.
  - unfold export_collection. rewrite write_same. reflexivity.
  - intros p Hp. apply write_other. exact Hp.
Qed.

Lemma update_collection_then_get_witness :
  exists st',
    update_collection (fun s => s) (fun _ => Absent)
      (JObj [("filename", JStr "c.json"); ("collection", JNull)])
    = (Json 200 (JObj [("success", JBool true)]), st')
    /\ get_collection (fun s => s) st' "c.json" = Json 200 JNull.
Proof.
  destruct (update_collection_then_get (fun s => s) (fun _ => Absent)
              [("filename", JStr "c.json"); ("collection", JNull)] "c.json" JNull)
    as (st' & E & G & _).
  - reflexivity.
  - reflexivity.
  - discriminate.
  - exists st'. split; [exact E | exact G].
Defined.

(** X14: [upload_collection] saves the file before it looks inside: once
    the name passes the two checks, the content is in the folder under the
    secured name whatever the answer is; a file answered with 400 for invalid
    JSON can be exported, and a dict answered with 400 for a missing 'info' or
    'item' is what [get_collection] then returns. *)
Theorem upload_collection_saves_before_validating
        (sf : string -> string) (st : store) (filename : string) (c : content) :
  filename <> EmptyString ->
  ends_with ".json" filename = true ->
  st (upload_path sf filename) <> Directory ->
  snd (upload_collection sf st (Some (filename, c)))
  = write st (upload_path sf filename) c
  /\ (c = BadJson ->
      fst (upload_collection sf st (Some (filename, c)))
      = Json 400 (error "Invalid JSON file")
      /\ export_collection sf (snd (upload_collection sf st (Some (filename, c)))) filename
         = Attachment BadJson)
  /\ (forall cd,
         c = Parsed (JObj cd) ->
         dict_get "info" cd = None \/ dict_get "item" cd = None ->
         fst (upload_collection sf st (Some (filename, c)))
         = Json 400 (error "Invalid Postman collection format")
         /\ get_collection sf (snd (upload_collection sf st (Some (filename, c)))) filename
            = Json 200 (JObj cd)).
Proof.
  intros Hn He Hd.
  assert (S : snd (upload_collection sf st (Some (filename, c)))
              = write st (upload_path sf filename) c).
  { unfold upload_collection.
    destruct (String.eqb filename EmptyString) eqn:E;
      [apply String.eqb_eq in E; contradiction|].
    rewrite He. cbn [negb]. fold (upload_path sf filename).
    destruct (st (upload_path sf filename)) eqn:Es; [|contradiction|];
      (destruct c as [v| |]; [|reflexivity|reflexivity];
       destruct (py_in "info" v) as [[|]|]; try reflexivity;
       destruct (py_in "item" v) as [[|]|]; reflexivity). }
  split; [exact S|]. split.
  - intros ->. rewrite S. split.
    + unfold upload_collection.
      destruct (String.eqb filename EmptyString) eqn:E;
        [apply String.eqb_eq in E; contradiction|].
      rewrite He. cbn [negb]. fold (upload_path sf filename).
      destruct (st (upload_path sf filename)); [reflexivity | contradiction | reflexivity].
    + unfold export_collection. rewrite write_same. reflexivity.
  - intros cd -> Hm. rewrite S. split.
    + unfold upload_collection.
      destruct (String.eqb filename EmptyString) eqn:E;
        [apply String.eqb_eq in E; contradiction|].
      rewrite He. cbn [negb py_in]. fold (upload_path sf filename).
      destruct (st (upload_path sf filename)); [|contradiction|];
        (destruct (dict_get "info" cd); [|reflexivity];
         destruct Hm as [Hm | ->]; [discriminate | reflexivity]).
    + unfold get_collection. rewrite write_same. reflexivity.
Qed.

Lemma upload_collection_saves_before_validating_witness :
  fst (upload_collection (fun s => s) (fun _ => Absent)
         (Some ("c.json", Parsed (JObj [("item", JArr [])]))))
  = Json 400 (error "Invalid Postman collection format")
  /\ get_collection (fun s => s)
       (snd (upload_collection (fun s => s) (fun _ => Absent)
               (Some ("c.json", Parsed (JObj [("item", JArr [])])))))
       "c.json"
     = Json 200 (JObj [("item", JArr [])]).
Proof.
  destruct (upload_collection_saves_before_validating (fun s => s) (fun _ => Absent)
              "c.json" (Parsed (JObj [("item", JArr [])])))
    as (_ & _ & H).
  - discriminate.
  - reflexivity.
  - discriminate.
  - apply (H [("item", JArr [])]); [reflexivity | left; reflexivity].
Defined.

Lemma bulk_update_route_well_formed
      (sf : string -> string) (depth : nat) (st : store) (dd : dict) (f : string)
      (updates : json) :
  dict_get "filename" dd = Some (JStr f) ->
  dict_get "updates" dd = Some updates ->
  bulk_update_route sf depth st (JObj dd)
  = match update_stored updates (load st (upload_path sf f)) with
    | Ok collection =>
        if jsonify_raises depth (JObj [("success", JBool true); ("collection", collection)])
        then (ServerError500, write st (upload_path sf f) (Parsed collection))
        else (Json 200 (JObj [("success", JBool true); ("collection", collection)]),
              write st (upload_path sf f) (Parsed collection))
    | Raise _ => (ServerError500, st)
    end.
Proof.
  intros Hf Hu. unfold bulk_update_route.
  destruct dd as [|kv dd]; [discriminate|].
  cbn [py_truthy negb].
  rewrite (py_in_obj _ _ _ Hf), (py_in_obj _ _ _ Hu).
  rewrite (py_getitem_obj _ _ _ Hf), (py_getitem_obj _ _ _ Hu). reflexivity.
Qed.



(** X16: a bulk update that names a file [upload_collection] has just saved
    works on the uploaded document: it answers 500 when the walk raises, and
    when the answer is deeper than [jsonify] encodes; otherwise 200 with the
    updated collection. *)
Theorem upload_then_bulk_update
        (sf : string -> string) (depth : nat) (st : store) (filename f : string)
        (cd dd : dict) (items updates : json) :
  filename <> EmptyString ->
  ends_with ".json" filename = true ->
  st (upload_path sf filename) <> Directory ->
  dict_get "item" cd = Some items ->
  dict_get "filename" dd = Some (JStr f) ->
  sf f = sf filename ->
  dict_get "updates" dd = Some updates ->
  fst (bulk_update_route sf depth
         (snd (upload_collection sf st (Some (filename, Parsed (JObj cd)))))
         (JObj dd))
  = match process_items updates items with
    | Ok items' =>
        if (depth <? json_depth (JObj [("success", JBool true);
                                       ("collection", JObj (dict_set "item" items' cd))]))%nat
        then ServerError500
        else Json 200 (JObj [("success", JBool true);
                             ("collection", JObj (dict_set "item" items' cd))])
    | Raise _ => ServerError500
    end.
Proof.
  intros Hn He Hd Hit Hf Hsf Hu.
  assert (U : snd (upload_collection sf st (Some (filename, Parsed (JObj cd))))
              = write st (upload_path sf filename) (Parsed (JObj cd))).
  { unfold upload_collection.
    destruct (String.eqb filename EmptyString) eqn:E;
      [apply String.eqb_eq in E; contradiction|].
    rewrite He. cbn [negb py_in]. fold (upload_path sf filename).
    rewrite Hit.
    destruct (st (upload_path sf filename)); [|contradiction|];
      destruct (dict_get "info" cd); reflexivity. }
  rewrite U.
  rewrite (bulk_update_route_well_formed sf depth _ dd f updates Hf Hu).
  assert (P : upload_path sf f = upload_path sf filename).
  { unfold upload_path. rewrite Hsf. reflexivity. }
  rewrite P. unfold load. rewrite write_same.
  unfold update_stored. cbn [bind]. rewrite (py_getitem_obj _ _ _ Hit). cbn [bind].
  destruct (process_items updates items) as [items'|e]; [|reflexivity].
  cbn [bind py_setitem]. unfold jsonify_raises.
  destruct (depth <? json_depth (JObj [("success", JBool true);
                                        ("collection", JObj (dict_set "item" items' cd))]))%nat;
    reflexivity.
Qed.

Lemma upload_then_bulk_update_witness :
  fst (bulk_update_route (fun s => s) 900
         (snd (upload_collection (fun s => s) (fun _ => Absent)
                 (Some ("c.json",
                        Parsed (JObj [("info", JObj []);
                                      ("item", JArr [JObj [("request", JObj [])]])])))))
         (JObj [("filename", JStr "c.json");
                ("updates", JObj [("headers", JObj [("action", JStr "add");
                                                    ("key", JStr "A");
                                                    ("value", JStr "1")])])]))
  = Json 200
      (JObj [("success", JBool true);
             ("collection",
              JObj [("info", JObj []);
                    ("item",
                     JArr [JObj [("request",
                                  JObj [("header",
                                         JArr [JObj [("key", JStr "A");
                                                     ("value", JStr "1");
                                                     ("type", JStr "text")]])])]])])]).
Proof.
  rewrite (upload_then_bulk_update (fun s => s) 900 (fun _ => Absent) "c.json" "c.json"
             [("info", JObj []); ("item", JArr [JObj [("request", JObj [])]])]
             [("filename", JStr "c.json");
              ("updates", JObj [("headers", JObj [("action", JStr "add");
                                                  ("key", JStr "A");
                                                  ("value", JStr "1")])])]
             (JArr [JObj [("request", JObj [])]])
             (JObj [("headers", JObj [("action", JStr "add"); ("key", JStr "A");
                                      ("value", JStr "1")])])).
  - reflexivity.
  - discriminate.
  - reflexivity.
  - discriminate.
  - reflexivity.
  - reflexivity.
  - reflexivity.
  - reflexivity.
Defined.

(** * Further properties of the engine, continued *)

Example ends_with_cases :
  ends_with ".json" "c.json" = true
  /\ ends_with ".json" ".json" = true
  /\ ends_with ".json" "json" = false
  /\ ends_with ".json" "c.json.txt" = false
  /\ os_path_join UPLOAD_FOLDER "c.json" = "uploads/c.json".
Proof. repeat split. Qed.

(** X17: a query_params remove of key K after a query_params add of key K
    leaves the query entries that had another key, but raw stays the one the
    add rebuilt, with K in it: the removal is not reflected in raw. *)
Theorem query_remove_after_add_keeps_raw
        (d r u u' : dict) (url : json) (K : string) (V : json) :
  dict_get "request" d = Some (JObj r) ->
  dict_get "url" r = Some url ->
  wf_url url = true ->
  add_directive K V u ->
  remove_directive K u' ->
  exists d0 qs item1 du1 du2 raw,
    structured_url url = Ok (JObj d0)
    /\ dict_get "query" d0 = Some (JArr qs)
    /\ apply_update (JObj d) ("query_params", JObj u) = Ok item1
    /\ item1 = JObj (dict_set "request" (JObj (dict_set "url" (JObj du1) r)) d)
    /\ rebuild_raw (JObj du1) = Ok raw
    /\ count_key K (match dict_get "query" du1 with Some (JArr l) => l | _ => [] end) >= 1
    /\ apply_update item1 ("query_params", JObj u')
       = Ok (JObj (dict_set "request" (JObj (dict_set "url" (JObj du2) r)) d))
    /\ dict_get "query" du2 = Some (JArr (filter (fun e => negb (key_is K e)) qs))
    /\ dict_get "raw" du2 = Some (JStr raw).
Proof.
  intros Hr Hu Hw Hd (Ha' & Hk').
  destruct (structured_url_wf url Hw) as (d0 & qs & host & path & Hs & Hq & Hqs & Hh & Hp & _).
  destruct (query_add_list d0 u K V qs host path Hq Hqs Hh Hp Hd) as (qs' & raw & E & Hfm & Hraw).
  pose proof Hd as (Ha & _).
  set (d1 := dict_set "raw" (JStr raw) (dict_set "query" (JArr qs') d0)) in *.
  assert (Hq1 : dict_get "query" d1 = Some (JArr qs')).
  { unfold d1. rewrite dict_get_set_other by discriminate. apply dict_get_set_same. }
  assert (Hqs' : forallb is_param qs' = true).
  { apply (first_match_updated_params K V (JObj [("key", JStr K); ("value", V)]) qs qs');
      [reflexivity | exact Hqs | exact Hfm]. }
  assert (Hnew : key_is K (JObj [("key", JStr K); ("value", V)]) = true).
  { unfold key_is. cbn [dict_get String.eqb Ascii.eqb Bool.eqb py_eq].
    apply String.eqb_refl. }
  assert (Hs1 : structured_url (JObj d1) = Ok (JObj d1)).
  { unfold structured_url. cbn [bind py_in]. rewrite Hq1. reflexivity. }
  exists d0, qs.
  exists (JObj (dict_set "request" (JObj (dict_set "url" (JObj d1) r)) d)).
  exists d1, (dict_set "query" (JArr (filter (fun e => negb (key_is K e)) qs)) d1), raw.
  split; [exact Hs|]. split; [exact Hq|]. split.
  { rewrite (query_params_step d r u url d0 "add" Hr Hu Hs Ha).
    cbn [String.eqb Ascii.eqb Bool.eqb]. rewrite E. reflexivity. }
  split; [reflexivity|]. split; [exact Hraw|]. split.
  { rewrite Hq1, (first_match_updated_count K V _ qs qs' Hnew Hfm). lia. }
  split; [|split].
  - rewrite (query_params_step _ _ u' (JObj d1) d1 "remove"
               (dict_get_set_same _ _ _) (dict_get_set_same _ _ _) Hs1 Ha').
    cbn [String.eqb Ascii.eqb Bool.eqb].
    rewrite (query_remove_list d1 u' K qs' Hq1 (is_param_has_key qs' Hqs') Hk').
    cbn [bind].
    rewrite (first_match_updated_others K V _ qs qs' Hnew Hfm), !dict_set_set.
    reflexivity.
  - apply dict_get_set_same.
  - rewrite dict_get_set_other by discriminate. unfold d1. apply dict_get_set_same.
Qed.

Lemma query_remove_after_add_keeps_raw_witness :
  exists item1,
    apply_update (JObj [("request", JObj [("url", JStr "https://h.io/p")])])
                 ("query_params",
                  JObj [("action", JStr "add"); ("key", JStr "a"); ("value", JStr "1")])
    = Ok item1
    /\ apply_update item1 ("query_params", JObj [("action", JStr "remove"); ("key", JStr "a")])
       = Ok (JObj [("request",
                    JObj [("url", JObj [("raw", JStr "https://h.io/p?a=1");
                                        ("protocol", JStr "https");
                                        ("host", JArr [JStr "h"; JStr "io"]);
                                        ("path", JArr [JStr "p"]);
                                        ("query", JArr [])])])]).
Proof.
  destruct (query_remove_after_add_keeps_raw
              [("request", JObj [("url", JStr "https://h.io/p")])]
              [("url", JStr "https://h.io/p")]
              [("action", JStr "add"); ("key", JStr "a"); ("value", JStr "1")]
              [("action", JStr "remove"); ("key", JStr "a")]
              (JStr "https://h.io/p") "a" (JStr "1"))
    as (d0 & qs & item1 & du1 & du2 & raw & _ & _ & E1 & _).
  - reflexivity.
  - reflexivity.
  - reflexivity.
  - repeat split.
  - split; reflexivity.
  - exists item1. split; [exact E1|].
    assert (I : Ok item1
                = apply_update (JObj [("request", JObj [("url", JStr "https://h.io/p")])])
                    ("query_params",
                     JObj [("action", JStr "add"); ("key", JStr "a"); ("value", JStr "1")])).
    { symmetry. exact E1. }
    vm_compute in I. injection I as ->. reflexivity.
Defined.

Lemma update_request_headers_remove (u : dict) (K : string) (req : json) :
  keyed_headers req = true ->
  remove_directive K u ->
  exists req',
    update_request (JObj [("headers", JObj u)]) req = Ok req'
    /\ no_header_with K req' = true.
Proof.
  intros Hk (Ha & Hkey).
  assert (S : update_request (JObj [("headers", JObj u)]) req
              = headers_remove (JObj u) req).
  { rewrite update_request_fold.
    cbn [py_items bind foldM update_step String.eqb Ascii.eqb Bool.eqb].
    rewrite (py_getitem_obj _ _ _ Ha). cbn [bind py_eq String.eqb Ascii.eqb Bool.eqb].
    destruct (headers_remove (JObj u) req); reflexivity. }
  rewrite S.
  destruct req as [| | | | |r]; try discriminate.
  cbn [keyed_headers] in Hk.
  destruct (dict_get "header" r) as [[| | | |hs|]|] eqn:Eh; try discriminate.
  - rewrite (headers_remove_list r u K hs Eh Hk Hkey).
    eexists. split; [reflexivity|].
    cbn [no_header_with]. rewrite dict_get_set_same, count_key_filtered. reflexivity.
  - exists (JObj r). split.
    + unfold headers_remove. cbn [py_in]. rewrite Eh. reflexivity.
    + cbn [no_header_with]. rewrite Eh. reflexivity.
Qed.

(** X18: on a tree of items whose requests all have keyed headers, the bulk
    headers remove of key K succeeds and no request of the result, at any
    depth, has a header with key K. *)
Theorem bulk_headers_remove_everywhere (u : dict) (K : string) (items : json) :
  wf_tree items = true ->
  forallb keyed_headers (requests_of items) = true ->
  remove_directive K u ->
  exists items',
    process_items (JObj [("headers", JObj u)]) items = Ok items'
    /\ forallb (no_header_with K) (requests_of items') = true
    /\ List.length (requests_of items') = List.length (requests_of items).
Proof.
  intros Hw Hk Hd.
  set (updates := JObj [("headers", JObj u)]).
  rewrite forallb_forall in Hk.
  pose proof (proj1 (process_items_requests updates items) Hw) as E.
  destruct (mapM_total (update_request updates) (requests_of items)) as (reqs' & Em).
  { intros req Hin.
    destruct (update_request_headers_remove u K req (Hk req Hin) Hd) as (req' & E1 & _).
    exists req'. exact E1. }
  rewrite Em in E.
  destruct (process_items updates items) as [items'|e] eqn:Ep; [|discriminate].
  cbn [bind] in E. injection E as E.
  exists items'. split; [reflexivity|].
  pose proof (mapM_Forall2 _ _ _ Em) as F. rewrite E. split.
  - apply forallb_forall. intros req' Hin.
    destruct (Forall2_in_right _ _ _ req' F Hin) as (req & Hreq & Hr).
    destruct (update_request_headers_remove u K req (Hk req Hreq) Hd) as (req1 & E1 & N).
    fold updates in E1. rewrite Hr in E1. injection E1 as ->. exact N.
  - symmetry. apply (Forall2_length F).
Qed.

Lemma bulk_headers_remove_everywhere_witness :
  exists items',
    process_items
      (JObj [("headers", JObj [("action", JStr "remove"); ("key", JStr "A")])])
      (JArr [JObj [("item",
                    JArr [JObj [("request",
                                 JObj [("header", JArr [JObj [("key", JStr "A");
                                                              ("value", JStr "0")]])])]])];
             JObj [("request", JObj [])]])
    = Ok items'
    /\ forallb (no_header_with "A") (requests_of items') = true
    /\ List.length (requests_of items') = 2.
Proof.
  apply (bulk_headers_remove_everywhere
           [("action", JStr "remove"); ("key", JStr "A")] "A"
           (JArr [JObj [("item",
                         JArr [JObj [("request",
                                      JObj [("header", JArr [JObj [("key", JStr "A");
                                                                   ("value", JStr "0")]])])]])];
                  JObj [("request", JObj [])]])).
  - reflexivity.
  - reflexivity.
  - split; reflexivity.
Defined.

(** * The coverage of the walk *)













(** ** The answer of the call on a deep tree *)

Lemma json_depth_field (k : string) (v : json) (d : dict) :
  dict_get k d = Some v -> (json_depth v < json_depth (JObj d))%nat.
Proof.
  induction d as [|[k' v'] d IH]; cbn [dict_get]; [discriminate|].
  destruct (String.eqb k' k).
  - intros [= ->]. cbn [json_depth]. lia.
  - intros H. specialize (IH H). cbn [json_depth] in IH |- *. lia.
Qed.

Lemma json_depth_folders (n : nat) (items : json) :
  json_depth (folders n items) = (2 * n + json_depth items)%nat.
Proof.
  induction n as [|n IH]; [reflexivity|].
  cbn [folders json_depth fold_right]. rewrite IH. lia.
Qed.

(** The walk goes through folders that hold no request. *)
Lemma process_items_folders (updates items items' : json) (n : nat) :
  process_items updates items = Ok items' ->
  process_items updates (folders n items) = Ok (folders n items').
Proof.
  intros H. induction n as [|n IH]; [exact H|].
  cbn [folders].
  change (process_items updates (JArr [JObj [("item", folders n items)]]))
    with (l' <- mapM (process_item updates) [JObj [("item", folders n items)]] ;;
          Ok (JArr l')).
  cbn [mapM]. rewrite process_item_obj, visit_request_obj.
  cbn [dict_get String.eqb Ascii.eqb Bool.eqb bind py_in].
  rewrite IH. reflexivity.
Qed.

(** Whatever nesting [jsonify] encodes, a tree of folders nested deep enough
    is walked and written back, and the call answers 500. *)
Lemma bulk_update_route_deep_tree
      (sf : string -> string) (depth n : nat) (st : store) (f : string)
      (dd cd : dict) (updates items items' : json) :
  dict_get "filename" dd = Some (JStr f) ->
  dict_get "updates" dd = Some updates ->
  st (upload_path sf f) = File (Parsed (JObj cd)) ->
  dict_get "item" cd = Some (folders n items) ->
  process_items updates items = Ok items' ->
  (depth < 2 * n + 2)%nat ->
  fst (bulk_update_route sf depth st (JObj dd)) = ServerError500
  /\ snd (bulk_update_route sf depth st (JObj dd)) (upload_path sf f)
     = File (Parsed (JObj (dict_set "item" (folders n items') cd))).
Proof.
  intros Hf Hu Hst Hi Hp Hd.
  rewrite (bulk_update_route_well_formed sf depth st dd f updates Hf Hu).
  unfold load. rewrite Hst. unfold update_stored. cbn [bind].
  rewrite (py_getitem_obj _ _ _ Hi). cbn [bind].
  rewrite (process_items_folders updates items items' n Hp). cbn [bind py_setitem].
  assert (D : (depth < json_depth (JObj [("success", JBool true);
                                         ("collection",
                                          JObj (dict_set "item" (folders n items') cd))]))%nat).
  { pose proof (json_depth_field "item" (folders n items')
                  (dict_set "item" (folders n items') cd) (dict_get_set_same _ _ _)) as D1.
    pose proof (json_depth_field "collection"
                  (JObj (dict_set "item" (folders n items') cd))
                  [("success", JBool true);
                   ("collection", JObj (dict_set "item" (folders n items') cd))]
                  eq_refl) as D2.
    rewrite json_depth_folders in D1. lia. }
  unfold jsonify_raises. apply Nat.ltb_lt in D. rewrite D. cbn [fst snd].
  split; [reflexivity | apply write_same].
Qed.

